(** * Fake_news_finder: the scoring engine of [fake_news_detector.py]

    A shallow embedding of [SimpleRuleBasedDetector], [TransformerBasedDetector]
    and [FakeNewsDetector] (file [fake_news_detector.py]) and of the batch loop
    of [detector_app.py], followed by the properties of the scoring, fusion and
    verdict construction; then of the callers of the engine: the article
    fetcher of [url_analyzer.py], the command line of [detector_app.py] and
    the handlers of [app.py].

    Conventions of the embedding.
    - A Python [str] is a [string] whose characters are the code points
      0..255 (Latin-1): the character predicates below ([isspace], [isupper],
      [isalpha], [lower]) are Python's on these code points.  Texts with
      code points above 255 are outside the embedding.
    - A Python [dict] is an association list in insertion order.
    - A Python [float] is a member of the interface [PyNum].  Two instances are
      given: exact rationals ([Q]), over which the general properties are
      proved, and IEEE binary64 ([PrimFloat]), over which the concrete
      scenarios are replayed bit for bit.
    - In the engine a Python exception that leaves a function is the result
      [None], and [print] calls are not modelled.  The callers keep the class
      and the text of an exception ([result]) and, for the command line, the
      lines printed ([Cli.printing]).
    - The network, the HTML parser, the file system and the keyboard are
      given to the callers as what they answer. *)

From Stdlib Require Import Bool Arith List String Ascii ZArith QArith Qabs Qminmax Lia Lqa.
From Stdlib Require Import Floats.PrimFloat Floats.SpecFloat Floats.FloatOps Numbers.Cyclic.Int63.Uint63.
Import ListNotations.

Local Open Scope string_scope.
Local Open Scope list_scope.
Local Open Scope nat_scope.

(** ** Python strings *)

Module PyStr.

Definition code (c : ascii) : nat := nat_of_ascii c.

(** [str.isspace] on one character: TAB, LF, VT, FF, CR, FS, GS, RS, US,
    the space, NEL (133) and the no-break space (160).  These are also the
    characters [strip()] and [split()] take for white space and the regular
    expression [\s] matches. *)
Definition isspace (c : ascii) : bool :=
  let n := code c in
  ((9 <=? n) && (n <=? 13)) || ((28 <=? n) && (n <=? 32))
  || (n =? 133) || (n =? 160).

(** [str.isupper] on one character: A-Z and the capitals of Latin-1, 192-214
    and 216-222 (215 is the multiplication sign). *)
Definition isupper (c : ascii) : bool :=
  let n := code c in
  ((65 <=? n) && (n <=? 90)) || ((192 <=? n) && (n <=? 214))
  || ((216 <=? n) && (n <=? 222)).

(** [str.islower] on one character: a-z, the ordinal indicators (170, 186),
    the micro sign (181) and the small letters of Latin-1, 223-246 and
    248-255 (247 is the division sign). *)
Definition islower (c : ascii) : bool :=
  let n := code c in
  ((97 <=? n) && (n <=? 122)) || (n =? 170) || (n =? 181) || (n =? 186)
  || ((223 <=? n) && (n <=? 246)) || ((248 <=? n) && (n <=? 255)).

(** [str.isalpha] on one character: on these code points the letters are
    the capitals and the small letters. *)
Definition isalpha (c : ascii) : bool := isupper c || islower c.

(** [c.lower()]: on these code points the small letter of a capital is 32
    further. *)
Definition lower_char (c : ascii) : ascii :=
  if isupper c then ascii_of_nat (code c + 32) else c.

(** [s.lower()] *)
Fixpoint lower (s : string) : string :=
  match s with
  | EmptyString => EmptyString
  | String c s' => String (lower_char c) (lower s')
  end.

(** [s.lstrip()], [s.rstrip()], [s.strip()] *)
Fixpoint lstrip (s : string) : string :=
  match s with
  | EmptyString => EmptyString
  | String c s' => if isspace c then lstrip s' else s
  end.

Fixpoint rstrip (s : string) : string :=
  match s with
  | EmptyString => EmptyString
  | String c s' =>
      match rstrip s' with
      | EmptyString => if isspace c then EmptyString else String c EmptyString
      | r => String c r
      end
  end.

Definition strip (s : string) : string := rstrip (lstrip s).

(** [needle in hay] *)
Fixpoint contains (needle hay : string) : bool :=
  String.prefix needle hay ||
  match hay with
  | EmptyString => false
  | String _ hay' => contains needle hay'
  end.

(** [s.count(c)] for a one-character argument *)
Fixpoint count (c : ascii) (s : string) : nat :=
  match s with
  | EmptyString => 0
  | String d s' => (if Ascii.eqb c d then 1 else 0) + count c s'
  end.

(** [sum(1 for c in s if p(c))] and [len([c for c in s if p(c)])] *)
Fixpoint count_if (p : ascii -> bool) (s : string) : nat :=
  match s with
  | EmptyString => 0
  | String c s' => (if p c then 1 else 0) + count_if p s'
  end.

(** [s.split()]: the maximal runs of characters that are not white space.
    [word] accumulates the run being read. *)
Fixpoint split_from (word : string) (s : string) : list string :=
  match s with
  | EmptyString =>
      match word with EmptyString => [] | _ => [word] end
  | String c s' =>
      if isspace c
      then match word with
           | EmptyString => split_from EmptyString s'
           | _ => word :: split_from EmptyString s'
           end
      else split_from (word ++ String c EmptyString) s'
  end.

Definition split (s : string) : list string := split_from EmptyString s.

(** [s[:n]] *)
Fixpoint take (n : nat) (s : string) : string :=
  match n, s with
  | S n', String c s' => String c (take n' s')
  | _, _ => EmptyString
  end.

Definition blank (s : string) : bool :=
  match strip s with EmptyString => true | _ => false end.

Fixpoint all_space (s : string) : bool :=
  match s with
  | EmptyString => true
  | String c s' => isspace c && all_space s'
  end.

End PyStr.

(** ** The regular expressions of [SUSPICIOUS_PATTERNS]

    Every pattern of the source carries the flag [(?i)] and is either a
    literal or a bounded-below repetition of a character class; [re.search]
    succeeds when the pattern matches at some position of the text. *)

Module Re.
Import PyStr.

Inductive regex : Type :=
| ILit (s : string)                    (* (?i)s, s without metacharacters *)
| IClassAtLeast (cls : list ascii) (n : nat).   (* (?i)[cls]{n,} *)

Definition eq_ignorecase (a b : ascii) : bool :=
  Ascii.eqb (lower_char a) (lower_char b).

Fixpoint lit_here (p s : string) : bool :=
  match p, s with
  | EmptyString, _ => true
  | String _ _, EmptyString => false
  | String a p', String b s' => eq_ignorecase a b && lit_here p' s'
  end.

Fixpoint class_here (cls : list ascii) (n : nat) (s : string) : bool :=
  match n, s with
  | O, _ => true
  | S _, EmptyString => false
  | S n', String c s' => existsb (eq_ignorecase c) cls && class_here cls n' s'
  end.

Definition match_here (r : regex) (s : string) : bool :=
  match r with
  | ILit p => lit_here p s
  | IClassAtLeast cls n => class_here cls n s
  end.

Fixpoint search_from (m : string -> bool) (s : string) : bool :=
  m s ||
  match s with
  | EmptyString => false
  | String _ s' => search_from m s'
  end.

(** [bool(re.search(r, s))] *)
Definition search (r : regex) (s : string) : bool :=
  search_from (match_here r) s.

End Re.

(** ** Python numbers *)

(** The operations of [float] the detector uses.  [lit n d] is the decimal
    literal [n/d] (as in [0.15 = lit 15 100]); [of_nat] converts an [int];
    [ltb x y] is [x < y] and [eqb x y] is [x == y]; [round3 x] is
    [round(x, 3)]. *)
Class PyNum (F : Type) : Type := {
  lit    : Z -> positive -> F;
  of_nat : nat -> F;
  add    : F -> F -> F;
  sub    : F -> F -> F;
  mul    : F -> F -> F;
  div    : F -> F -> F;
  fabs   : F -> F;
  ltb    : F -> F -> bool;
  eqb    : F -> F -> bool;
  round3 : F -> F
}.

(** Round to the nearest integer, ties to even. *)
Definition round_half_even (n : Z) (d : positive) : Z :=
  let q := (n / Zpos d)%Z in
  let r := (n mod Zpos d)%Z in
  match (2 * r ?= Zpos d)%Z with
  | Lt => q
  | Gt => (q + 1)%Z
  | Eq => if Z.even q then q else (q + 1)%Z
  end.

Module Exact.

Definition round3_Q (x : Q) : Q :=
  (round_half_even (Qnum x * 1000)%Z (Qden x) # 1000)%Q.

Definition ltb_Q (x y : Q) : bool :=
  match (x ?= y)%Q with Lt => true | _ => false end.

#[export] Instance num : PyNum Q := {|
  lit n d := (n # d)%Q;
  of_nat n := inject_Z (Z.of_nat n);
  add := Qplus;
  sub := Qminus;
  mul := Qmult;
  div := Qdiv;
  fabs := Qabs;
  ltb := ltb_Q;
  eqb := Qeq_bool;
  round3 := round3_Q
|}.

End Exact.

Module Binary64.

Definition of_Z (z : Z) : float :=
  match z with
  | Zneg p => PrimFloat.opp (PrimFloat.of_uint63 (Uint63.of_Z (Zpos p)))
  | _ => PrimFloat.of_uint63 (Uint63.of_Z z)
  end.

(** [round(x, 3)]: the exact value of [x] is rounded to three decimals, ties
    to even, and the decimal read back as the nearest double, which the
    correctly rounded quotient by 1000 is while the number of thousandths
    stays below 2^53, as it does for every score.  Values that are not finite
    or have no fractional part come back unchanged. *)
Definition round3_float (x : float) : float :=
  match Prim2SF x with
  | S754_finite s m e =>
      if (e <? 0)%Z then
        let n := round_half_even (Zpos m * 1000) (2 ^ Z.to_pos (- e)) in
        let r := PrimFloat.div (of_Z n) (of_Z 1000) in
        if s then PrimFloat.opp r else r
      else x
  | _ => x
  end.

#[export] Instance num : PyNum float := {|
  lit n d := PrimFloat.div (of_Z n) (of_Z (Zpos d));
  of_nat n := of_Z (Z.of_nat n);
  add := PrimFloat.add;
  sub := PrimFloat.sub;
  mul := PrimFloat.mul;
  div := PrimFloat.div;
  fabs := PrimFloat.abs;
  ltb := PrimFloat.ltb;
  eqb := PrimFloat.eqb;
  round3 := round3_float
|}.

End Binary64.

(** ** Python dictionaries and exceptions *)

#[warnings="-register-all"] Inductive value (F : Type) : Type :=
| VNum (x : F)
| VStr (s : string)
| VDict (d : list (string * value F)).

Arguments VNum {F} x.
Arguments VStr {F} s.
Arguments VDict {F} d.

Definition dict (F : Type) : Type := list (string * value F).

Module Dict.
Section Ops.
Context {F : Type}.

(** [d[k]]; [None] is [KeyError] *)
Fixpoint getitem (k : string) (d : dict F) : option (value F) :=
  match d with
  | [] => None
  | (k', v) :: d' => if String.eqb k k' then Some v else getitem k d'
  end.

(** [k in d] *)
Definition has_key (k : string) (d : dict F) : bool :=
  match getitem k d with Some _ => true | None => false end.

(** [d[k] = v]: an existing key keeps its place, a new one goes last *)
Fixpoint setitem (k : string) (v : value F) (d : dict F) : dict F :=
  match d with
  | [] => [(k, v)]
  | (k', v') :: d' =>
      if String.eqb k k' then (k, v) :: d' else (k', v') :: setitem k v d'
  end.

(** [list(d.keys())] *)
Definition keys (d : dict F) : list string := map fst d.

(** [d[k]] used as a number; a missing key or another kind of value
    raises *)
Definition getnum (k : string) (d : dict F) : option F :=
  match getitem k d with Some (VNum x) => Some x | _ => None end.

(** [d[k]] used as a string *)
Definition getstr (k : string) (d : dict F) : option string :=
  match getitem k d with Some (VStr s) => Some s | _ => None end.
End Ops.
End Dict.

Definition bind {A B : Type} (o : option A) (k : A -> option B) : option B :=
  match o with
  | Some a => k a
  | None => None
  end.

Notation "x <- e ;; k" := (bind e (fun x => k))
  (at level 61, e at next level, right associativity).

(** ** [class SimpleRuleBasedDetector] *)

Module SimpleRuleBasedDetector.
Import PyStr Re.

Definition SENSATIONAL_WORDS : list string :=
  [ "shocking"; "unbelievable"; "you won't believe"; "this will shock you";
    "celebrities hate"; "doctors hate"; "government doesn't want you to know";
    "one weird trick"; "number 7 will blow your mind"; "he did what?!";
    "she secretly"; "he secretly"; "this is why"; "the truth about" ].

Definition SUSPICIOUS_PATTERNS : list regex :=
  [ ILit "all caps";
    IClassAtLeast ["!"%char; "?"%char] 3;
    ILit "you won't believe";
    ILit "sponsored content" ].

Section Analyze.
Context {F : Type} {num : PyNum F}.

(** [min(a, b)]: the first argument unless the second is smaller *)
Definition pymin (a b : F) : F := if ltb b a then b else a.

(** [sum(xs)] *)
Definition pysum (xs : list F) : F := fold_left add xs (of_nat 0).

(** [sum(1 for word in SENSATIONAL_WORDS if word in text_lower)] *)
Definition sensational_count (text_lower : string) : nat :=
  List.length (filter (fun word => contains word text_lower) SENSATIONAL_WORDS).

(** [text.count("!") / max(len(text.split()), 1)] *)
Definition exclamation_ratio (text : string) : F :=
  div (of_nat (count "!"%char text))
      (of_nat (Nat.max (List.length (split text)) 1)).

(** [sum(1 for c in text if c.isupper())
     / max(len([c for c in text if c.isalpha()]), 1)] *)
Definition caps_ratio (text : string) : F :=
  div (of_nat (count_if isupper text))
      (of_nat (Nat.max (count_if isalpha text) 1)).

(** [analyze] appends to the list [scores] in five successive blocks; each
    is given here as the function from the list before it to the list after
    it. *)

(** [# Check for sensational words] *)
Definition check_sensational (text : string) (scores : list F) : list F :=
  let text_lower := lower text in
  let sensational_count := sensational_count text_lower in
  if 0 <? sensational_count
  then scores ++ [pymin (mul (of_nat sensational_count) (lit 15 100)) (lit 5 10)]
  else scores.

(** [# Check for excessive punctuation] *)
Definition check_punctuation (text : string) (scores : list F) : list F :=
  let exclamation_ratio := exclamation_ratio text in
  if ltb (lit 5 100) exclamation_ratio
  then scores ++ [pymin (mul exclamation_ratio (of_nat 2)) (lit 3 10)]
  else scores.

(** [# Check for caps lock abuse] *)
Definition check_caps (text : string) (scores : list F) : list F :=
  let caps_ratio := caps_ratio text in
  if ltb (lit 3 10) caps_ratio then scores ++ [lit 2 10] else scores.

(** [# Check for suspicious patterns]: the loop over the patterns *)
Definition check_patterns (text : string) (scores : list F) : list F :=
  fold_left
    (fun scores pattern =>
       if search pattern text then scores ++ [lit 15 100] else scores)
    SUSPICIOUS_PATTERNS scores.

(** [# Check text length] *)
Definition check_length (text : string) (scores : list F) : list F :=
  let word_count := List.length (split text) in
  if (word_count <? 5) || (500 <? word_count)
  then scores ++ [lit 1 10]
  else scores.

(** The list [scores] when [analyze] reaches its last two statements *)
Definition scores (text : string) : list F :=
  let scores := [] in
  let scores := check_sensational text scores in
  let scores := check_punctuation text scores in
  let scores := check_caps text scores in
  let scores := check_patterns text scores in
  let scores := check_length text scores in
  scores.

Definition analyze (text : string) : dict F :=
  let fake_score := pymin (pysum (scores text)) (lit 1 1) in
  [ ("fake_score", VNum fake_score); ("method", VStr "rule-based") ].

End Analyze.
End SimpleRuleBasedDetector.

(** ** [class TransformerBasedDetector] *)

Module TransformerBasedDetector.
Import PyStr.

Section Transformer.
Context {F : Type} {num : PyNum F}.

(** What [self.pipeline(text)[0]] gives inside the [try] block: a result
    with its ["label"] and ["score"], or an exception with its text. *)
Inductive reply : Type :=
| Classified (label : string) (score : F)
| Raised (message : string).

(** [self.pipeline] is [None] when [_init_model] could not load the
    model. *)
Record t : Type := {
  model_name : string;
  pipeline : option (string -> reply)
}.

Definition init (loaded : option (string -> reply)) : t :=
  {| model_name := "distilbert-base-uncased-finetuned-sst-2-english";
     pipeline := loaded |}.

Definition analyze (self : t) (text : string) : dict F :=
  match pipeline self with
  | None =>
      [ ("fake_score", VNum (lit 5 10)); ("error", VStr "Model not loaded");
        ("method", VStr "transformer") ]
  | Some run =>
      let text := take 512 text in
      match run text with
      | Classified result_label score =>
          let label := lower result_label in
          let fake_score :=
            if String.eqb label "negative" then score
            else sub (lit 1 1) score in
          [ ("fake_score", VNum fake_score); ("sentiment", VStr label);
            ("confidence", VNum score); ("method", VStr "transformer") ]
      | Raised e =>
          [ ("fake_score", VNum (lit 5 10)); ("error", VStr e);
            ("method", VStr "transformer") ]
      end
  end.

End Transformer.

Arguments reply F : clear implicits.
Arguments t F : clear implicits.
End TransformerBasedDetector.

(** ** [class FakeNewsDetector] *)

Module FakeNewsDetector.
Import PyStr Dict.

Section Detector.
Context {F : Type} {num : PyNum F}.

(** [self.rule_detector] has no state that [analyze] reads. *)
Record t : Type := {
  use_transformer : bool;
  transformer_detector : option (TransformerBasedDetector.t F)
}.

(** [__init__]; [loaded] is what [TransformerBasedDetector._init_model]
    leaves in [pipeline] should it run. *)
Definition init (use_transformer : bool)
    (loaded : option (string -> TransformerBasedDetector.reply F)) : t :=
  {| use_transformer := use_transformer;
     transformer_detector :=
       if use_transformer
       then Some (TransformerBasedDetector.init loaded)
       else None |}.

(** The score and the details after the optional transformer step *)
Definition combine (self : t) (text : string) (fake_score : F)
    (details : dict F) : option (F * dict F) :=
  match use_transformer self, transformer_detector self with
  | true, Some transformer =>
      let transformer_result := TransformerBasedDetector.analyze transformer text in
      let details := setitem "transformer" (VDict transformer_result) details in
      if has_key "fake_score" transformer_result
         && negb (has_key "error" transformer_result)
      then
        transformer_score <- getnum "fake_score" transformer_result ;;
        Some (add (mul (lit 6 10) fake_score)
                  (mul (lit 4 10) transformer_score), details)
      else Some (fake_score, details)
  | _, _ => Some (fake_score, details)
  end.

Definition predict (self : t) (text : string) : option (dict F) :=
  if String.eqb text "" || (String.length (strip text) =? 0)
  then
    Some [ ("fake_score", VNum (lit 5 10)); ("confidence", VNum (lit 0 1));
           ("label", VStr "UNKNOWN"); ("error", VStr "Empty text") ]
  else
    let rule_result := SimpleRuleBasedDetector.analyze text in
    fake_score <- getnum "fake_score" rule_result ;;
    let details := [ ("rule_based", VDict rule_result) ] in
    combined <- combine self text fake_score details ;;
    let '(fake_score, details) := combined in
    let confidence := mul (fabs (sub fake_score (lit 5 10))) (of_nat 2) in
    let label := if ltb (lit 5 10) fake_score then "FAKE" else "REAL" in
    Some [ ("fake_score", VNum (round3 fake_score));
           ("confidence", VNum (round3 confidence));
           ("label", VStr label);
           ("method", VStr (if use_transformer self then "hybrid" else "rule-based"));
           ("details", VDict details) ].

(** [[self.predict(text) for text in texts]] *)
Fixpoint predict_batch (self : t) (texts : list string) : option (list (dict F)) :=
  match texts with
  | [] => Some []
  | text :: texts' =>
      result <- predict self text ;;
      results <- predict_batch self texts' ;;
      Some (result :: results)
  end.

End Detector.

Arguments t F : clear implicits.
End FakeNewsDetector.

(** ** [detector_app.batch_mode], from the lines read from the file *)

Module DetectorApp.
Import PyStr Dict.

Section Batch.
Context {F : Type} {num : PyNum F}.

(** The figures of the printed summary line *)
Record summary : Type := {
  real_count : nat;
  fake_count : nat;
  total : nat
}.

(** The [for] loop over [lines], with [results] as built so far *)
Fixpoint batch_loop (detector : FakeNewsDetector.t F) (lines : list string)
    (results : list (string * dict F)) : option (list (string * dict F)) :=
  match lines with
  | [] => Some results
  | line :: lines' =>
      let text := strip line in
      if String.eqb text ""
      then batch_loop detector lines' results
      else
        result <- FakeNewsDetector.predict detector text ;;
        batch_loop detector lines' (results ++ [(text, result)])
  end.

(** [sum(1 for _, r in results if r["label"] == "FAKE")] *)
Fixpoint count_fake (results : list (string * dict F)) : option nat :=
  match results with
  | [] => Some 0
  | (_, r) :: results' =>
      label <- getitem "label" r ;;
      n <- count_fake results' ;;
      Some ((match label with
             | VStr s => if String.eqb s "FAKE" then 1 else 0
             | _ => 0
             end) + n)
  end.

Definition batch_mode (detector : FakeNewsDetector.t F) (lines : list string)
  : option (list (string * dict F) * summary) :=
  results <- batch_loop detector lines [] ;;
  fake_count <- count_fake results ;;
  let real_count := List.length results - fake_count in
  Some (results,
        {| real_count := real_count; fake_count := fake_count;
           total := List.length results |}).

End Batch.
End DetectorApp.

(** ** Quantities the properties speak of *)

Module Observe.
Import PyStr Dict.

Section Quantities.
Context {F : Type} {num : PyNum F}.

(** The heuristic score: [fake_score] as [SimpleRuleBasedDetector.analyze]
    returns it. *)
Definition heuristic_score (text : string) : F :=
  SimpleRuleBasedDetector.pymin
    (SimpleRuleBasedDetector.pysum (SimpleRuleBasedDetector.scores text))
    (lit 1 1).

(** [details] as [predict] initialises it *)
Definition rule_details (text : string) : dict F :=
  [ ("rule_based", VDict (SimpleRuleBasedDetector.analyze text)) ].

(** The fused score: the variable [fake_score] of [predict] when the label
    is determined, before any rounding. *)
Definition fused_score (self : FakeNewsDetector.t F) (text : string) : option F :=
  fake_score <- getnum "fake_score" (SimpleRuleBasedDetector.analyze text) ;;
  combined <- FakeNewsDetector.combine self text fake_score (rule_details text) ;;
  Some (fst combined).

(** The external classifier was requested for [text] but is unavailable, or
    its call raised. *)
Definition classifier_failed (self : FakeNewsDetector.t F) (text : string) : Prop :=
  FakeNewsDetector.use_transformer self = true /\
  exists transformer,
    FakeNewsDetector.transformer_detector self = Some transformer /\
    (TransformerBasedDetector.pipeline transformer = None \/
     exists run message,
       TransformerBasedDetector.pipeline transformer = Some run /\
       run (take 512 text) = TransformerBasedDetector.Raised message).

(** The external classifier was requested for [text] and answered with a
    label and a confidence. *)
Definition classifier_answered (self : FakeNewsDetector.t F) (text : string)
    (label : string) (confidence : F) : Prop :=
  FakeNewsDetector.use_transformer self = true /\
  exists transformer run,
    FakeNewsDetector.transformer_detector self = Some transformer /\
    TransformerBasedDetector.pipeline transformer = Some run /\
    run (take 512 text) = TransformerBasedDetector.Classified label confidence.

(** The verdict [predict] builds for a text that is not blank, from the
    fused score and the details. *)
Definition verdict (self : FakeNewsDetector.t F) (fake_score : F)
    (details : dict F) : dict F :=
  [ ("fake_score", VNum (round3 fake_score));
    ("confidence",
     VNum (round3 (mul (fabs (sub fake_score (lit 5 10))) (of_nat 2))));
    ("label", VStr (if ltb (lit 5 10) fake_score then "FAKE" else "REAL"));
    ("method",
     VStr (if FakeNewsDetector.use_transformer self then "hybrid" else "rule-based"));
    ("details", VDict details) ].

(** The verdict for a blank text *)
Definition empty_verdict : dict F :=
  [ ("fake_score", VNum (lit 5 10)); ("confidence", VNum (lit 0 1));
    ("label", VStr "UNKNOWN"); ("error", VStr "Empty text") ].

(** A result of the batch loop: a stripped line that is not blank with the
    verdict [predict] gives for it. *)
Definition produced (detector : FakeNewsDetector.t F) (r : string * dict F) : Prop :=
  all_space (fst r) = false /\
  FakeNewsDetector.predict detector (fst r) = Some (snd r).

(** The stripped lines that are not blank, in the order of the input *)
Definition kept (lines : list string) : list string :=
  filter (fun text => negb (all_space text)) (map strip lines).

(** The lower-cased text contains the phrase. *)
Definition has_phrase (phrase text : string) : Prop :=
  exists before after, lower text = (before ++ phrase ++ after)%string.

Definition punctuation (c : ascii) : Prop := c = "!"%char \/ c = "?"%char.

(** The text has three consecutive characters among [!] and [?]. *)
Definition punctuation_run (text : string) : Prop :=
  exists before a b c after,
    text = (before ++ String a (String b (String c after)))%string /\
    punctuation a /\ punctuation b /\ punctuation c.

(** What the rules other than the sensational-phrase rule append *)
Definition other_scores (text : string) : list F :=
  SimpleRuleBasedDetector.check_length text
    (SimpleRuleBasedDetector.check_patterns text
      (SimpleRuleBasedDetector.check_caps text
        (SimpleRuleBasedDetector.check_punctuation text []))).

(** How many of the patterns are found in the text *)
Definition matching (patterns : list Re.regex) (text : string) : nat :=
  List.length (filter (fun pattern => Re.search pattern text) patterns).

(** The patterns with punctuation or a phrase to look for *)
Definition three_patterns : list Re.regex :=
  [ Re.IClassAtLeast ["!"%char; "?"%char] 3;
    Re.ILit "you won't believe";
    Re.ILit "sponsored content" ].

(** What one pattern of [SUSPICIOUS_PATTERNS] appends *)
Definition pattern_score (pattern : Re.regex) (text : string) : list F :=
  if Re.search pattern text then [lit 15 100] else [].

End Quantities.
End Observe.

(** Every confidence the external classifier may answer lies in [0,1]. *)
Definition confidences_in_unit (self : FakeNewsDetector.t Q) : Prop :=
  forall transformer run input label confidence,
    FakeNewsDetector.transformer_detector self = Some transformer ->
    TransformerBasedDetector.pipeline transformer = Some run ->
    run input = TransformerBasedDetector.Classified label confidence ->
    (0 <= confidence <= 1)%Q.

(** ** Texts and classifiers of the scenarios *)

Module Scenario.
Section Detectors.
Context {F : Type} {num : PyNum F}.

(** A classifier that answers every text with the same label and confidence *)
Definition answers (label : string) (confidence : F)
  : option (string -> TransformerBasedDetector.reply F) :=
  Some (fun _ => TransformerBasedDetector.Classified label confidence).

(** A classifier whose call raises *)
Definition raises (message : string)
  : option (string -> TransformerBasedDetector.reply F) :=
  Some (fun _ => TransformerBasedDetector.Raised message).

(** [FakeNewsDetector(use_transformer=False)] *)
Definition rule_based : FakeNewsDetector.t F := FakeNewsDetector.init false None.

(** [FakeNewsDetector(use_transformer=True)] where the model did not load *)
Definition unavailable : FakeNewsDetector.t F := FakeNewsDetector.init true None.

(** [FakeNewsDetector(use_transformer=True)] with a classifier answering
    [negative] with confidence 0.9 *)
Definition negative_09 : FakeNewsDetector.t F :=
  FakeNewsDetector.init true (answers "negative" (lit 9 10)).

End Detectors.

(** One exclamation mark in seven words *)
Definition budget : string := "Council approves the new budget plan today!".

(** The phrase of the first pattern, and nothing else of note *)
Definition caps_phrase : string := "this headline is written in all caps today".

(** One sensational phrase, one pattern, fewer than five words: 0.4 *)
Definition sponsored : string := "shocking sponsored content".

(** One sensational phrase, capitals, one pattern: 0.5 *)
Definition shouted : string := "SHOCKING SPONSORED CONTENT ABOUT THE CITY".

(** All three patterns besides the first *)
Definition clickbait : string := "Sponsored content: you won't believe this!!!".

Definition council : string := "The city council approved a new transportation plan.".



End Scenario.

(** ** Further sample texts *)

Module Sample.


(** Four sensational phrases and nothing else of note *)
Definition four_phrases : string :=
  "shocking unbelievable one weird trick doctors hate".

End Sample.

(** * The callers: [url_analyzer.py], [detector_app.py], [app.py] *)

From Stdlib Require Import DecimalString.

(** ** Python objects and exceptions

    The values the callers pass around: JSON bodies, the results of
    [fetch_article] and [analyze_url].  A float is true unless it is zero. *)

#[warnings="-register-all"] Inductive py (F : Type) : Type :=
| PNone
| PBool (b : bool)
| PInt (n : Z)
| PFloat (x : F)
| PStr (s : string)
| PList (l : list (py F))
| PDict (d : list (string * py F)).

Arguments PNone {F}.
Arguments PBool {F} b.
Arguments PInt {F} n.
Arguments PFloat {F} x.
Arguments PStr {F} s.
Arguments PList {F} l.
Arguments PDict {F} d.

(** An exception, by its class and the text [str(e)] gives *)
Inductive exn : Type :=
| KeyError (key : string)
| TypeError (message : string)
| ValueError (message : string)
| AttributeError (message : string)
| ImportError (message : string)
| FileNotFoundError (message : string)
| Failure (message : string).

(** [str(e)]; the text of a [KeyError] is the [repr] of its key *)
Definition exn_message (e : exn) : string :=
  match e with
  | KeyError key => "'" ++ key ++ "'"
  | TypeError m | ValueError m | AttributeError m | ImportError m
  | FileNotFoundError m | Failure m => m
  end.

(** A computation that returns or raises *)
Definition result (A : Type) : Type := (exn + A)%type.

Definition rbind {A B : Type} (r : result A) (k : A -> result B) : result B :=
  match r with
  | inl e => inl e
  | inr a => k a
  end.

Notation "x <-! e ;; k" := (rbind e (fun x => k))
  (at level 61, e at next level, right associativity).

Module Py.
Section Ops.
Context {F : Type} {num : PyNum F}.

(** A verdict of [predict] as a Python object *)
Fixpoint of_value (v : value F) : py F :=
  match v with
  | VNum x => PFloat x
  | VStr s => PStr s
  | VDict d =>
      PDict ((fix items (d : list (string * value F)) : list (string * py F) :=
                match d with
                | [] => []
                | (k, v') :: d' => (k, of_value v') :: items d'
                end) d)
  end.

Definition of_dict (d : dict F) : py F := of_value (VDict d).

Definition pydict : Type := list (string * py F).

(** [d.get(k)] for a dictionary [d]: [None] when the key is missing *)
Fixpoint lookup (k : string) (d : pydict) : option (py F) :=
  match d with
  | [] => None
  | (k', v) :: d' => if String.eqb k k' then Some v else lookup k d'
  end.

Definition get (k : string) (d : pydict) : py F :=
  match lookup k d with Some v => v | None => PNone end.

(** [d.get(k, default)] *)
Definition get_default (k : string) (default : py F) (d : pydict) : py F :=
  match lookup k d with Some v => v | None => default end.

(** [k in d] *)
Definition has_key (k : string) (d : pydict) : bool :=
  match lookup k d with Some _ => true | None => false end.

(** [d[k]] *)
Definition item (k : string) (d : pydict) : result (py F) :=
  match lookup k d with Some v => inr v | None => inl (KeyError k) end.

(** [d[k] = v] *)
Fixpoint setitem (k : string) (v : py F) (d : pydict) : pydict :=
  match d with
  | [] => [(k, v)]
  | (k', v') :: d' =>
      if String.eqb k k' then (k, v) :: d' else (k', v') :: setitem k v d'
  end.

(** [bool(v)]; a float is false when it equals zero, so that NaN is true *)
Definition truthy (v : py F) : bool :=
  match v with
  | PNone => false
  | PBool b => b
  | PInt n => negb (Z.eqb n 0)
  | PFloat x => negb (eqb x (lit 0 1))
  | PStr s => negb (String.eqb s "")
  | PList l => match l with [] => false | _ => true end
  | PDict d => match d with [] => false | _ => true end
  end.

(** [type(v).__name__] *)
Definition type_name (v : py F) : string :=
  match v with
  | PNone => "NoneType"
  | PBool _ => "bool"
  | PInt _ => "int"
  | PFloat _ => "float"
  | PStr _ => "str"
  | PList _ => "list"
  | PDict _ => "dict"
  end.

(** The [AttributeError] for [v.name] *)
Definition no_attribute (v : py F) (name : string) : exn :=
  AttributeError ("'" ++ type_name v ++ "' object has no attribute '" ++ name ++ "'").

(** [v == s] for a string [s] *)
Definition is_str (v : py F) (s : string) : bool :=
  match v with PStr s' => String.eqb s' s | _ => false end.

End Ops.
End Py.

(** ** [url_analyzer.py]

    The network and the HTML parser are given: [urlparse], [requests.get]
    with [raise_for_status], and what [BeautifulSoup] finds in a page. *)

Module UrlAnalyzer.
Import PyStr.
Local Open Scope string_scope.

(** What the code reads off [BeautifulSoup(html, "html.parser")]: for each
    [find] or [select_one] whether there is such a tag, and the text or the
    [content] attribute the code then takes from it. *)
Record soup : Type := {
  title_tag : option string;
  h1_tag : option string;
  og_title : option (option string);
  article_tag : option string;
  select_one : string -> option string;
  paragraphs : list string;
  og_description : option (option string);
  meta_description : option (option string)
}.

(** [" ".join(parts)] *)
Fixpoint join_spaces (parts : list string) : string :=
  match parts with
  | [] => ""
  | [part] => part
  | part :: parts' => part ++ " " ++ join_spaces parts'
  end.

(** The alternatives of the boilerplate pattern; the fourth is the
    copyright sign, code point 169. *)
Definition BOILERPLATE : list string :=
  [ "Subscribe"; "Read more"; "Copyright";
    String (ascii_of_nat 169) EmptyString; "All rights reserved" ].

Definition newline : ascii := ascii_of_nat 10.

(** [re.sub(r"(Subscribe|Read more|Copyright|(c)|All rights reserved).*", "",
    content, flags=re.IGNORECASE)]: from each place where an alternative
    matches, the rest of the line goes.  [dropping] holds while the [.*] of a
    match is being consumed. *)
Fixpoint cut_boilerplate (dropping : bool) (content : string) : string :=
  match content with
  | EmptyString => EmptyString
  | String c rest =>
      if dropping
      then if Ascii.eqb c newline
           then String c (cut_boilerplate false rest)
           else cut_boilerplate true rest
      else if existsb (fun word => Re.lit_here word content) BOILERPLATE
           then cut_boilerplate true rest
           else String c (cut_boilerplate false rest)
  end.

(** [re.sub(r"\s+", " ", content)]; [in_run] holds inside a run of white
    space. *)
Fixpoint collapse_spaces (in_run : bool) (content : string) : string :=
  match content with
  | EmptyString => EmptyString
  | String c rest =>
      if isspace c
      then if in_run then collapse_spaces true rest
           else String " "%char (collapse_spaces true rest)
      else String c (collapse_spaces false rest)
  end.

(** The two substitutions and the [strip] that end
    [extract_text_from_html] *)
Definition clean (content : string) : string :=
  let content := cut_boilerplate false content in
  strip (collapse_spaces false content).

Definition SELECTORS : list string :=
  [ "main"; "div.content"; "div.article-body"; "div.post-content" ].

(** The loop over the selectors *)
Fixpoint first_selected (page : soup) (selectors : list string) : string :=
  match selectors with
  | [] => ""
  | selector :: selectors' =>
      match select_one page selector with
      | Some text => text
      | None => first_selected page selectors'
      end
  end.

(** [ArticleExtractor.extract_text_from_html], from the parsed page *)
Definition extract_text (available : bool) (page : soup) : result (string * string) :=
  if negb available
  then inl (ImportError "BeautifulSoup4 required. Install: pip install beautifulsoup4")
  else
    let title :=
      match title_tag page with
      | Some text => text
      | None =>
          match h1_tag page with
          | Some text => text
          | None =>
              match og_title page with
              | Some (Some content) => content
              | Some None => ""
              | None => ""
              end
          end
      end in
    let content :=
      match article_tag page with
      | Some text => text
      | None => first_selected page SELECTORS
      end in
    let content :=
      if String.eqb content "" || (String.length content <? 50)%nat
      then join_spaces (paragraphs page)
      else content in
    inr (title, clean content).

(** [ArticleExtractor.extract_meta_description], from the parsed page *)
Definition extract_meta_description (available : bool) (page : soup) : string :=
  if negb available then ""
  else
    match og_description page with
    | Some (Some content) => content
    | Some None => ""
    | None =>
        match meta_description page with
        | Some (Some content) => content
        | Some None => ""
        | None => ""
        end
    end.

(** What [requests.get] followed by [raise_for_status] comes to, by the
    handler of [fetch_article] that catches it *)
Inductive reply : Type :=
| Timeout
| ConnectionError
| HTTPError (status_code : nat)
| RequestFailed (e : exn)
| Page (html : string).

Record web : Type := {
  available : bool;                                (* requests and bs4 imported *)
  urlparse : string -> result (string * string);   (* scheme and netloc *)
  request : string -> reply;
  parse : string -> soup
}.

Section Analyzer.
Context {F : Type} {num : PyNum F}.

Record t : Type := {
  timeout : Z;
  detector : FakeNewsDetector.t F
}.

(** [URLArticleAnalyzer.__init__] *)
Definition init (world : web) (timeout : Z) (detector : FakeNewsDetector.t F)
  : result t :=
  if negb (available world)
  then inl (ImportError "requests library required. Install: pip install requests")
  else inr {| timeout := timeout; detector := detector |}.

Definition decimal (n : Z) : string := NilZero.string_of_int (Z.to_int n).

Definition error_result (url message : string) : Py.pydict (F := F) :=
  [ ("url", PStr url); ("status", PStr "error"); ("error", PStr message) ].

(** Where the imports failed [requests] is [None]: [requests.get] raises,
    and so does the first [except] clause, which names
    [requests.exceptions]. *)
Definition no_requests : exn :=
  AttributeError "'NoneType' object has no attribute 'exceptions'".

(** An exception raised inside the [try] of [fetch_article] whose handler
    gives [message] *)
Definition handled (world : web) (url message : string)
  : result (Py.pydict (F := F)) :=
  if available world then inr (error_result url message) else inl no_requests.

(** [fetch_article] *)
Definition fetch_article (world : web) (self : t) (url : string)
  : result (Py.pydict (F := F)) :=
  match urlparse world url with
  | inl e => handled world url ("Extraction error: " ++ exn_message e)
  | inr (scheme, netloc) =>
      let url := if String.eqb scheme "" then "https://" ++ url else url in
      if String.eqb netloc "" && negb (String.prefix "https://" url)
      then inr [ ("url", PStr url); ("title", PNone); ("content", PNone);
                 ("status", PStr "error"); ("error", PStr "Invalid URL format") ]
      else if negb (available world)
      then inl no_requests
      else
        match request world url with
        | Timeout =>
            handled world url ("Request timeout (>" ++ decimal (timeout self) ++ "s)")
        | ConnectionError =>
            handled world url "Connection error. Check URL or internet connection."
        | HTTPError status_code =>
            handled world url ("HTTP error: " ++ decimal (Z.of_nat status_code))
        | RequestFailed e =>
            handled world url ("Extraction error: " ++ exn_message e)
        | Page html =>
            match extract_text (available world) (parse world html) with
            | inl e => handled world url ("Extraction error: " ++ exn_message e)
            | inr (title, content) =>
                let description :=
                  extract_meta_description (available world) (parse world html) in
                if String.eqb content ""
                then inr [ ("url", PStr url); ("title", PStr title); ("content", PNone);
                           ("status", PStr "error");
                           ("error", PStr "Could not extract article content") ]
                else inr [ ("url", PStr url); ("title", PStr title);
                           ("description", PStr description);
                           ("content", PStr content); ("status", PStr "success") ]
            end
        end
  end.

(** [self.detector.predict(v)] for an object [v]: an object that is not a
    string passes the test [not text] as the empty string does when it is
    false, and has no [strip] otherwise. *)
Definition predict_object (self : t) (v : py F) : result (dict F) :=
  let predict text :=
    match FakeNewsDetector.predict (detector self) text with
    | Some verdict => inr verdict
    | None => inl (Failure "predict")
    end in
  match v with
  | PStr text => predict text
  | _ => if Py.truthy v then inl (Py.no_attribute v "strip") else predict ""
  end.

(** [v[:n]] *)
Definition slice (n : nat) (v : py F) : result (py F) :=
  match v with
  | PStr s => inr (PStr (take n s))
  | PList l => inr (PList (firstn n l))
  | _ => inl (TypeError ("'" ++ Py.type_name v ++ "' object is not subscriptable"))
  end.

(** [results[analysis]["fake_score"]] as a number *)
Definition analysis_score (analysis : string) (results : Py.pydict (F := F)) : result F :=
  verdict <-! Py.item analysis results ;;
  match verdict with
  | PDict d =>
      score <-! Py.item "fake_score" d ;;
      match score with
      | PFloat x => inr x
      | _ => inl (TypeError "unsupported operand type(s) for *")
      end
  | _ => inl (TypeError "object is not subscriptable")
  end.

(** [results[analysis][field]] *)
Definition analysis_field (analysis field : string) (results : Py.pydict (F := F))
  : result (py F) :=
  verdict <-! Py.item analysis results ;;
  match verdict with
  | PDict d => Py.item field d
  | _ => inl (TypeError "object is not subscriptable")
  end.

(** [analyze_url] *)
Definition analyze_url (world : web) (self : t) (url : string)
    (analyze_title analyze_content : bool) : result (Py.pydict (F := F)) :=
  fetch_result <-! fetch_article world self url ;;
  if negb (Py.is_str (Py.get "status" fetch_result) "success")
  then inr fetch_result
  else
    content_preview <-!
      (if Py.truthy (Py.get "content" fetch_result)
       then slice 200 (Py.get_default "content" (PStr "") fetch_result)
       else inr PNone) ;;
    let results :=
      [ ("url", PStr url); ("title", Py.get "title" fetch_result);
        ("content_preview", content_preview); ("status", PStr "success") ] in
    results <-!
      (if analyze_title && Py.truthy (Py.get "title" fetch_result)
       then
         title <-! Py.item "title" fetch_result ;;
         title_result <-! predict_object self title ;;
         inr (Py.setitem "title_analysis" (Py.of_dict title_result) results)
       else inr results) ;;
    results <-!
      (if analyze_content && Py.truthy (Py.get "content" fetch_result)
       then
         content <-! Py.item "content" fetch_result ;;
         content <-! slice 2000 content ;;
         content_result <-! predict_object self content ;;
         inr (Py.setitem "content_analysis" (Py.of_dict content_result) results)
       else inr results) ;;
    if Py.has_key "title_analysis" results && Py.has_key "content_analysis" results
    then
      title_score <-! analysis_score "title_analysis" results ;;
      content_score <-! analysis_score "content_analysis" results ;;
      let combined_score :=
        add (mul (lit 3 10) title_score) (mul (lit 7 10) content_score) in
      let results :=
        Py.setitem "overall_fake_score" (PFloat (round3 combined_score)) results in
      inr (Py.setitem "overall_label"
             (PStr (if ltb (lit 5 10) combined_score then "FAKE" else "REAL"))
             results)
    else if Py.has_key "content_analysis" results
    then
      score <-! analysis_field "content_analysis" "fake_score" results ;;
      let results := Py.setitem "overall_fake_score" score results in
      label <-! analysis_field "content_analysis" "label" results ;;
      inr (Py.setitem "overall_label" label results)
    else if Py.has_key "title_analysis" results
    then
      score <-! analysis_field "title_analysis" "fake_score" results ;;
      let results := Py.setitem "overall_fake_score" score results in
      label <-! analysis_field "title_analysis" "label" results ;;
      inr (Py.setitem "overall_label" label results)
    else inr results.

End Analyzer.

Arguments t F : clear implicits.
End UrlAnalyzer.

(** ** [detector_app.py]

    What the [print] calls of this file write is kept as a list of lines,
    each with the values its f-string interpolates (the lines that the
    detector itself prints while it loads or runs a model are not part of
    it); standard input is the list of the lines typed, and the file of the
    batch mode is given by what reading it yields. *)

Module Cli.
Import PyStr.
Local Open Scope string_scope.

Section Cli.
Context {F : Type} {num : PyNum F}.

Inductive line : Type :=
| Banner                                           (* print_banner() *)
| InitLine                                         (* [INFO] Initializing detector... *)
| ProcessingLine (file_path : string)
| InputLine (index : option nat) (shown : string) (more : bool)
| LabelLine (label : value F)
| ScoreLine (score : value F)
| ConfidenceLine (confidence : F)                  (* formatted as a percentage *)
| MethodLine (method : value F)
| AnalysisLine (details : value F)
| StatusLine (fake : bool)                         (* LIKELY FAKE NEWS or LIKELY CREDIBLE *)
| SummaryLine (real fake total : nat)
| FileNotFoundLine (file_path : string)
| ReadErrorLine (message : string)
| PromptLine
| GoodbyeLine
| ClearLine
| ErrorLine (message : string)
| FetchingLine (url : string)
| MissingPackagesLine (message : string)           (* the [ERROR] line and the hint *)
| Rule                                             (* a line of 70 equals signs *)
| UrlErrorLine (error : py F)
| ArticleLine (title : py F)
| UrlLine (url : py F)
| PreviewLine (preview : py F)
| HeadlineHeader
| ContentHeader
| OverallHeader (fake : bool)
| UrlLabelLine (label : py F)
| UrlScoreLine (score : py F).

(** How a run stops short of returning *)
Inductive stop : Type :=
| Raises (e : exn)
| Exits (code : Z)          (* sys.exit(code) *)
| Awaits.                   (* input() is called and the lines typed are used up *)

Definition printing (A : Type) : Type := (list line * (stop + A))%type.

Definition ret {A : Type} (a : A) : printing A := ([], inr a).

Definition halt {A : Type} (s : stop) : printing A := ([], inl s).

Definition print (l : line) : printing unit := ([l], inr tt).

Definition pbind {A B : Type} (m : printing A) (k : A -> printing B) : printing B :=
  match m with
  | (out, inl s) => (out, inl s)
  | (out, inr a) => let (out', r) := k a in ((out ++ out')%list, r)
  end.

Local Notation "x <-- e ;; k" := (pbind e (fun x => k))
  (at level 61, e at next level, right associativity).
Local Notation "e ;;; k" := (pbind e (fun _ => k))
  (at level 61, right associativity).

(** The value of an expression that returns or raises *)
Definition eval {A : Type} (r : result A) : printing A :=
  match r with
  | inl e => halt (Raises e)
  | inr a => ret a
  end.

(** [try: body except Exception as e: handler(e)] *)
Definition catch {A : Type} (body : printing A) (handler : exn -> printing A)
  : printing A :=
  match body with
  | (out, inl (Raises e)) => let (out', r) := handler e in ((out ++ out')%list, r)
  | _ => body
  end.

(** [result[k]] for a verdict *)
Definition item (k : string) (d : dict F) : printing (value F) :=
  match Dict.getitem k d with
  | Some v => ret v
  | None => halt (Raises (KeyError k))
  end.

(** The number behind [f"{v:.1%}"] *)
Definition percent (v : value F) : printing F :=
  match v with
  | VNum x => ret x
  | VStr _ => halt (Raises (ValueError "Unknown format code '%' for object of type 'str'"))
  | VDict _ => halt (Raises (TypeError "unsupported format string passed to dict.__format__"))
  end.

(** [k in v] *)
Definition key_in (k : string) (v : value F) : printing bool :=
  match v with
  | VDict d => ret (Dict.has_key k d)
  | VStr s => ret (contains k s)
  | VNum _ => halt (Raises (TypeError "argument of type 'float' is not iterable"))
  end.

(** [v[k]] for a string [k] *)
Definition subscript (v : value F) (k : string) : printing (value F) :=
  match v with
  | VDict d => item k d
  | VStr _ => halt (Raises (TypeError "string indices must be integers"))
  | VNum _ => halt (Raises (TypeError "'float' object is not subscriptable"))
  end.

Definition value_is (v : value F) (s : string) : bool :=
  match v with VStr s' => String.eqb s' s | _ => false end.

(** [print_result] *)
Definition print_result (text : string) (result : dict F) (index : option nat)
  : printing unit :=
  let prefix := match index with Some (S _ as i) => Some i | _ => None end in
  print (InputLine prefix (take 80 text) (80 <? String.length text)%nat) ;;;
  label <-- item "label" result ;;
  print (LabelLine label) ;;;
  score <-- item "fake_score" result ;;
  print (ScoreLine score) ;;;
  confidence <-- item "confidence" result ;;
  confidence <-- percent confidence ;;
  print (ConfidenceLine confidence) ;;;
  method <-- item "method" result ;;
  print (MethodLine method) ;;;
  (if Dict.has_key "details" result
   then
     details <-- item "details" result ;;
     inside <-- key_in "rule_based" details ;;
     if inside
     then
       details <-- item "details" result ;;
       details <-- subscript details "rule_based" ;;
       print (AnalysisLine details)
     else ret tt
   else ret tt) ;;;
  label <-- item "label" result ;;
  print (StatusLine (value_is label "FAKE")).

(** [detector.predict(text)] *)
Definition predict (detector : FakeNewsDetector.t F) (text : string)
  : printing (dict F) :=
  match FakeNewsDetector.predict detector text with
  | Some verdict => ret verdict
  | None => halt (Raises (Failure "predict"))
  end.

(** What [open(file_path)] and [f.readlines()] yield *)
Inductive file : Type :=
| Lines (lines : list string)
| NotFound (message : string)
| Unreadable (e : exn).

(** The [for] loop of [batch_mode]; [i] is the number of the line *)
Fixpoint batch_loop (detector : FakeNewsDetector.t F) (lines : list string)
    (i : nat) (results : list (string * dict F))
  : printing (list (string * dict F)) :=
  match lines with
  | [] => ret results
  | line :: lines' =>
      let text := strip line in
      if String.eqb text ""
      then batch_loop detector lines' (S i) results
      else
        result <-- predict detector text ;;
        let results := (results ++ [(text, result)])%list in
        print_result text result (Some i) ;;;
        batch_loop detector lines' (S i) results
  end.

(** [sum(1 for _, r in results if r["label"] == "FAKE")] *)
Fixpoint count_fake (results : list (string * dict F)) : printing nat :=
  match results with
  | [] => ret 0
  | (_, r) :: results' =>
      label <-- item "label" r ;;
      n <-- count_fake results' ;;
      ret ((if value_is label "FAKE" then 1 else 0) + n)
  end.

(** [batch_mode] *)
Definition batch_mode (detector : FakeNewsDetector.t F) (file_path : string)
    (content : file) : printing unit :=
  print Banner ;;;
  print (ProcessingLine file_path) ;;;
  let body :=
    match content with
    | NotFound message => halt (Raises (FileNotFoundError message))
    | Unreadable e => halt (Raises e)
    | Lines lines =>
        results <-- batch_loop detector lines 1 [] ;;
        fake_count <-- count_fake results ;;
        let real_count := List.length results - fake_count in
        print Rule ;;;
        print (SummaryLine real_count fake_count (List.length results)) ;;;
        print Rule
    end in
  catch body
    (fun e =>
       match e with
       | FileNotFoundError _ => print (FileNotFoundLine file_path) ;;; halt (Exits 1)
       | _ => print (ReadErrorLine (exn_message e)) ;;; halt (Exits 1)
       end).

(** The [while] loop of [interactive_mode] over the lines typed *)
Fixpoint interactive_loop (detector : FakeNewsDetector.t F) (typed : list string)
  : printing unit :=
  match typed with
  | [] => halt Awaits
  | raw :: typed' =>
      let text := strip raw in
      if String.eqb (lower text) "quit"
      then print GoodbyeLine
      else if String.eqb (lower text) "clear"
      then print ClearLine ;;; interactive_loop detector typed'
      else if String.eqb text ""
      then interactive_loop detector typed'
      else
        catch (result <-- predict detector text ;; print_result text result None)
              (fun e => print (ErrorLine (exn_message e))) ;;;
        interactive_loop detector typed'
  end.

(** [interactive_mode] *)
Definition interactive_mode (detector : FakeNewsDetector.t F) (typed : list string)
  : printing unit :=
  print Banner ;;;
  print PromptLine ;;;
  interactive_loop detector typed.

(** [print_url_result] *)
Definition print_url_result (result : Py.pydict (F := F)) : printing unit :=
  if negb (Py.is_str (Py.get "status" result) "success")
  then print (UrlErrorLine (Py.get_default "error" (PStr "Unknown error") result))
  else
    print Rule ;;;
    print (ArticleLine (Py.get_default "title" (PStr "No title") result)) ;;;
    print (UrlLine (Py.get "url" result)) ;;;
    print Rule ;;;
    (if Py.truthy (Py.get "content_preview" result)
     then preview <-- eval (Py.item "content_preview" result) ;;
          print (PreviewLine preview)
     else ret tt) ;;;
    (if Py.has_key "title_analysis" result
     then print HeadlineHeader ;;;
          label <-- eval (UrlAnalyzer.analysis_field "title_analysis" "label" result) ;;
          print (UrlLabelLine label) ;;;
          score <-- eval (UrlAnalyzer.analysis_field "title_analysis" "fake_score" result) ;;
          print (UrlScoreLine score)
     else ret tt) ;;;
    (if Py.has_key "content_analysis" result
     then print ContentHeader ;;;
          label <-- eval (UrlAnalyzer.analysis_field "content_analysis" "label" result) ;;
          print (UrlLabelLine label) ;;;
          score <-- eval (UrlAnalyzer.analysis_field "content_analysis" "fake_score" result) ;;
          print (UrlScoreLine score)
     else ret tt) ;;;
    (if Py.has_key "overall_label" result
     then label <-- eval (Py.item "overall_label" result) ;;
          print (OverallHeader (Py.is_str label "FAKE")) ;;;
          label <-- eval (Py.item "overall_label" result) ;;
          print (UrlLabelLine label) ;;;
          score <-- eval (Py.item "overall_fake_score" result) ;;
          print (UrlScoreLine score)
     else ret tt) ;;;
    print Rule.

(** The command line as [argparse] leaves it *)
Record args : Type := {
  use_transformer : bool;
  file_arg : option string;
  text_arg : option string;
  url_arg : option string
}.

(** [bool(args.x)] for an option that is a string or [None] *)
Definition given (option_value : option string) : option string :=
  match option_value with
  | Some value => if String.eqb value "" then None else Some value
  | None => None
  end.

(** What [main] finds around it: what loading the model gives, the file of
    [--file], the lines typed, the network. *)
Record world : Type := {
  loaded : option (string -> TransformerBasedDetector.reply F);
  file_content : string -> file;
  typed : list string;
  web : UrlAnalyzer.web
}.

(** [main], after [parse_args] *)
Definition main (a : args) (w : world) : printing unit :=
  print InitLine ;;;
  let detector := FakeNewsDetector.init (use_transformer a) (loaded w) in
  match given (url_arg a) with
  | Some url =>
      print Banner ;;;
      print (FetchingLine url) ;;;
      catch
        (analyzer <-- eval (UrlAnalyzer.init (web w) 10
                             (FakeNewsDetector.init (use_transformer a) (loaded w))) ;;
         result <-- eval (UrlAnalyzer.analyze_url (web w) analyzer url true true) ;;
         print_url_result result)
        (fun e =>
           match e with
           | ImportError message => print (MissingPackagesLine message)
           | _ => halt (Raises e)
           end)
  | None =>
      match given (text_arg a) with
      | Some text =>
          print Banner ;;;
          result <-- predict detector text ;;
          print_result text result None
      | None =>
          match given (file_arg a) with
          | Some file_path => batch_mode detector file_path (file_content w file_path)
          | None => interactive_mode detector (typed w)
          end
      end
  end.

End Cli.

Arguments line F : clear implicits.
Arguments printing F A : clear implicits.
Arguments world F : clear implicits.
End Cli.

(** ** [app.py]

    A handler is a function of what it finds: the module-level [detector]
    ([None] when the import failed), and what [request.get_json()] returns or
    raises.  Its response is the object given to [jsonify] with the status
    code. *)

Module Api.
Import PyStr.
Local Open Scope string_scope.

Section Api.
Context {F : Type} {num : PyNum F}.

Definition response : Type := (py F * nat)%type.

(** [jsonify({'error': message}), status] *)
Definition error (message : string) (status : nat) : response :=
  (PDict [ ("error", PStr message) ], status).

(** [v.get(k, default)] *)
Definition get_of (v : py F) (k : string) (default : py F) : result (py F) :=
  match v with
  | PDict d => inr (Py.get_default k default d)
  | _ => inl (Py.no_attribute v "get")
  end.

(** [v.strip()] *)
Definition strip_of (v : py F) : result string :=
  match v with
  | PStr s => inr (strip s)
  | _ => inl (Py.no_attribute v "strip")
  end.

(** [detector.predict(text)] for the module-level [detector] *)
Definition predict (detector : option (FakeNewsDetector.t F)) (text : string)
  : result (dict F) :=
  match detector with
  | None => inl (Py.no_attribute (F := F) PNone "predict")
  | Some detector =>
      match FakeNewsDetector.predict detector text with
      | Some verdict => inr verdict
      | None => inl (Failure "predict")
      end
  end.

(** [analyze_text], the handler of [/api/analyze-text] *)
Definition analyze_text (detector : option (FakeNewsDetector.t F))
    (get_json : result (py F)) : response :=
  let body : result response :=
    match detector with
    | None => inr (error "Detector not initialized. Check server logs." 500)
    | Some _ =>
        data <-! get_json ;;
        if negb (Py.truthy data)
        then inr (error "No JSON data provided" 400)
        else
          text <-! get_of data "text" (PStr "") ;;
          text <-! strip_of text ;;
          if String.eqb text ""
          then inr (error "No text provided" 400)
          else if (5000 <? String.length text)%nat
          then inr (error "Text too long (max 5000 characters)" 400)
          else
            result <-! predict detector text ;;
            inr (PDict [ ("success", PBool true); ("result", Py.of_dict result) ], 200)
    end in
  match body with
  | inr r => r
  | inl e => error ("Server error: " ++ exn_message e) 500
  end.

(** [analyze_url], the handler of [/api/analyze-url]; [imported] tells
    whether [URLArticleAnalyzer] could be imported. *)
Definition analyze_url (imported : bool) (world : UrlAnalyzer.web)
    (get_json : result (py F)) : response :=
  let body : result response :=
    if negb imported
    then inr (error "URL analyzer not available" 500)
    else
      data <-! get_json ;;
      url <-! get_of data "url" (PStr "") ;;
      url <-! strip_of url ;;
      if String.eqb url ""
      then inr (error "No URL provided" 400)
      else
        analyzer <-! UrlAnalyzer.init world 10 (FakeNewsDetector.init false None) ;;
        result <-! UrlAnalyzer.analyze_url world analyzer url true true ;;
        inr (PDict [ ("success", PBool true); ("result", PDict result) ], 200)
  in
  match body with
  | inr r => r
  | inl (ImportError _) =>
      error "URL analysis requires: pip install requests beautifulsoup4" 500
  | inl e => error (exn_message e) 500
  end.

(** The loop of [analyze_batch] over the entries of [texts] *)
Fixpoint batch_loop (detector : option (FakeNewsDetector.t F)) (texts : list (py F))
    (results : list (py F * dict F)) : result (list (py F * dict F)) :=
  match texts with
  | [] => inr results
  | text :: texts' =>
      stripped <-! strip_of text ;;
      if negb (String.eqb stripped "")
      then
        stripped <-! strip_of text ;;
        result <-! predict detector stripped ;;
        shown <-! UrlAnalyzer.slice 100 text ;;
        batch_loop detector texts' (results ++ [(shown, result)])%list
      else batch_loop detector texts' results
  end.

(** [sum(1 for r in results if r['result']['label'] == label)] *)
Fixpoint count_label (label : string) (results : list (py F * dict F)) : result nat :=
  match results with
  | [] => inr 0
  | (_, result) :: results' =>
      match Dict.getitem "label" result with
      | None => inl (KeyError "label")
      | Some l =>
          n <-! count_label label results' ;;
          inr ((match l with
                | VStr s => if String.eqb s label then 1 else 0
                | _ => 0
                end) + n)
      end
  end.

Definition entry (r : py F * dict F) : py F :=
  PDict [ ("text", fst r); ("result", Py.of_dict (snd r)) ].

(** [analyze_batch], the handler of [/api/analyze-batch] *)
Definition analyze_batch (detector : option (FakeNewsDetector.t F))
    (get_json : result (py F)) : response :=
  let body : result response :=
    data <-! get_json ;;
    texts <-! get_of data "texts" (PList []) ;;
    match texts with
    | PList ((_ :: _) as texts) =>
        if (50 <? List.length texts)%nat
        then inr (error "Too many items (max 50)" 400)
        else
          results <-! batch_loop detector texts [] ;;
          fake <-! count_label "FAKE" results ;;
          real <-! count_label "REAL" results ;;
          inr (PDict [ ("success", PBool true);
                       ("results", PList (map entry results));
                       ("summary",
                        PDict [ ("total", PInt (Z.of_nat (List.length results)));
                                ("fake", PInt (Z.of_nat fake));
                                ("real", PInt (Z.of_nat real)) ]) ], 200)
    | _ => inr (error "Invalid text list" 400)
    end in
  match body with
  | inr r => r
  | inl e => error (exn_message e) 500
  end.

End Api.
End Api.

(** ** What the properties of the callers speak of *)

Module Shape.
Import PyStr.

(** Every white-space character is a space and is not followed by white
    space. *)
Fixpoint spaced (s : string) : bool :=
  match s with
  | EmptyString => true
  | String c rest =>
      (if isspace c
       then Ascii.eqb c " "%char &&
            match rest with
            | String d _ => negb (isspace d)
            | EmptyString => true
            end
       else true) && spaced rest
  end.

Definition starts_with_space (s : string) : bool :=
  match s with
  | String c _ => isspace c
  | EmptyString => false
  end.

Fixpoint ends_with_space (s : string) : bool :=
  match s with
  | EmptyString => false
  | String c EmptyString => isspace c
  | String _ rest => ends_with_space rest
  end.

(** Words separated by single spaces, and nothing else *)
Definition tidy (s : string) : bool :=
  spaced s && negb (starts_with_space s) && negb (ends_with_space s).

(** No line break *)
Fixpoint one_line (s : string) : bool :=
  match s with
  | EmptyString => true
  | String c rest => negb (Ascii.eqb c UrlAnalyzer.newline) && one_line rest
  end.

(** A word of the boilerplate pattern matches at the start of [s]. *)
Definition boilerplate_here (s : string) : bool :=
  existsb (fun word => Re.lit_here word s) UrlAnalyzer.BOILERPLATE.

(** A word of the boilerplate pattern matches somewhere in [s]. *)
Fixpoint has_boilerplate (s : string) : bool :=
  boilerplate_here s ||
  match s with
  | EmptyString => false
  | String _ rest => has_boilerplate rest
  end.

Section Results.
Context {F : Type} {num : PyNum F}.

(** The results of [fetch_article], by the way it ends; [url] is the
    address after the scheme has been put before it. *)
Inductive fetched (url : string) : Py.pydict (F := F) -> Prop :=
| fetched_failed (message : string) :
    fetched url (UrlAnalyzer.error_result url message)
| fetched_invalid :
    fetched url [ ("url", PStr url); ("title", PNone); ("content", PNone);
                  ("status", PStr "error"); ("error", PStr "Invalid URL format") ]
| fetched_empty (title : string) :
    fetched url [ ("url", PStr url); ("title", PStr title); ("content", PNone);
                  ("status", PStr "error");
                  ("error", PStr "Could not extract article content") ]
| fetched_page (title description content : string) :
    content <> "" -> tidy content = true ->
    fetched url [ ("url", PStr url); ("title", PStr title);
                  ("description", PStr description);
                  ("content", PStr content); ("status", PStr "success") ].

(** The label of a verdict is [FAKE]. *)
Definition is_fake (verdict : dict F) : bool :=
  match Dict.getitem "label" verdict with
  | Some (VStr label) => String.eqb label "FAKE"
  | _ => false
  end.

(** How many status lines of one kind were printed *)
Definition count_status (fake : bool) (out : list (Cli.line F)) : nat :=
  List.length
    (filter (fun l => match l with
                      | Cli.StatusLine b => Bool.eqb b fake
                      | _ => false
                      end) out).

Definition is_error_line (l : Cli.line F) : bool :=
  match l with
  | Cli.ErrorLine _ => true
  | _ => false
  end.

(** A line typed at the prompt, as the loop of [interactive_mode] reads it *)
Definition is_quit (raw : string) : bool := String.eqb (lower (strip raw)) "quit".

Definition is_clear (raw : string) : bool := String.eqb (lower (strip raw)) "clear".

(** The requests [analyze_text] answers with a verdict: a JSON object whose
    [text] is a string that is not blank and, stripped, has at most 5000
    characters. *)
Definition accepted_text (get_json : result (py F)) (raw : string) : Prop :=
  exists d,
    get_json = inr (PDict d) /\ d <> [] /\
    Py.get_default "text" (PStr "") d = PStr raw /\
    all_space raw = false /\ String.length (strip raw) <= 5000.

(** The requests [analyze_text] refuses: a body that is false as a
    condition, or an object whose [text] is blank or too long. *)
Definition refused_text (get_json : result (py F)) : Prop :=
  exists data,
    get_json = inr data /\
    (Py.truthy data = false \/
     exists d raw,
       data = PDict d /\ Py.get_default "text" (PStr "") d = PStr raw /\
       (all_space raw = true \/ 5000 < String.length (strip raw))).

End Results.
End Shape.

(** ** Pages, networks and requests of the scenarios *)

Module Fixture.
Import PyStr.
Local Open Scope string_scope.

(** An article of two lines; the second ends with a call to subscribe. *)
Definition budget_article : string :=
  "The council approved the   budget on Monday."
  ++ String UrlAnalyzer.newline
       "Members voted nine to two after a long debate. Subscribe to our newsletter".

Definition budget_page : UrlAnalyzer.soup :=
  {| UrlAnalyzer.title_tag := Some "You won't believe this shocking budget!!!";
     UrlAnalyzer.h1_tag := Some "Budget";
     UrlAnalyzer.og_title := None;
     UrlAnalyzer.article_tag := Some budget_article;
     UrlAnalyzer.select_one := fun _ => None;
     UrlAnalyzer.paragraphs := [];
     UrlAnalyzer.og_description := None;
     UrlAnalyzer.meta_description := Some (Some "Budget news") |}.

(** A page whose title and article both mention a shocking sponsored
    content *)
Definition tabloid_page : UrlAnalyzer.soup :=
  {| UrlAnalyzer.title_tag := Some "Shocking sponsored content about the council";
     UrlAnalyzer.h1_tag := None;
     UrlAnalyzer.og_title := None;
     UrlAnalyzer.article_tag :=
       Some "The shocking sponsored content of the week was about the council budget.";
     UrlAnalyzer.select_one := fun _ => None;
     UrlAnalyzer.paragraphs := [];
     UrlAnalyzer.og_description := None;
     UrlAnalyzer.meta_description := None |}.

(** A page whose only text is one line that begins with a copyright
    notice *)
Definition notice_page : UrlAnalyzer.soup :=
  {| UrlAnalyzer.title_tag := Some "Copyright law";
     UrlAnalyzer.h1_tag := None;
     UrlAnalyzer.og_title := None;
     UrlAnalyzer.article_tag :=
       Some "Copyright law reform passed the upper house on Tuesday after two readings.";
     UrlAnalyzer.select_one := fun _ => None;
     UrlAnalyzer.paragraphs := [];
     UrlAnalyzer.og_description := None;
     UrlAnalyzer.meta_description := None |}.

(** What [urlparse] gives for the addresses used below: scheme and network
    location *)
Definition parts (url : string) : result (string * string) :=
  if String.prefix "https://" url then inr ("https", "example.org")
  else if String.prefix "mailto:" url then inr ("mailto", "")
  else inr ("", "").

(** A network with three pages, one address that times out, and nothing
    else *)
Definition town : UrlAnalyzer.web :=
  {| UrlAnalyzer.available := true;
     UrlAnalyzer.urlparse := parts;
     UrlAnalyzer.request := fun url =>
       if String.eqb url "https://example.org/budget" then UrlAnalyzer.Page "budget"
       else if String.eqb url "https://example.org/tabloid" then UrlAnalyzer.Page "tabloid"
       else if String.eqb url "https://example.org/notice" then UrlAnalyzer.Page "notice"
       else if String.eqb url "https://example.org/slow" then UrlAnalyzer.Timeout
       else UrlAnalyzer.HTTPError 404;
     UrlAnalyzer.parse := fun html =>
       if String.eqb html "budget" then budget_page
       else if String.eqb html "tabloid" then tabloid_page
       else notice_page |}.

Section Objects.
Context {F : Type} {num : PyNum F}.

(** [URLArticleAnalyzer()] *)
Definition analyzer : UrlAnalyzer.t F :=
  {| UrlAnalyzer.timeout := 10; UrlAnalyzer.detector := Scenario.rule_based |}.

(** An analyzer whose classifier answers [NEGATIVE] with confidence 0.801 *)
Definition leaning : UrlAnalyzer.t F :=
  {| UrlAnalyzer.timeout := 10;
     UrlAnalyzer.detector :=
       FakeNewsDetector.init true (Scenario.answers "NEGATIVE" (lit 801 1000)) |}.

(** What [fetch_article] gives for the budget page *)
Definition budget_fetched : Py.pydict (F := F) :=
  [ ("url", PStr "https://example.org/budget");
    ("title", PStr "You won't believe this shocking budget!!!");
    ("description", PStr "Budget news");
    ("content",
     PStr "The council approved the budget on Monday. Members voted nine to two after a long debate.");
    ("status", PStr "success") ].

Definition surroundings : Cli.world F :=
  {| Cli.loaded := None;
     Cli.file_content := fun _ => Cli.NotFound "No such file or directory";
     Cli.typed := [];
     Cli.web := town |}.

(** The body of a batch request with three entries, the second blank *)
Definition batch_body : Py.pydict (F := F) :=
  [ ("texts", PList [ PStr "  Shocking news  "; PStr "   "; PStr "Council meets" ]) ].

End Objects.

(** [--text "   "] *)
Definition blank_text : Cli.args :=
  {| Cli.use_transformer := false; Cli.file_arg := None;
     Cli.text_arg := Some "   "; Cli.url_arg := None |}.

(** [--url example.org/budget --text ignored] *)
Definition budget_url : Cli.args :=
  {| Cli.use_transformer := false; Cli.file_arg := None;
     Cli.text_arg := Some "ignored"; Cli.url_arg := Some "example.org/budget" |}.

(** Lines typed at the prompt *)
Definition session : list string :=
  [ "Council approves budget"; "  CLEAR "; ""; "Shocking!!!" ].

End Fixture.

(** ** Texts with characters beyond ASCII *)

Module Latin1.
Local Open Scope string_scope.

(** The no-break space, and the next-line control character *)
Definition nbsp : string := String (ascii_of_nat 160) EmptyString.

Definition nel : string := String (ascii_of_nat 133) EmptyString.

(** Twenty words joined by no-break spaces, the last with an exclamation
    mark *)
Definition twenty_words : string :=
  String.concat nbsp (repeat "word" 19 ++ [ "word!" ]).

(** Eight capital E with acute accent, then nine small letters *)
Definition accented_capitals : string :=
  String.concat "" (repeat (String (ascii_of_nat 201) EmptyString) 8) ++ "abcdefghi".

(** Five no-break spaces separated by spaces *)
Definition spaced_out : string := String.concat " " (repeat nbsp 5).

End Latin1.

(** * Properties *)

(** ** White space and [strip] *)

Module PyStrFacts.
Import PyStr.

Lemma lstrip_all_space (s : string) : all_space (lstrip s) = all_space s.
Proof.
  induction s as [|c s IH]; simpl; [reflexivity|].
  destruct (isspace c) eqn:Hc; simpl; [exact IH|].
  now rewrite Hc.
Qed.

Lemma rstrip_empty_iff (s : string) :
  rstrip s = EmptyString <-> all_space s = true.
Proof.
  induction s as [|c s IH]; simpl; [tauto|].
  destruct (rstrip s) eqn:Hr.
  - destruct (isspace c); simpl.
    + split; intros _; [now apply IH | reflexivity].
    + split; discriminate.
  - split; [discriminate|].
    intros H. apply andb_true_iff in H as [_ H].
    apply IH in H. discriminate.
Qed.

Lemma rstrip_all_space (s : string) : all_space (rstrip s) = all_space s.
Proof.
  induction s as [|c s IH]; simpl; [reflexivity|].
  destruct (rstrip s) eqn:Hr.
  - assert (Hs : all_space s = true) by now apply rstrip_empty_iff.
    rewrite Hs, andb_true_r.
    destruct (isspace c) eqn:Hc; simpl; [reflexivity|].
    now rewrite Hc.
  - simpl in *. now rewrite IH.
Qed.

Lemma strip_all_space (s : string) : all_space (strip s) = all_space s.
Proof. unfold strip. now rewrite rstrip_all_space, lstrip_all_space. Qed.

Lemma strip_empty_iff (s : string) :
  strip s = EmptyString <-> all_space s = true.
Proof.
  unfold strip. rewrite rstrip_empty_iff. now rewrite lstrip_all_space.
Qed.

Lemma length_zero_iff (s : string) :
  (String.length s =? 0) = true <-> s = EmptyString.
Proof. destruct s; simpl; split; congruence. Qed.

(** The test [not text or len(text.strip()) == 0] of [predict] holds exactly
    of the texts made of white space only. *)
Lemma empty_test (s : string) :
  String.eqb s "" || (String.length (strip s) =? 0) = all_space s.
Proof.
  destruct (all_space s) eqn:Hs.
  - apply orb_true_iff. right.
    apply length_zero_iff. now apply strip_empty_iff.
  - apply orb_false_iff. split.
    + destruct s; [discriminate Hs | reflexivity].
    + destruct (String.length (strip s) =? 0) eqn:Hl; [|reflexivity].
      apply length_zero_iff, strip_empty_iff in Hl. congruence.
Qed.

Lemma eqb_empty_strip (s : string) :
  String.eqb (strip s) "" = all_space s.
Proof.
  destruct (String.eqb (strip s) "") eqn:He.
  - apply String.eqb_eq in He. symmetry. now apply strip_empty_iff.
  - destruct (all_space s) eqn:Hs; [|reflexivity].
    apply strip_empty_iff in Hs. rewrite Hs in He. discriminate.
Qed.

End PyStrFacts.

(** ** The shape of [predict], for any arithmetic *)

Module PredictFacts.
Import PyStr Dict Observe PyStrFacts.
Import FakeNewsDetector.

Section Generic.
Context {F : Type} {num : PyNum F}.

Lemma analyze_fake_score (text : string) :
  getnum "fake_score" (SimpleRuleBasedDetector.analyze (F:=F) text)
  = Some (heuristic_score text).
Proof. reflexivity. Qed.

(** The transformer step when the classifier is not requested. *)
Lemma combine_rule_based (self : t F) text h details :
  use_transformer self = false ->
  combine self text h details = Some (h, details).
Proof. intros H. unfold combine. now rewrite H. Qed.

Lemma combine_no_transformer (self : t F) text h details :
  transformer_detector self = None ->
  combine self text h details = Some (h, details).
Proof. intros H. unfold combine. rewrite H. now destruct (use_transformer self). Qed.

(** The transformer step when the classifier failed: the score is kept and
    the failure is recorded. *)
Lemma combine_failed (self : t F) text h details :
  classifier_failed self text ->
  exists message,
    combine self text h details
    = Some (h, setitem "transformer"
                 (VDict [ ("fake_score", VNum (lit 5 10));
                          ("error", VStr message);
                          ("method", VStr "transformer") ]) details).
Proof.
  intros (Huse & tr & Htr & Hp). unfold combine. rewrite Huse, Htr.
  unfold TransformerBasedDetector.analyze.
  destruct Hp as [Hnone | (run & message & Hrun & Hraise)].
  - rewrite Hnone. now exists "Model not loaded".
  - rewrite Hrun, Hraise. now exists message.
Qed.

(** The transformer step when the classifier answered. *)
Lemma combine_answered (self : t F) text h details label confidence :
  classifier_answered self text label confidence ->
  let external_fake :=
    if String.eqb (lower label) "negative" then confidence
    else sub (lit 1 1) confidence in
  combine self text h details
  = Some (add (mul (lit 6 10) h) (mul (lit 4 10) external_fake),
          setitem "transformer"
            (VDict [ ("fake_score", VNum external_fake);
                     ("sentiment", VStr (lower label));
                     ("confidence", VNum confidence);
                     ("method", VStr "transformer") ]) details).
Proof.
  intros (Huse & tr & run & Htr & Hrun & Hans). unfold combine.
  rewrite Huse, Htr. unfold TransformerBasedDetector.analyze.
  now rewrite Hrun, Hans.
Qed.

(** The transformer step never raises. *)
Lemma combine_total (self : t F) text h details :
  exists s details', combine self text h details = Some (s, details').
Proof.
  unfold combine.
  destruct (use_transformer self); [|now eauto].
  destruct (transformer_detector self) as [tr|]; [|now eauto].
  unfold TransformerBasedDetector.analyze.
  destruct (TransformerBasedDetector.pipeline tr) as [run|];
    [|simpl; now eauto].
  destruct (run (take 512 text)); simpl; now eauto.
Qed.

Lemma predict_blank (self : t F) text :
  all_space text = true -> predict self text = Some empty_verdict.
Proof.
  intros H. unfold predict. rewrite empty_test, H. reflexivity.
Qed.

(** On a text that is not blank [predict] returns the verdict built from
    the fused score. *)
Lemma predict_not_blank (self : t F) text :
  all_space text = false ->
  exists s details,
    combine self text (heuristic_score text) (rule_details text) = Some (s, details) /\
    fused_score self text = Some s /\
    predict self text = Some (verdict self s details).
Proof.
  intros H.
  destruct (combine_total self text (heuristic_score text) (rule_details text))
    as (s & details & Hc).
  exists s, details. split; [exact Hc|]. split.
  - unfold fused_score. rewrite analyze_fake_score. cbn [bind].
    now rewrite Hc.
  - unfold predict. rewrite empty_test, H, analyze_fake_score. cbn [bind].
    fold (rule_details text). now rewrite Hc.
Qed.

(** [predict] never raises. *)
Lemma predict_total (self : t F) text :
  exists v, predict self text = Some v.
Proof.
  destruct (all_space text) eqn:H.
  - eexists. now apply predict_blank.
  - destruct (predict_not_blank self text H) as (s & d & _ & _ & Hp). eauto.
Qed.

End Generic.
End PredictFacts.

(** ** The batch loop *)

Module BatchFacts.
Import PyStr Dict Observe PyStrFacts PredictFacts.
Import FakeNewsDetector DetectorApp.

Section Generic.
Context {F : Type} {num : PyNum F}.


(** Every verdict of [predict] carries a label, so the count of the summary
    succeeds and does not exceed the number of results. *)
Lemma predict_has_label (detector : FakeNewsDetector.t F) text v :
  predict detector text = Some v -> exists l, getitem "label" v = Some l.
Proof.
  intros Hv. destruct (all_space text) eqn:H.
  - rewrite (predict_blank detector text H) in Hv.
    injection Hv as <-. now eexists.
  - destruct (predict_not_blank detector text H) as (s & d & _ & _ & Hp).
    rewrite Hp in Hv. injection Hv as <-. now eexists.
Qed.





End Generic.
End BatchFacts.

(** ** Exact arithmetic *)

Module ExactFacts.
Import Exact.
Import SimpleRuleBasedDetector.
Local Open Scope Z_scope.

Lemma round_half_even_error (n : Z) (d : positive) :
  2 * Z.abs (round_half_even n d * Zpos d - n) <= Zpos d.
Proof.
  unfold round_half_even.
  pose proof (Z.div_mod n (Zpos d) ltac:(lia)) as Hn.
  pose proof (Z.mod_pos_bound n (Zpos d) ltac:(lia)) as Hr.
  set (q := n / Zpos d) in *. set (r := n mod Zpos d) in *.
  destruct (Z.compare_spec (2 * r) (Zpos d)); [destruct (Z.even q)| |]; nia.
Qed.

Lemma round_half_even_between (n : Z) (d : positive) (a b : Z) :
  a * Zpos d <= n <= b * Zpos d ->
  a <= round_half_even n d <= b.
Proof.
  intros Hab. unfold round_half_even.
  pose proof (Z.div_mod n (Zpos d) ltac:(lia)) as Hn.
  pose proof (Z.mod_pos_bound n (Zpos d) ltac:(lia)) as Hr.
  set (q := n / Zpos d) in *. set (r := n mod Zpos d) in *.
  assert (a <= q) by nia.
  assert (q <= b) by nia.
  assert (0 < r -> q + 1 <= b) by nia.
  destruct (Z.compare_spec (2 * r) (Zpos d)); [destruct (Z.even q)| |]; lia.
Qed.

Lemma round_half_even_mono (n1 n2 : Z) (d1 d2 : positive) :
  n1 * Zpos d2 <= n2 * Zpos d1 ->
  round_half_even n1 d1 <= round_half_even n2 d2.
Proof.
intros Hle. unfold round_half_even.
pose proof (Z.div_mod n1 (Zpos d1) ltac:(lia)) as Hn1.
pose proof (Z.mod_pos_bound n1 (Zpos d1) ltac:(lia)) as Hr1.
pose proof (Z.div_mod n2 (Zpos d2) ltac:(lia)) as Hn2.
pose proof (Z.mod_pos_bound n2 (Zpos d2) ltac:(lia)) as Hr2.
set (q1 := n1 / Zpos d1) in *. set (r1 := n1 mod Zpos d1) in *.
set (q2 := n2 / Zpos d2) in *. set (r2 := n2 mod Zpos d2) in *.
set (D1 := Zpos d1) in *. set (D2 := Zpos d2) in *.
assert (HD1 : 0 < D1) by (subst D1; lia).
assert (HD2 : 0 < D2) by (subst D2; lia).
assert (Hq : q1 <= q2).
{ destruct (Z_le_gt_dec q1 q2) as [H|H]; [exact H|exfalso].
  assert (D1 * D2 * (q2 + 1) <= D1 * D2 * q1) by (apply Z.mul_le_mono_nonneg_l; nia).
  nia. }
destruct (Z.eq_dec q1 q2) as [Heq|Hne].
- assert (Hr : r1 * D2 <= r2 * D1) by nia.
  rewrite <- Heq.
  destruct (Z.compare_spec (2 * r1) D1) as [E1|L1|G1];
    destruct (Z.compare_spec (2 * r2) D2) as [E2|L2|G2];
    destruct (Z.even q1); try lia; exfalso; nia.
- destruct (Z.compare_spec (2 * r1) D1); destruct (Z.compare_spec (2 * r2) D2);
    destruct (Z.even q1); destruct (Z.even q2); lia.
Qed.

Local Open Scope Q_scope.

Lemma ltb_Q_lt (x y : Q) : ltb_Q x y = true <-> x < y.
Proof.
  unfold ltb_Q. rewrite Qlt_alt. destruct (x ?= y); split; congruence.
Qed.

Lemma ltb_Q_ge (x y : Q) : ltb_Q x y = false <-> y <= x.
Proof.
  split.
  - intros H. apply Qnot_lt_le. intros Hlt. apply ltb_Q_lt in Hlt. congruence.
  - intros H. destruct (ltb_Q x y) eqn:E; [|reflexivity].
    apply ltb_Q_lt in E. apply Qle_not_lt in H. contradiction.
Qed.

(** [min] returns one of its arguments, and the smaller. *)
Lemma pymin_spec (a b : Q) :
  (b < a /\ pymin a b = b) \/ (a <= b /\ pymin a b = a).
Proof.
  unfold pymin. cbn [ltb num].
  destruct (ltb_Q b a) eqn:E.
  - left. split; [now apply ltb_Q_lt | reflexivity].
  - right. split; [now apply ltb_Q_ge | reflexivity].
Qed.

Lemma pymin_Qmin (a b : Q) : pymin a b == Qmin a b.
Proof.
  destruct (pymin_spec a b) as [[H ->] | [H ->]].
  - symmetry. apply Q.min_r. now apply Qlt_le_weak.
  - symmetry. now apply Q.min_l.
Qed.

Lemma pysum_from (xs : list Q) (a : Q) :
  fold_left Qplus xs a == a + pysum xs.
Proof.
  unfold pysum. cbn [add of_nat num]. change (inject_Z (Z.of_nat 0)) with 0.
  revert a. induction xs as [|x xs IH]; intros a; simpl.
  - lra.
  - rewrite (IH (a + x)), (IH (0 + x)). lra.
Qed.

Lemma pysum_nil : pysum (F:=Q) [] == 0.
Proof. reflexivity. Qed.

Lemma pysum_app (xs ys : list Q) : pysum (xs ++ ys) == pysum xs + pysum ys.
Proof.
  unfold pysum at 1. rewrite fold_left_app. rewrite pysum_from.
  fold (pysum xs). lra.
Qed.

Lemma pysum_snoc (xs : list Q) (x : Q) : pysum (xs ++ [x]) == pysum xs + x.
Proof.
  rewrite pysum_app. unfold pysum at 2. cbn.
  change (inject_Z 0) with 0. lra.
Qed.

Lemma pysum_nonneg (xs : list Q) :
  Forall (fun x => 0 <= x) xs -> 0 <= pysum xs.
Proof.
  induction xs as [|x xs IH] using rev_ind; intros H.
  - rewrite pysum_nil. lra.
  - apply Forall_app in H as [Hxs Hx]. inversion Hx; subst.
    rewrite pysum_snoc. specialize (IH Hxs). lra.
Qed.

End ExactFacts.

(** ** Substrings and the patterns *)

Module ReFacts.
Import PyStr Re Observe.
Local Open Scope string_scope.

Lemma prefix_iff (p s : string) :
  String.prefix p s = true <-> exists after, s = p ++ after.
Proof.
  revert p. induction s as [|b s IH]; intros [|a p]; simpl.
  - split; [intros _; now exists "" | reflexivity].
  - split; [discriminate | intros [after H]; discriminate].
  - split; [intros _; now eexists | reflexivity].
  - destruct (ascii_dec a b) as [<-|Hab].
    + rewrite IH. split; intros [after H]; exists after; congruence.
    + split; [discriminate | intros [after H]]. congruence.
Qed.

Lemma contains_iff (p s : string) :
  contains p s = true <-> exists before after, s = before ++ p ++ after.
Proof.
  induction s as [|c s IH]; cbn [contains].
  - rewrite orb_false_r, prefix_iff. split.
    + intros [after H]. now exists "", after.
    + intros (before & after & H). destruct before; [now exists after|discriminate].
  - rewrite orb_true_iff, prefix_iff, IH. split.
    + intros [[after H] | (before & after & H)].
      * now exists "", after.
      * exists (String c before), after. simpl. congruence.
    + intros (before & after & H). destruct before as [|b before].
      * left. now exists after.
      * right. exists before, after. simpl in H. congruence.
Qed.

(** A literal under [(?i)] matches where its lower-cased form is a prefix of
    the lower-cased text. *)
Lemma lit_here_lower (p s : string) :
  lit_here p s = String.prefix (lower p) (lower s).
Proof.
  revert s. induction p as [|a p IH]; intros [|b s]; simpl; try reflexivity.
  unfold eq_ignorecase.
  destruct (ascii_dec (lower_char a) (lower_char b)) as [->|Hab].
  - rewrite Ascii.eqb_refl. apply IH.
  - apply Ascii.eqb_neq in Hab. now rewrite Hab.
Qed.

Lemma search_lit (p s : string) :
  search (ILit p) s = contains (lower p) (lower s).
Proof.
  unfold search.
  induction s as [|c s IH]; cbn [search_from lower contains match_here];
    rewrite lit_here_lower; cbn [lower].
  - reflexivity.
  - now rewrite IH.
Qed.

Lemma search_lit_iff (p s : string) :
  search (ILit p) s = true <-> has_phrase (lower p) s.
Proof. rewrite search_lit. apply contains_iff. Qed.

Lemma search_from_iff (m : string -> bool) (s : string) :
  search_from m s = true <-> exists before after, s = before ++ after /\ m after = true.
Proof.
  induction s as [|c s IH]; simpl.
  - rewrite orb_false_r. split.
    + intros H. now exists "", "".
    + intros (before & after & H & Hm).
      destruct before; [|discriminate]. simpl in H. now subst.
  - rewrite orb_true_iff, IH. split.
    + intros [H | (before & after & H & Hm)].
      * now exists "", (String c s).
      * exists (String c before), after. simpl. split; congruence.
    + intros (before & after & H & Hm). destruct before as [|b before].
      * left. simpl in H. now subst.
      * right. exists before, after. simpl in H. split; congruence.
Qed.

Lemma punctuation_class (c : ascii) :
  existsb (eq_ignorecase c) ["!"%char; "?"%char] = true <-> punctuation c.
Proof.
  unfold punctuation.
  destruct c as [[] [] [] [] [] [] [] []]; vm_compute;
    split; intros H; try discriminate H; try reflexivity; auto;
    destruct H as [H|H]; discriminate H.
Qed.

Lemma search_punctuation (s : string) :
  search (IClassAtLeast ["!"%char; "?"%char] 3) s = true <-> punctuation_run s.
Proof.
  unfold search, punctuation_run. rewrite search_from_iff.
  cbn [match_here]. split.
  - intros (before & after & -> & H).
    destruct after as [|a [|b [|c after]]]; cbn [class_here] in H;
      rewrite ?andb_false_r in H; try discriminate H.
    rewrite andb_true_r in H.
    apply andb_true_iff in H as [Ha H]. apply andb_true_iff in H as [Hb Hc].
    exists before, a, b, c, after. rewrite <- !punctuation_class. auto.
  - intros (before & a & b & c & after & -> & Ha & Hb & Hc).
    exists before. eexists. split; [reflexivity|].
    apply punctuation_class in Ha, Hb, Hc.
    cbn [class_here]. now rewrite Ha, Hb, Hc.
Qed.

End ReFacts.

(** ** The rule checks, for any arithmetic *)

Module RuleFacts.
Import PyStr Re Observe.
Import SimpleRuleBasedDetector.

Section Generic.
Context {F : Type} {num : PyNum F}.

Lemma check_sensational_app (text : string) (sc : list F) :
  check_sensational text sc = sc ++ check_sensational text [].
Proof.
  unfold check_sensational.
  destruct (0 <? sensational_count (lower text)); [reflexivity|].
  now rewrite app_nil_r.
Qed.

Lemma check_punctuation_app (text : string) (sc : list F) :
  check_punctuation text sc = sc ++ check_punctuation text [].
Proof.
  unfold check_punctuation.
  destruct (ltb (lit 5 100) (exclamation_ratio text)); [reflexivity|].
  now rewrite app_nil_r.
Qed.

Lemma check_caps_app (text : string) (sc : list F) :
  check_caps text sc = sc ++ check_caps text [].
Proof.
  unfold check_caps.
  destruct (ltb (lit 3 10) (caps_ratio text)); [reflexivity|].
  now rewrite app_nil_r.
Qed.

Lemma check_length_app (text : string) (sc : list F) :
  check_length text sc = sc ++ check_length text [].
Proof.
  unfold check_length.
  destruct ((List.length (split text) <? 5) || (500 <? List.length (split text)));
    [reflexivity|].
  now rewrite app_nil_r.
Qed.

(** The loop appends, pattern by pattern, one [0.15] for each pattern found
    in the text. *)
Lemma check_patterns_eq (text : string) (sc : list F) :
  check_patterns text sc
  = sc ++ pattern_score (ILit "all caps") text
       ++ pattern_score (IClassAtLeast ["!"%char; "?"%char] 3) text
       ++ pattern_score (ILit "you won't believe") text
       ++ pattern_score (ILit "sponsored content") text.
Proof.
  unfold check_patterns, SUSPICIOUS_PATTERNS, pattern_score.
  cbn [fold_left].
  destruct (search (ILit "all caps") text),
           (search (IClassAtLeast ["!"%char; "?"%char] 3) text),
           (search (ILit "you won't believe") text),
           (search (ILit "sponsored content") text);
    cbn [app]; rewrite <- ?app_assoc, ?app_nil_r; reflexivity.
Qed.

Lemma check_patterns_app (text : string) (sc : list F) :
  check_patterns text sc = sc ++ check_patterns text [].
Proof. now rewrite (check_patterns_eq text sc), (check_patterns_eq text []). Qed.

Lemma other_scores_eq (text : string) :
  other_scores text
  = check_punctuation text [] ++ check_caps text []
    ++ check_patterns text [] ++ check_length text [].
Proof.
  unfold other_scores.
  rewrite check_length_app, check_patterns_app, check_caps_app.
  now rewrite <- !app_assoc.
Qed.

Lemma scores_eq (text : string) :
  scores text = check_sensational text [] ++ other_scores text.
Proof.
  unfold scores. cbv zeta.
  rewrite check_length_app, check_patterns_app, check_caps_app,
    check_punctuation_app.
  rewrite other_scores_eq. now rewrite <- !app_assoc.
Qed.

Lemma filter_length_le {A : Type} (p q : A -> bool) (l : list A) :
  (forall x, In x l -> p x = true -> q x = true) ->
  List.length (filter p l) <= List.length (filter q l).
Proof.
  induction l as [|x l IH]; intros H; simpl; [lia|].
  assert (IH' : List.length (filter p l) <= List.length (filter q l))
    by (apply IH; intros y Hy; apply H; now right).
  destruct (p x) eqn:Hp.
  - rewrite (H x (or_introl eq_refl) Hp). simpl. lia.
  - destruct (q x); simpl; lia.
Qed.

End Generic.
End RuleFacts.

(** ** The heuristic score in exact arithmetic *)

Module ScoreFacts.
Import PyStr Re Observe RuleFacts ExactFacts.
Import Exact SimpleRuleBasedDetector.
Local Open Scope Q_scope.

Ltac exact_ops :=
  cbn [lit of_nat add sub mul div fabs ltb round3 Exact.num] in *.

Lemma of_nat_nonneg (n : nat) : 0 <= of_nat n.
Proof. exact_ops. unfold Qle. simpl. lia. Qed.

Lemma of_nat_le (n m : nat) : (n <= m)%nat -> of_nat n <= of_nat m.
Proof. intros H. exact_ops. unfold Qle. simpl. lia. Qed.

Lemma pymin_nonneg (a b : Q) : 0 <= a -> 0 <= b -> 0 <= pymin a b.
Proof. intros Ha Hb. destruct (pymin_spec a b) as [[_ ->] | [_ ->]]; assumption. Qed.

Lemma pymin_le_r (a b : Q) : pymin a b <= b.
Proof. destruct (pymin_spec a b) as [[_ ->] | [H ->]]; lra. Qed.

Lemma pymin_le_l (a b : Q) : pymin a b <= a.
Proof. destruct (pymin_spec a b) as [[H ->] | [_ ->]]; lra. Qed.

Lemma pymin_mono (a a' b : Q) : a <= a' -> pymin a b <= pymin a' b.
Proof.
  intros H.
  destruct (pymin_spec a b) as [[Ha ->] | [Ha ->]],
           (pymin_spec a' b) as [[Ha' ->] | [Ha' ->]]; lra.
Qed.

Lemma check_sensational_nonneg (text : string) :
  Forall (fun x => 0 <= x) (check_sensational (F:=Q) text []).
Proof.
  unfold check_sensational.
  destruct (0 <? sensational_count (lower text))%nat; constructor; [|constructor].
  apply pymin_nonneg; [|exact_ops; lra].
  pose proof (of_nat_nonneg (sensational_count (lower text))).
  exact_ops. nra.
Qed.

Lemma check_punctuation_nonneg (text : string) :
  Forall (fun x => 0 <= x) (check_punctuation (F:=Q) text []).
Proof.
  unfold check_punctuation.
  destruct (ltb (lit 5 100) (exclamation_ratio text)) eqn:E;
    constructor; [|constructor].
  apply ltb_Q_lt in E.
  apply pymin_nonneg; exact_ops; [|lra].
  change (inject_Z (Z.of_nat 2)) with 2. lra.
Qed.

Lemma check_caps_nonneg (text : string) :
  Forall (fun x => 0 <= x) (check_caps (F:=Q) text []).
Proof.
  unfold check_caps.
  destruct (ltb (lit 3 10) (caps_ratio text)); constructor; [|constructor].
  exact_ops. lra.
Qed.

Lemma pattern_score_nonneg (pattern : regex) (text : string) :
  Forall (fun x => 0 <= x) (pattern_score (F:=Q) pattern text).
Proof.
  unfold pattern_score.
  destruct (search pattern text); constructor; [|constructor].
  exact_ops. lra.
Qed.

Lemma check_patterns_nonneg (text : string) :
  Forall (fun x => 0 <= x) (check_patterns (F:=Q) text []).
Proof.
  rewrite check_patterns_eq. cbn [app].
  repeat (apply Forall_app; split); apply pattern_score_nonneg.
Qed.

Lemma check_length_nonneg (text : string) :
  Forall (fun x => 0 <= x) (check_length (F:=Q) text []).
Proof.
  unfold check_length.
  destruct ((List.length (split text) <? 5)%nat || (500 <? List.length (split text))%nat);
    constructor; [|constructor].
  exact_ops. lra.
Qed.

(** No contribution is negative. *)
Lemma scores_nonneg (text : string) :
  Forall (fun x => 0 <= x) (scores (F:=Q) text).
Proof.
  rewrite scores_eq, other_scores_eq.
  repeat (apply Forall_app; split);
    auto using check_sensational_nonneg, check_punctuation_nonneg,
      check_caps_nonneg, check_patterns_nonneg, check_length_nonneg.
Qed.

Lemma heuristic_score_min (text : string) :
  heuristic_score text == Qmin (pysum (scores text)) 1.
Proof. unfold heuristic_score. apply pymin_Qmin. Qed.

Lemma heuristic_score_unit (text : string) :
  0 <= heuristic_score text <= 1.
Proof.
  unfold heuristic_score. split.
  - apply pymin_nonneg; [|exact_ops; lra].
    apply pysum_nonneg, scores_nonneg.
  - pose proof (pymin_le_r (pysum (scores text)) (lit 1 1)) as H.
    exact_ops. lra.
Qed.

End ScoreFacts.

(** ** Rounding to three decimals in exact arithmetic *)

Module RoundFacts.
Import Exact ExactFacts.
Local Open Scope Q_scope.

Lemma round3_unit (x : Q) : 0 <= x <= 1 -> 0 <= round3_Q x <= 1.
Proof.
destruct x as [n d]. unfold round3_Q, Qle. simpl. intros [H0 H1].
pose proof (round_half_even_between (n * 1000) d 0 1000 ltac:(lia)). lia.
Qed.

Lemma round3_error (x : Q) : Qabs (round3_Q x - x) <= 1 # 2000.
Proof.
destruct x as [n d]. unfold round3_Q. cbn [Qnum Qden].
pose proof (round_half_even_error (n * 1000) d) as H.
set (k := round_half_even (n * 1000) d) in *.
unfold Qminus, Qplus, Qopp, Qabs, Qle. cbn [Qnum Qden].
rewrite Pos2Z.inj_mul. lia.
Qed.

Lemma round3_mono (x y : Q) : x <= y -> round3_Q x <= round3_Q y.
Proof.
destruct x as [nx dx], y as [ny dy]. unfold round3_Q, Qle. cbn [Qnum Qden].
intros H.
pose proof (round_half_even_mono (nx * 1000) (ny * 1000) dx dy ltac:(lia)).
lia.
Qed.

(** The two rounded fields of a verdict: the rounded confidence is within one
    thousandth of the confidence recomputed from the rounded score. *)
Lemma rounded_fields_close (s : Q) :
  Qabs (round3_Q (Qabs (s - (5 # 10)) * inject_Z 2)
        - Qabs (round3_Q s - (5 # 10)) * inject_Z 2) <= 1 # 1000.
Proof.
destruct s as [n d]. unfold round3_Q.
unfold Qminus, Qplus, Qopp, Qmult, Qabs, inject_Z. cbn [Qnum Qden].
pose proof (round_half_even_error (n * 1000) d) as H1.
set (k1 := round_half_even (n * 1000) d) in *.
match goal with
| |- context [round_half_even ?a ?b] =>
    pose proof (round_half_even_error a b) as H2;
    set (k2 := round_half_even a b) in *
end.
unfold Qle. cbn [Qnum Qden].
rewrite !Pos2Z.inj_mul in *.
set (D := Zpos d) in *. assert (HD : (0 < D)%Z) by (subst D; lia).
set (M := Z.abs (2 * k1 - 1000)).
assert (HM : (M * D = Z.abs (2 * (k1 * D) - 1000 * D))%Z).
{ subst M. rewrite <- (Z.abs_eq D) at 1 by lia. rewrite <- Z.abs_mul.
  f_equal. ring. }
assert (HX : (2 * (Z.abs (k2 - M) * D) <= 3 * D)%Z).
{ rewrite <- (Z.abs_eq D) at 1 by lia. rewrite <- Z.abs_mul.
  replace ((k2 - M) * D)%Z with (k2 * D - M * D)%Z by ring.
  rewrite HM. lia. }
assert (HA : (Z.abs (k2 - M) <= 1)%Z) by nia.
subst M. lia.
Qed.

End RoundFacts.

(** ** Fusion, for any arithmetic *)

Module FusionFacts.
Import PyStr Dict Observe PyStrFacts PredictFacts.
Import FakeNewsDetector.

Section Generic.
Context {F : Type} {num : PyNum F}.

Lemma fused_score_combine (self : t F) text s details :
  combine self text (heuristic_score text) (rule_details text) = Some (s, details) ->
  fused_score self text = Some s.
Proof.
intros H. unfold fused_score. rewrite analyze_fake_score. cbn [bind].
now rewrite H.
Qed.

Lemma predict_combine (self : t F) text s details :
  all_space text = false ->
  combine self text (heuristic_score text) (rule_details text) = Some (s, details) ->
  predict self text = Some (verdict self s details).
Proof.
intros Hb Hc.
destruct (predict_not_blank self text Hb) as (s' & d' & Hc' & _ & Hp).
rewrite Hc in Hc'. now injection Hc' as <- <-.
Qed.

(** Without the classifier the fused score is the heuristic score. *)
Lemma predict_rule_based (self : t F) text :
  all_space text = false ->
  use_transformer self = false ->
  fused_score self text = Some (heuristic_score text) /\
  predict self text = Some (verdict self (heuristic_score text) (rule_details text)).
Proof.
intros Hb Hu.
pose proof (combine_rule_based self text (heuristic_score text) (rule_details text) Hu) as Hc.
split; [eapply fused_score_combine | eapply predict_combine]; eauto.
Qed.

(** When the classifier failed the fused score is the heuristic score, the
    failure is recorded in the details, and the verdict is the one built for a
    detector with [use_transformer] set. *)
Lemma predict_classifier_failed (self : t F) text :
  all_space text = false ->
  classifier_failed self text ->
  exists message,
    fused_score self text = Some (heuristic_score text) /\
    predict self text
    = Some (verdict self (heuristic_score text)
              (setitem "transformer"
                 (VDict [ ("fake_score", VNum (lit 5 10)); ("error", VStr message);
                          ("method", VStr "transformer") ])
                 (rule_details text))).
Proof.
intros Hb Hf.
destruct (combine_failed self text (heuristic_score text) (rule_details text) Hf)
  as (message & Hc).
exists message.
split; [eapply fused_score_combine | eapply predict_combine]; eauto.
Qed.

Lemma predict_classifier_answered (self : t F) text label confidence :
  all_space text = false ->
  classifier_answered self text label confidence ->
  let external_fake :=
    if String.eqb (lower label) "negative" then confidence
    else sub (lit 1 1) confidence in
  let fused := add (mul (lit 6 10) (heuristic_score text)) (mul (lit 4 10) external_fake) in
  fused_score self text = Some fused /\
  predict self text
  = Some (verdict self fused
            (setitem "transformer"
               (VDict [ ("fake_score", VNum external_fake);
                        ("sentiment", VStr (lower label));
                        ("confidence", VNum confidence);
                        ("method", VStr "transformer") ])
               (rule_details text))).
Proof.
intros Hb Ha.
pose proof (combine_answered self text (heuristic_score text) (rule_details text)
              label confidence Ha) as Hc.
cbv zeta in *.
split; [eapply fused_score_combine | eapply predict_combine]; eauto.
Qed.

(** The label is [FAKE] when the comparison [fake_score > 0.5] holds of the
    fused score, and [REAL] otherwise. *)
Lemma label_by_comparison (self : t F) text :
  all_space text = false ->
  exists v s,
    predict self text = Some v /\
    fused_score self text = Some s /\
    getstr "label" v = Some (if ltb (lit 5 10) s then "FAKE" else "REAL").
Proof.
intros Hb.
destruct (predict_not_blank self text Hb) as (s & d & _ & Hs & Hp).
exists (verdict self s d), s. now repeat split.
Qed.

(** The classifier either was not consulted, failed, or answered. *)
Lemma classifier_cases (self : t F) text :
  (use_transformer self = false \/ transformer_detector self = None) \/
  classifier_failed self text \/
  exists label confidence, classifier_answered self text label confidence.
Proof.
unfold classifier_failed, classifier_answered.
destruct (use_transformer self) eqn:Hu; [|now auto].
destruct (transformer_detector self) as [tr|] eqn:Ht; [|now auto].
destruct (TransformerBasedDetector.pipeline tr) as [run|] eqn:Hp.
- destruct (run (take 512 text)) as [label confidence|message] eqn:Hr.
  + right. right. exists label, confidence. split; [reflexivity|].
    now exists tr, run.
  + right. left. split; [reflexivity|]. exists tr. split; [reflexivity|].
    right. now exists run, message.
- right. left. split; [reflexivity|]. exists tr. now auto.
Qed.

End Generic.
End FusionFacts.

(** ** The suspicious patterns and the sensational phrases *)

Module PatternFacts.
Import PyStr Re Observe RuleFacts ExactFacts ScoreFacts.
Import Exact SimpleRuleBasedDetector.

Section Generic.
Context {F : Type} {num : PyNum F}.

(** The loop appends one [0.15] for each pattern of [SUSPICIOUS_PATTERNS]
    found in the text: four patterns, the phrase [all caps] among them. *)
Lemma check_patterns_matching (text : string) (sc : list F) :
  check_patterns text sc
  = sc ++ repeat (lit 15 100) (matching SUSPICIOUS_PATTERNS text).
Proof.
rewrite check_patterns_eq.
unfold pattern_score, matching, SUSPICIOUS_PATTERNS. cbn [filter].
destruct (search (ILit "all caps") text),
         (search (IClassAtLeast ["!"%char; "?"%char] 3) text),
         (search (ILit "you won't believe") text),
         (search (ILit "sponsored content") text); reflexivity.
Qed.

Lemma matching_without_caps_phrase (text : string) :
  search (ILit "all caps") text = false ->
  matching SUSPICIOUS_PATTERNS text = matching three_patterns text.
Proof.
intros H. unfold matching, SUSPICIOUS_PATTERNS, three_patterns.
cbn [filter]. now rewrite H.
Qed.

Lemma matching_with_caps_phrase (text : string) :
  search (ILit "all caps") text = true ->
  matching SUSPICIOUS_PATTERNS text = S (matching three_patterns text).
Proof.
intros H. unfold matching, SUSPICIOUS_PATTERNS, three_patterns.
cbn [filter]. now rewrite H.
Qed.

End Generic.

Local Open Scope Q_scope.

Lemma pysum_cons (x : Q) (xs : list Q) : pysum (x :: xs) == x + pysum xs.
Proof.
change (x :: xs) with ([x] ++ xs). rewrite pysum_app.
unfold pysum at 1. cbn. change (inject_Z 0) with 0. lra.
Qed.

Lemma pysum_repeat (x : Q) (k : nat) : pysum (repeat x k) == x * of_nat k.
Proof.
induction k as [|k IH].
- cbn [repeat]. rewrite pysum_nil. exact_ops.
  change (inject_Z (Z.of_nat 0)) with 0. lra.
- cbn [repeat]. rewrite pysum_cons, IH. exact_ops.
  rewrite Nat2Z.inj_succ. unfold Z.succ. rewrite inject_Z_plus.
  change (inject_Z 1) with 1. lra.
Qed.

Lemma pysum_scores (text : string) :
  pysum (scores text)
  == pysum (check_sensational text []) + pysum (check_punctuation text [])
     + pysum (check_caps text [])
     + (15 # 100) * of_nat (matching SUSPICIOUS_PATTERNS text)
     + pysum (check_length text []).
Proof.
rewrite scores_eq, other_scores_eq, !pysum_app.
rewrite (check_patterns_matching text []). cbn [app].
rewrite pysum_repeat. exact_ops. lra.
Qed.

(** The sensational-phrase rule contributes min(0.15 * count, 0.5). *)
Lemma sensational_contribution (text : string) :
  pysum (check_sensational text [])
  == Qmin ((15 # 100) * of_nat (sensational_count (lower text))) (5 # 10).
Proof.
unfold check_sensational.
destruct (sensational_count (lower text)) as [|n] eqn:Hn; cbn [Nat.ltb Nat.leb].
- rewrite pysum_nil. exact_ops. change (inject_Z (Z.of_nat 0)) with 0.
  rewrite Q.min_l by lra. lra.
- cbn [app]. rewrite pysum_cons, pysum_nil, pymin_Qmin. exact_ops.
  rewrite Qplus_0_r. apply Q.min_compat; [apply Qmult_comm | reflexivity].
Qed.

Lemma sensational_count_mono (a b : string) :
  (forall phrase, In phrase SENSATIONAL_WORDS ->
     contains phrase (lower a) = true -> contains phrase (lower b) = true) ->
  (sensational_count (lower a) <= sensational_count (lower b))%nat.
Proof. intros H. unfold sensational_count. now apply filter_length_le. Qed.

Lemma heuristic_score_mono (a b : string) :
  pysum (scores a) <= pysum (scores b) ->
  heuristic_score a <= heuristic_score b.
Proof. intros H. unfold heuristic_score. now apply pymin_mono. Qed.

(** More sensational phrases, the other rules alike: no lower a score. *)
Lemma heuristic_score_superset (a b : string) :
  (forall phrase, In phrase SENSATIONAL_WORDS ->
     contains phrase (lower a) = true -> contains phrase (lower b) = true) ->
  other_scores (F := Q) a = other_scores b ->
  heuristic_score a <= heuristic_score b.
Proof.
intros Hsub Hother. apply heuristic_score_mono.
rewrite !scores_eq, !pysum_app, Hother, !sensational_contribution.
apply Qplus_le_l, Q.min_le_compat_r.
apply Qmult_le_l; [reflexivity|].
now apply of_nat_le, sensational_count_mono.
Qed.

End PatternFacts.

(** ** The fused score in exact arithmetic *)

Module VerdictFacts.
Import PyStr Dict Observe PyStrFacts PredictFacts FusionFacts.
Import ExactFacts ScoreFacts RoundFacts.
Import Exact FakeNewsDetector.
Local Open Scope Q_scope.

(** The fused score lies in [0,1] when the classifier's confidences do. *)
Lemma fused_unit (self : t Q) (text : string) :
  confidences_in_unit self ->
  exists s details,
    combine self text (heuristic_score text) (rule_details text) = Some (s, details) /\
    0 <= s <= 1.
Proof.
intros Hunit. pose proof (heuristic_score_unit text) as Hh.
destruct (classifier_cases self text)
  as [[Hu | Hn] | [Hf | (label & confidence & Ha)]].
- do 2 eexists. split; [now apply combine_rule_based | exact Hh].
- do 2 eexists. split; [now apply combine_no_transformer | exact Hh].
- destruct (combine_failed self text (heuristic_score text) (rule_details text) Hf)
    as (message & Hc).
  do 2 eexists. split; [exact Hc | exact Hh].
- pose proof (combine_answered self text (heuristic_score text) (rule_details text)
                label confidence Ha) as Hc.
  cbv zeta in Hc. do 2 eexists. split; [exact Hc|].
  destruct Ha as (_ & tr & run & Htr & Hrun & Hans).
  pose proof (Hunit tr run _ label confidence Htr Hrun Hans) as Hconf.
  exact_ops.
  destruct (String.eqb (lower label) "negative"); lra.
Qed.

Lemma confidence_unit (s : Q) :
  0 <= s <= 1 -> 0 <= Qabs (s - (5 # 10)) * inject_Z 2 <= 1.
Proof.
intros Hs. change (inject_Z 2) with 2.
apply Qabs_case; intros; lra.
Qed.

End VerdictFacts.

(** * The claims *)

Import Exact Binary64.

(** ** Verdicts of [predict], for any arithmetic *)

(** C5.  For a text that is empty or made of white space only, [predict]
    returns the verdict with label [UNKNOWN], [fake_score] 0.5, [confidence]
    0.0 and the error [Empty text], whatever the detector: with or without a
    classifier, loaded or not.  Nothing of the heuristic scorer or of the
    fusion is in it. *)
Theorem predict_blank_is_unknown {F : Type} {num : PyNum F}
    (self : FakeNewsDetector.t F) (text : string) :
  PyStr.all_space text = true ->
  FakeNewsDetector.predict self text
  = Some [ ("fake_score", VNum (lit 5 10)); ("confidence", VNum (lit 0 1));
           ("label", VStr "UNKNOWN"); ("error", VStr "Empty text") ].
Proof.
intros H. rewrite (PredictFacts.predict_blank self text H). reflexivity.
Qed.

(** C5 at three spaces, for a detector whose classifier answers. *)
Lemma predict_blank_is_unknown_witness :
  PyStr.all_space "   " = true /\
  FakeNewsDetector.predict (Scenario.negative_09 (num := Exact.num)) "   "
  = Some [ ("fake_score", VNum (5 # 10)%Q); ("confidence", VNum (0 # 1)%Q);
           ("label", VStr "UNKNOWN"); ("error", VStr "Empty text") ].
Proof.
split; [reflexivity|].
apply (predict_blank_is_unknown (num := Exact.num)). reflexivity.
Defined.

(** C10.  The verdict for a blank text has exactly the keys [fake_score],
    [confidence], [label] and [error], so neither [method] nor [details]; the
    verdict for any other text has exactly [fake_score], [confidence],
    [label], [method] and [details], so no [error]. *)
Theorem verdict_keys {F : Type} {num : PyNum F}
    (self : FakeNewsDetector.t F) (text : string) :
  exists v,
    FakeNewsDetector.predict self text = Some v /\
    if PyStr.all_space text
    then Dict.keys v = ["fake_score"; "confidence"; "label"; "error"] /\
         Dict.has_key "method" v = false /\
         Dict.has_key "details" v = false
    else Dict.keys v = ["fake_score"; "confidence"; "label"; "method"; "details"] /\
         Dict.has_key "error" v = false.
Proof.
destruct (PyStr.all_space text) eqn:H.
- eexists. split; [now apply PredictFacts.predict_blank|]. now repeat split.
- destruct (PredictFacts.predict_not_blank self text H) as (s & d & _ & _ & Hp).
  eexists. split; [exact Hp|]. now repeat split.
Qed.



(** C1 (what the code does).  For a text that is not blank, when the
    classifier was requested and is unavailable or its call raised, the fused
    score is the heuristic score unchanged and the error is recorded in the
    details; the field [method] of the verdict nevertheless says [hybrid],
    where the claim has [rule-based]. *)
Theorem failed_classifier_reports_hybrid {F : Type} {num : PyNum F}
    (self : FakeNewsDetector.t F) (text : string) :
  PyStr.all_space text = false ->
  Observe.classifier_failed self text ->
  exists v details transformer message,
    FakeNewsDetector.predict self text = Some v /\
    Observe.fused_score self text = Some (Observe.heuristic_score text) /\
    Dict.getnum "fake_score" v = Some (round3 (Observe.heuristic_score text)) /\
    Dict.getitem "details" v = Some (VDict details) /\
    Dict.getitem "transformer" details = Some (VDict transformer) /\
    Dict.getstr "error" transformer = Some message /\
    Dict.getstr "method" v = Some "hybrid".
Proof.
intros Hb Hf.
destruct (FusionFacts.predict_classifier_failed self text Hb Hf)
  as (message & Hs & Hp).
do 3 eexists. exists message.
split; [exact Hp|]. split; [exact Hs|].
do 4 (split; [reflexivity|]).
destruct Hf as (Hu & _). unfold Observe.verdict. rewrite Hu. reflexivity.
Qed.

(** C1 at a detector whose model did not load. *)
Lemma failed_classifier_reports_hybrid_witness :
  PyStr.all_space "Breaking news today" = false /\
  Observe.classifier_failed (F := Q) Scenario.unavailable "Breaking news today" /\
  exists v details transformer message,
    FakeNewsDetector.predict (F := Q) Scenario.unavailable "Breaking news today"
    = Some v /\
    Observe.fused_score (F := Q) Scenario.unavailable "Breaking news today"
    = Some (Observe.heuristic_score "Breaking news today") /\
    Dict.getnum "fake_score" v
    = Some (round3 (Observe.heuristic_score "Breaking news today")) /\
    Dict.getitem "details" v = Some (VDict details) /\
    Dict.getitem "transformer" details = Some (VDict transformer) /\
    Dict.getstr "error" transformer = Some message /\
    Dict.getstr "method" v = Some "hybrid".
Proof.
assert (Hf : Observe.classifier_failed (F := Q) Scenario.unavailable
               "Breaking news today").
{ split; [reflexivity|]. eexists. split; [reflexivity|]. now left. }
split; [reflexivity|]. split; [exact Hf|].
exact (failed_classifier_reports_hybrid Scenario.unavailable
         "Breaking news today" eq_refl Hf).
Defined.

(** ** Verdicts of [predict] in exact arithmetic *)

(** C8.  When every confidence the classifier may answer lies in [0,1], the
    [fake_score] and the [confidence] of the verdict lie in [0,1], for every
    text; no contribution to the heuristic score is negative, and the
    heuristic score is their sum clamped above by 1. *)
Theorem scores_in_unit_interval (self : FakeNewsDetector.t Q) (text : string) :
  confidences_in_unit self ->
  exists v fake_score confidence,
    FakeNewsDetector.predict self text = Some v /\
    Dict.getnum "fake_score" v = Some fake_score /\
    Dict.getnum "confidence" v = Some confidence /\
    (0 <= fake_score <= 1)%Q /\
    (0 <= confidence <= 1)%Q /\
    Forall (fun x => 0 <= x)%Q (SimpleRuleBasedDetector.scores text) /\
    (Observe.heuristic_score text
     == Qmin (SimpleRuleBasedDetector.pysum (SimpleRuleBasedDetector.scores text)) 1)%Q.
Proof.
intros Hunit.
assert (Hrest :
  Forall (fun x => 0 <= x)%Q (SimpleRuleBasedDetector.scores text) /\
  (Observe.heuristic_score text
   == Qmin (SimpleRuleBasedDetector.pysum (SimpleRuleBasedDetector.scores text)) 1)%Q)
  by (split; [apply ScoreFacts.scores_nonneg | apply ScoreFacts.heuristic_score_min]).
destruct (PyStr.all_space text) eqn:Hb.
- do 3 eexists. split; [now apply PredictFacts.predict_blank|].
  split; [reflexivity|]. split; [reflexivity|].
  split; [|split; [|exact Hrest]]; cbn; lra.
- destruct (VerdictFacts.fused_unit self text Hunit) as (s & details & Hc & Hs).
  do 3 eexists. split; [now apply (FusionFacts.predict_combine self text s details)|].
  split; [reflexivity|]. split; [reflexivity|].
  split; [|split; [|exact Hrest]].
  + now apply RoundFacts.round3_unit.
  + apply RoundFacts.round3_unit. now apply VerdictFacts.confidence_unit.
Qed.

(** C8 at a classifier that answers with confidence 0.9. *)
Lemma scores_in_unit_interval_witness :
  confidences_in_unit Scenario.negative_09 /\
  exists v fake_score confidence,
    FakeNewsDetector.predict (F := Q) Scenario.negative_09 Scenario.sponsored = Some v /\
    Dict.getnum "fake_score" v = Some fake_score /\
    Dict.getnum "confidence" v = Some confidence /\
    (0 <= fake_score <= 1)%Q /\
    (0 <= confidence <= 1)%Q /\
    Forall (fun x => 0 <= x)%Q (SimpleRuleBasedDetector.scores Scenario.sponsored) /\
    (Observe.heuristic_score Scenario.sponsored
     == Qmin (SimpleRuleBasedDetector.pysum
                (SimpleRuleBasedDetector.scores Scenario.sponsored)) 1)%Q.
Proof.
assert (H : confidences_in_unit Scenario.negative_09).
{ intros tr run input label confidence Htr Hrun Hans.
  injection Htr as <-. injection Hrun as <-. injection Hans as _ <-.
  split; discriminate. }
split; [exact H|].
exact (scores_in_unit_interval Scenario.negative_09 Scenario.sponsored H).
Defined.

(** C7.  For a text that is not blank the label is [FAKE] exactly when the
    fused score is strictly greater than 0.5 and [REAL] otherwise; a fused
    score of exactly 0.5 gives [REAL]. *)
Theorem label_threshold (self : FakeNewsDetector.t Q) (text : string) :
  PyStr.all_space text = false ->
  exists v s label,
    FakeNewsDetector.predict self text = Some v /\
    Observe.fused_score self text = Some s /\
    Dict.getstr "label" v = Some label /\
    (label = "FAKE" <-> (5 # 10 < s)%Q) /\
    (label = "REAL" <-> (s <= 5 # 10)%Q) /\
    ((s == 5 # 10)%Q -> label = "REAL").
Proof.
intros Hb.
destruct (PredictFacts.predict_not_blank self text Hb) as (s & d & _ & Hs & Hp).
exists (Observe.verdict self s d), s.
exists (if ltb (lit 5 10) s then "FAKE" else "REAL").
split; [exact Hp|]. split; [exact Hs|]. split; [reflexivity|].
cbn [ltb lit Exact.num].
destruct (ltb_Q (5 # 10) s) eqn:E.
- apply ExactFacts.ltb_Q_lt in E.
  split; [tauto|]. split.
  + split; [discriminate | intros H; lra].
  + intros H. lra.
- apply ExactFacts.ltb_Q_ge in E.
  split; [split; [discriminate | intros H; lra]|].
  split; [tauto|]. reflexivity.
Qed.

(** C7 at a text whose score is exactly 0.5. *)
Lemma label_threshold_witness :
  PyStr.all_space Scenario.shouted = false /\
  exists v s label,
    FakeNewsDetector.predict (F := Q) Scenario.rule_based Scenario.shouted = Some v /\
    Observe.fused_score Scenario.rule_based Scenario.shouted = Some s /\
    Dict.getstr "label" v = Some label /\
    (label = "FAKE" <-> (5 # 10 < s)%Q) /\
    (label = "REAL" <-> (s <= 5 # 10)%Q) /\
    ((s == 5 # 10)%Q -> label = "REAL").
Proof.
split; [reflexivity|].
apply (label_threshold Scenario.rule_based Scenario.shouted). reflexivity.
Defined.

(** C6.  For a text that is not blank, when the classifier answers, the
    fused score is 0.6 times the heuristic score plus 0.4 times the external
    score; the external score is the confidence when the label is [negative]
    and one minus the confidence otherwise, the label being the variable
    [label] of [analyze], the answer's label in lower case, which the verdict
    records as the sentiment.  The method is [hybrid].  With the label
    [negative], the confidence 0.9 and a heuristic score of 0.4 the fused
    score is 0.6 and the verdict's label [FAKE]. *)
Theorem fusion_with_classifier (self : FakeNewsDetector.t Q) (text : string)
    (result_label : string) (score : Q) :
  PyStr.all_space text = false ->
  Observe.classifier_answered self text result_label score ->
  let label := PyStr.lower result_label in
  let external_fake :=
    if String.eqb label "negative" then score else (1 - score)%Q in
  let fused := ((6 # 10) * Observe.heuristic_score text + (4 # 10) * external_fake)%Q in
  exists v details transformer,
    FakeNewsDetector.predict self text = Some v /\
    Observe.fused_score self text = Some fused /\
    Dict.getnum "fake_score" v = Some (round3 fused) /\
    Dict.getstr "method" v = Some "hybrid" /\
    Dict.getitem "details" v = Some (VDict details) /\
    Dict.getitem "transformer" details = Some (VDict transformer) /\
    Dict.getstr "sentiment" transformer = Some label /\
    Dict.getnum "confidence" transformer = Some score /\
    Dict.getnum "fake_score" transformer = Some external_fake /\
    (label = "negative" ->
     (score == 9 # 10)%Q ->
     (Observe.heuristic_score text == 4 # 10)%Q ->
     (fused == 6 # 10)%Q /\ Dict.getstr "label" v = Some "FAKE").
Proof.
intros Hb Ha. cbv zeta.
destruct (FusionFacts.predict_classifier_answered self text result_label score Hb Ha)
  as (Hs & Hp).
do 3 eexists. split; [exact Hp|]. split; [exact Hs|]. split; [reflexivity|].
split.
{ destruct Ha as (Hu & _). unfold Observe.verdict. rewrite Hu. reflexivity. }
do 5 (split; [reflexivity|]).
intros Hl Hc Hh. rewrite Hl.
change (String.eqb "negative" "negative") with true. cbv iota.
assert (Hf : ((6 # 10) * Observe.heuristic_score text + (4 # 10) * score
              == 6 # 10)%Q) by (rewrite Hc, Hh; reflexivity).
split; [exact Hf|].
unfold Observe.verdict. cbn [Dict.getstr Dict.getitem String.eqb Ascii.eqb Bool.eqb].
cbn [ltb lit add mul Exact.num].
assert (Hlt : ltb_Q (5 # 10) ((6 # 10) * Observe.heuristic_score text
                              + (4 # 10) * score) = true)
  by (apply ExactFacts.ltb_Q_lt; rewrite Hf; reflexivity).
rewrite Hlt. reflexivity.
Qed.

(** C6 at the answer [negative], 0.9 and a text of heuristic score 0.4. *)
Lemma fusion_with_classifier_witness :
  exists v fused,
    FakeNewsDetector.predict (F := Q) Scenario.negative_09 Scenario.sponsored = Some v /\
    Observe.fused_score (F := Q) Scenario.negative_09 Scenario.sponsored = Some fused /\
    (Observe.heuristic_score Scenario.sponsored == 4 # 10)%Q /\
    (fused == 6 # 10)%Q /\
    Dict.getnum "fake_score" v = Some (round3 fused) /\
    Dict.getstr "label" v = Some "FAKE" /\
    Dict.getstr "method" v = Some "hybrid".
Proof.
assert (Ha : Observe.classifier_answered (F := Q) Scenario.negative_09
               Scenario.sponsored "negative" (9 # 10)).
{ split; [reflexivity|]. do 2 eexists. repeat split; reflexivity. }
assert (Hh : (Observe.heuristic_score Scenario.sponsored == 4 # 10)%Q)
  by (vm_compute; reflexivity).
destruct (fusion_with_classifier Scenario.negative_09 Scenario.sponsored
            "negative" (9 # 10) eq_refl Ha)
  as (v & details & transformer & Hp & Hs & Hr & Hm & _ & _ & _ & _ & _ & Hex).
destruct (Hex eq_refl (Qeq_refl _) Hh) as (Hf & Hl).
exists v. eexists.
split; [exact Hp|]. split; [exact Hs|]. split; [exact Hh|].
split; [exact Hf|]. split; [exact Hr|]. split; [exact Hl | exact Hm].
Defined.

(** C3 fails as stated: for one exclamation mark in seven words the heuristic
    score is 2/7, the verdict carries [fake_score] 0.286 and [confidence]
    0.429, and |0.286 - 0.5| * 2 is 0.428. *)
Lemma rounded_confidence_counterexample :
  exists v fake_score confidence,
    FakeNewsDetector.predict (F := Q) Scenario.rule_based Scenario.budget = Some v /\
    Dict.getnum "fake_score" v = Some fake_score /\
    Dict.getnum "confidence" v = Some confidence /\
    (fake_score == 286 # 1000)%Q /\
    (confidence == 429 # 1000)%Q /\
    ~ (confidence == Qabs (fake_score - (5 # 10)) * 2)%Q.
Proof.
do 3 eexists.
split; [vm_compute; reflexivity|].
split; [reflexivity|]. split; [reflexivity|].
split; [reflexivity|]. split; [reflexivity|].
intros H. vm_compute in H. discriminate H.
Qed.

(** C3 (amended).  The verdict carries the fused score rounded to three
    decimals and the confidence |s - 0.5| * 2, computed from the fused score
    [s] before rounding, rounded to three decimals in its turn (0.5 and 0.0 for
    a blank text); the confidence field is therefore within 0.001 of
    |fake_score - 0.5| * 2 computed from the rounded [fake_score] field. *)
Theorem rounded_confidence_close (self : FakeNewsDetector.t Q) (text : string) :
  exists v fake_score confidence,
    FakeNewsDetector.predict self text = Some v /\
    Dict.getnum "fake_score" v = Some fake_score /\
    Dict.getnum "confidence" v = Some confidence /\
    (if PyStr.all_space text
     then fake_score = (5 # 10)%Q /\ confidence = (0 # 1)%Q
     else exists s,
            Observe.fused_score self text = Some s /\
            fake_score = round3 s /\
            confidence = round3 (Qabs (s - (5 # 10)) * 2)%Q) /\
    (Qabs (confidence - Qabs (fake_score - (5 # 10)) * 2) <= 1 # 1000)%Q.
Proof.
destruct (PyStr.all_space text) eqn:Hb.
- do 3 eexists. split; [now apply PredictFacts.predict_blank|].
  split; [reflexivity|]. split; [reflexivity|].
  split; [split; reflexivity|]. vm_compute. discriminate.
- destruct (PredictFacts.predict_not_blank self text Hb) as (s & d & _ & Hs & Hp).
  do 3 eexists. split; [exact Hp|].
  split; [reflexivity|]. split; [reflexivity|].
  split; [exists s; split; [exact Hs|]; split; reflexivity|].
  apply RoundFacts.rounded_fields_close.
Qed.

(** The text below has none of the three patterns of the claim, and the
    pattern loop still contributes 0.15, for the phrase [all caps] of the
    first pattern of [SUSPICIOUS_PATTERNS]. *)
Lemma caps_phrase_counterexample :
  Observe.matching Observe.three_patterns Scenario.caps_phrase = 0 /\
  SimpleRuleBasedDetector.check_patterns (F := Q) Scenario.caps_phrase []
  = [(15 # 100)%Q] /\
  (Observe.heuristic_score Scenario.caps_phrase == 15 # 100)%Q /\
  ~ (SimpleRuleBasedDetector.pysum
       (SimpleRuleBasedDetector.check_patterns Scenario.caps_phrase [])
     == (15 # 100)
        * of_nat (Observe.matching Observe.three_patterns Scenario.caps_phrase))%Q.
Proof.
split; [reflexivity|]. split; [reflexivity|].
split; [vm_compute; reflexivity|].
intros H. vm_compute in H. discriminate H.
Qed.

(** C4 (what the code does).  The first pattern of [SUSPICIOUS_PATTERNS],
    commented [# Heavy use of caps], is the literal phrase [all caps]: a text
    that contains this phrase, in any case, matches it, and the pattern loop
    appends one 0.15 more than the three patterns of the claim account for,
    whatever capitals the text has. *)
Theorem all_caps_phrase_is_scored (text : string) :
  Observe.has_phrase "all caps" text ->
  Re.search (Re.ILit "all caps") text = true /\
  (forall scores : list Q,
     SimpleRuleBasedDetector.check_patterns text scores
     = scores
       ++ repeat (15 # 100)%Q (S (Observe.matching Observe.three_patterns text))) /\
  (SimpleRuleBasedDetector.pysum (SimpleRuleBasedDetector.check_patterns text [])
   == (15 # 100) * of_nat (Observe.matching Observe.three_patterns text)
      + (15 # 100))%Q /\
  ~ (SimpleRuleBasedDetector.pysum (SimpleRuleBasedDetector.check_patterns text [])
     == (15 # 100) * of_nat (Observe.matching Observe.three_patterns text))%Q.
Proof.
intros Hcaps.
assert (Hs : Re.search (Re.ILit "all caps") text = true)
  by now apply (ReFacts.search_lit_iff "all caps").
assert (Hloop : forall scores : list Q,
          SimpleRuleBasedDetector.check_patterns text scores
          = scores
            ++ repeat (15 # 100)%Q (S (Observe.matching Observe.three_patterns text))).
{ intros scores. rewrite PatternFacts.check_patterns_matching.
  now rewrite (PatternFacts.matching_with_caps_phrase text Hs). }
assert (Hsum : (SimpleRuleBasedDetector.pysum
                  (SimpleRuleBasedDetector.check_patterns text [])
                == (15 # 100) * of_nat (Observe.matching Observe.three_patterns text)
                   + (15 # 100))%Q).
{ rewrite (Hloop []). cbn [app]. rewrite PatternFacts.pysum_repeat.
  cbn [of_nat Exact.num]. rewrite Nat2Z.inj_succ. unfold Z.succ.
  rewrite inject_Z_plus. change (inject_Z 1) with 1%Q. lra. }
split; [exact Hs|]. split; [exact Hloop|]. split; [exact Hsum|].
intros H. rewrite H in Hsum. lra.
Qed.

(** C4 at a headline that has the phrase in small letters and none of the
    three patterns: the loop appends 0.15. *)
Lemma all_caps_phrase_is_scored_witness :
  Observe.has_phrase "all caps" Scenario.caps_phrase /\
  PyStr.count_if PyStr.isupper Scenario.caps_phrase = 0 /\
  Observe.matching Observe.three_patterns Scenario.caps_phrase = 0 /\
  SimpleRuleBasedDetector.check_patterns (F := Q) Scenario.caps_phrase []
  = [(15 # 100)%Q].
Proof.
assert (H : Observe.has_phrase "all caps" Scenario.caps_phrase).
{ apply (ReFacts.search_lit_iff "all caps"). reflexivity. }
split; [exact H|]. split; [reflexivity|]. split; [reflexivity|].
destruct (all_caps_phrase_is_scored Scenario.caps_phrase H) as (_ & Hloop & _).
exact (Hloop []).
Defined.

(** Without the phrase [all caps] the loop does what the claim says.  For a
    text that does not contain the phrase (in any case), the pattern loop
    appends one 0.15 for each of the three patterns found: three or more
    consecutive [!] or [?], the phrase [you won't believe], the phrase
    [sponsored content], the phrases in any case.  Each adds its own 0.15,
    and the sum is capped only by the clamp of the total at 1. *)
Theorem suspicious_patterns_contribution (text : string) :
  ~ Observe.has_phrase "all caps" text ->
  (Re.search (Re.IClassAtLeast ["!"%char; "?"%char] 3) text = true
   <-> Observe.punctuation_run text) /\
  (Re.search (Re.ILit "you won't believe") text = true
   <-> Observe.has_phrase "you won't believe" text) /\
  (Re.search (Re.ILit "sponsored content") text = true
   <-> Observe.has_phrase "sponsored content" text) /\
  (forall scores : list Q,
     SimpleRuleBasedDetector.check_patterns text scores
     = scores ++ repeat (15 # 100)%Q (Observe.matching Observe.three_patterns text)) /\
  (Observe.heuristic_score text
   == Qmin (SimpleRuleBasedDetector.pysum (SimpleRuleBasedDetector.check_sensational text [])
            + SimpleRuleBasedDetector.pysum (SimpleRuleBasedDetector.check_punctuation text [])
            + SimpleRuleBasedDetector.pysum (SimpleRuleBasedDetector.check_caps text [])
            + (15 # 100) * of_nat (Observe.matching Observe.three_patterns text)
            + SimpleRuleBasedDetector.pysum (SimpleRuleBasedDetector.check_length text []))
           1)%Q.
Proof.
intros Hcaps.
assert (Hs : Re.search (Re.ILit "all caps") text = false).
{ destruct (Re.search (Re.ILit "all caps") text) eqn:E; [|reflexivity].
  apply ReFacts.search_lit_iff in E. contradiction. }
split; [apply ReFacts.search_punctuation|].
split; [apply (ReFacts.search_lit_iff "you won't believe")|].
split; [apply (ReFacts.search_lit_iff "sponsored content")|].
split.
- intros scores. rewrite PatternFacts.check_patterns_matching.
  now rewrite (PatternFacts.matching_without_caps_phrase text Hs).
- rewrite ScoreFacts.heuristic_score_min.
  apply Q.min_compat; [|reflexivity].
  rewrite PatternFacts.pysum_scores.
  now rewrite (PatternFacts.matching_without_caps_phrase text Hs).
Qed.

(** The same at a text with all three patterns. *)
Lemma suspicious_patterns_contribution_witness :
  ~ Observe.has_phrase "all caps" Scenario.clickbait /\
  Observe.matching Observe.three_patterns Scenario.clickbait = 3 /\
  SimpleRuleBasedDetector.check_patterns (F := Q) Scenario.clickbait []
  = [(15 # 100)%Q; (15 # 100)%Q; (15 # 100)%Q].
Proof.
assert (H : ~ Observe.has_phrase "all caps" Scenario.clickbait).
{ intros H. apply (ReFacts.search_lit_iff "all caps") in H. discriminate H. }
split; [exact H|]. split; [reflexivity|].
destruct (suspicious_patterns_contribution Scenario.clickbait H)
  as (_ & _ & _ & Hloop & _).
exact (Hloop []).
Defined.



(** ** The scenarios in binary64

    The verdicts above that depend on arithmetic, recomputed with IEEE
    doubles: the constants are the doubles nearest to the decimal literals,
    every operation rounds to nearest, and the sum of the scores is taken from
    left to right. *)

Example binary64_rounded_confidence :
  exists v fake_score confidence,
    FakeNewsDetector.predict (F := float) Scenario.rule_based Scenario.budget = Some v /\
    Dict.getnum "fake_score" v = Some fake_score /\
    Dict.getnum "confidence" v = Some confidence /\
    fake_score = lit 286 1000 /\
    confidence = lit 429 1000 /\
    PrimFloat.eqb confidence (mul (fabs (sub fake_score (lit 5 10))) (of_nat 2)) = false.
Proof.
do 3 eexists. split; [vm_compute; reflexivity|].
repeat split; vm_compute; reflexivity.
Qed.

Example binary64_caps_phrase :
  Observe.matching Observe.three_patterns Scenario.caps_phrase = 0 /\
  Observe.heuristic_score (F := float) Scenario.caps_phrase = lit 15 100.
Proof. split; vm_compute; reflexivity. Qed.

Example binary64_fusion :
  exists v fused,
    FakeNewsDetector.predict (F := float) Scenario.negative_09 Scenario.sponsored = Some v /\
    Observe.fused_score (F := float) Scenario.negative_09 Scenario.sponsored = Some fused /\
    PrimFloat.ltb (lit 5 10) fused = true /\
    Dict.getnum "fake_score" v = Some (lit 6 10) /\
    Dict.getstr "label" v = Some "FAKE" /\
    Dict.getstr "method" v = Some "hybrid".
Proof.
do 2 eexists. split; [vm_compute; reflexivity|].
repeat split; vm_compute; reflexivity.
Qed.

Example binary64_threshold :
  exists v,
    FakeNewsDetector.predict (F := float) Scenario.rule_based Scenario.shouted = Some v /\
    Observe.fused_score (F := float) Scenario.rule_based Scenario.shouted
    = Some (lit 5 10) /\
    Dict.getstr "label" v = Some "REAL".
Proof.
eexists. split; [vm_compute; reflexivity|].
split; vm_compute; reflexivity.
Qed.

(** ** Further scenarios *)

(** A plain headline triggers no rule: score 0, label [REAL], confidence 1. *)
Example council_is_real :
  SimpleRuleBasedDetector.scores (F := Q) Scenario.council = [] /\
  exists v,
    FakeNewsDetector.predict (F := Q) Scenario.rule_based Scenario.council = Some v /\
    Dict.getnum "fake_score" v = Some (0 # 1000)%Q /\
    Dict.getnum "confidence" v = Some (1000 # 1000)%Q /\
    Dict.getstr "label" v = Some "REAL" /\
    Dict.getstr "method" v = Some "rule-based".
Proof.
split; [reflexivity|]. eexists. split; [vm_compute; reflexivity|].
repeat split; reflexivity.
Qed.

(** The text whose score is exactly 0.5 is labelled [REAL]. *)
Example shouted_is_real :
  exists v s,
    FakeNewsDetector.predict (F := Q) Scenario.rule_based Scenario.shouted = Some v /\
    Observe.fused_score (F := Q) Scenario.rule_based Scenario.shouted = Some s /\
    (s == 5 # 10)%Q /\
    Dict.getstr "label" v = Some "REAL".
Proof.
do 2 eexists. split; [vm_compute; reflexivity|].
split; [vm_compute; reflexivity|]. split; reflexivity.
Qed.

(** With the rules alone the rounded score of the verdict is monotone in the
    sensational phrases as the heuristic score is. *)
Corollary rule_based_fake_score_monotone (a b : string) :
  PyStr.all_space a = false ->
  PyStr.all_space b = false ->
  (forall phrase,
     In phrase SimpleRuleBasedDetector.SENSATIONAL_WORDS ->
     PyStr.contains phrase (PyStr.lower a) = true ->
     PyStr.contains phrase (PyStr.lower b) = true) ->
  Observe.other_scores (F := Q) a = Observe.other_scores b ->
  exists va vb score_a score_b,
    FakeNewsDetector.predict (F := Q) Scenario.rule_based a = Some va /\
    FakeNewsDetector.predict (F := Q) Scenario.rule_based b = Some vb /\
    Dict.getnum "fake_score" va = Some score_a /\
    Dict.getnum "fake_score" vb = Some score_b /\
    (score_a <= score_b)%Q.
Proof.
intros Ha Hb Hsub Hother.
destruct (FusionFacts.predict_rule_based (F := Q) Scenario.rule_based a Ha eq_refl)
  as (_ & Hpa).
destruct (FusionFacts.predict_rule_based (F := Q) Scenario.rule_based b Hb eq_refl)
  as (_ & Hpb).
do 4 eexists. split; [exact Hpa|]. split; [exact Hpb|].
split; [reflexivity|]. split; [reflexivity|].
apply RoundFacts.round3_mono.
now apply PatternFacts.heuristic_score_superset.
Qed.

(** The label is decided before rounding: a fused score of 0.5004 is [FAKE]
    and is shown as 0.5. *)
Example rounded_half_may_be_fake :
  exists v s,
    FakeNewsDetector.predict (F := Q)
      (FakeNewsDetector.init true (Scenario.answers "negative" (651 # 1000)%Q))
      Scenario.sponsored = Some v /\
    Observe.fused_score (F := Q)
      (FakeNewsDetector.init true (Scenario.answers "negative" (651 # 1000)%Q))
      Scenario.sponsored = Some s /\
    (s == 5004 # 10000)%Q /\
    Dict.getnum "fake_score" v = Some (500 # 1000)%Q /\
    Dict.getstr "label" v = Some "FAKE".
Proof.
do 2 eexists. split; [vm_compute; reflexivity|].
split; [vm_compute; reflexivity|]. repeat split.
Qed.

(** [predict_batch] keeps the blank entries, as [UNKNOWN] verdicts. *)
Example predict_batch_keeps_blank_entries :
  exists first second third,
    FakeNewsDetector.predict_batch (F := Q) Scenario.rule_based
      [""; "Real headline."; "  "]
    = Some [first; second; third] /\
    Dict.getstr "label" first = Some "UNKNOWN" /\
    Dict.getstr "label" second = Some "REAL" /\
    Dict.getstr "label" third = Some "UNKNOWN".
Proof.
do 3 eexists. split; [vm_compute; reflexivity|].
repeat split; reflexivity.
Qed.

(** The verdict of a detector whose model did not load, and of one whose
    classifier call raises: the score of the rules alone, under the method
    [hybrid]. *)
Example unavailable_verdict :
  FakeNewsDetector.predict (F := Q) Scenario.unavailable "Breaking news today"
  = Some [ ("fake_score", VNum (100 # 1000)%Q); ("confidence", VNum (800 # 1000)%Q);
           ("label", VStr "REAL"); ("method", VStr "hybrid");
           ("details",
            VDict [ ("rule_based",
                     VDict [ ("fake_score", VNum (1 # 10)%Q);
                             ("method", VStr "rule-based") ]);
                    ("transformer",
                     VDict [ ("fake_score", VNum (5 # 10)%Q);
                             ("error", VStr "Model not loaded");
                             ("method", VStr "transformer") ]) ]) ].
Proof. vm_compute. reflexivity. Qed.

Example raising_verdict :
  exists v,
    FakeNewsDetector.predict (F := Q)
      (FakeNewsDetector.init true (Scenario.raises "CUDA out of memory"))
      "Breaking news today" = Some v /\
    Dict.getnum "fake_score" v = Some (100 # 1000)%Q /\
    Dict.getstr "method" v = Some "hybrid".
Proof. eexists. split; [vm_compute; reflexivity|]. split; reflexivity. Qed.

(** A classifier label in capitals is read as its lower-case form. *)
Example capital_label_is_lowered :
  exists v details transformer,
    FakeNewsDetector.predict (F := Q)
      (FakeNewsDetector.init true (Scenario.answers "NEGATIVE" (9 # 10)%Q))
      Scenario.sponsored = Some v /\
    Dict.getitem "details" v = Some (VDict details) /\
    Dict.getitem "transformer" details = Some (VDict transformer) /\
    Dict.getstr "sentiment" transformer = Some "negative" /\
    Dict.getnum "fake_score" transformer = Some (9 # 10)%Q.
Proof.
do 3 eexists. split; [vm_compute; reflexivity|].
repeat split; reflexivity.
Qed.

(** * Further properties of [fake_news_detector.py] *)

(** ** Prefixes, case and words *)

Module TextFacts.
Import PyStr Re Observe.
Local Open Scope string_scope.





Lemma isspace_lower_char (c : ascii) : isspace (lower_char c) = isspace c.
Proof. destruct c as [[] [] [] [] [] [] [] []]; reflexivity. Qed.










End TextFacts.

(** ** The rules one by one, in exact arithmetic *)

Module RuleBounds.
Import PyStr Re Observe RuleFacts ExactFacts ScoreFacts PatternFacts TextFacts.
Import Exact SimpleRuleBasedDetector.

Section Generic.
Context {F : Type} {num : PyNum F}.


End Generic.

Local Open Scope Q_scope.

Lemma ratio_as_fraction (a b : nat) :
  (1 <= b)%nat ->
  of_nat a / of_nat b == Z.of_nat a # Pos.of_nat b.
Proof.
intros Hb. exact_ops.
replace (Z.of_nat b) with (Zpos (Pos.of_nat b)).
- symmetry. apply Qmake_Qdiv.
- destruct b as [|b]; [lia|]. now rewrite <- Pos.of_nat_succ, Zpos_P_of_succ_nat, Nat2Z.inj_succ.
Qed.

Lemma lt_ratio (p : Z) (q : positive) (a b : nat) :
  (1 <= b)%nat ->
  (p # q < of_nat a / of_nat b <-> (p * Z.of_nat b < Zpos q * Z.of_nat a)%Z).
Proof.
intros Hb. rewrite (ratio_as_fraction a b Hb). unfold Qlt. cbn [Qnum Qden].
replace (Zpos (Pos.of_nat b)) with (Z.of_nat b).
- split; lia.
- destruct b as [|b]; [lia|]. now rewrite <- Pos.of_nat_succ, Zpos_P_of_succ_nat, Nat2Z.inj_succ.
Qed.




(** Every score a rule appends is at least 0.1. *)
Lemma scores_at_least_tenth (text : string) :
  Forall (fun x => 1 # 10 <= x) (scores (F := Q) text).
Proof.
rewrite scores_eq, other_scores_eq.
repeat (apply Forall_app; split).
- unfold check_sensational.
  destruct (sensational_count (lower text)) as [|n] eqn:Hn;
    cbn [Nat.ltb Nat.leb]; constructor; [|constructor].
  assert (Hn1 : 1 <= of_nat (S n)) by (exact_ops; unfold Qle; simpl; lia).
  destruct (pymin_spec (mul (of_nat (S n)) (lit 15 100)) (lit 5 10))
    as [[_ ->] | [_ ->]]; exact_ops; [lra | nra].
- unfold check_punctuation.
  destruct (ltb (lit 5 100) (exclamation_ratio text)) eqn:E;
    constructor; [|constructor].
  apply ltb_Q_lt in E.
  destruct (pymin_spec (mul (exclamation_ratio text) (of_nat 2)) (lit 3 10))
    as [[_ ->] | [_ ->]]; exact_ops; [lra|].
  change (inject_Z (Z.of_nat 2)) with 2. lra.
- unfold check_caps.
  destruct (ltb (lit 3 10) (caps_ratio text)); constructor; [|constructor].
  exact_ops. lra.
- rewrite check_patterns_eq. cbn [app]. unfold pattern_score.
  repeat (apply Forall_app; split);
    match goal with |- context [search ?r text] => destruct (search r text) end;
    constructor; try constructor; exact_ops; lra.
- unfold check_length.
  destruct ((List.length (split text) <? 5)%nat || (500 <? List.length (split text))%nat);
    constructor; [|constructor].
  exact_ops. lra.
Qed.

Lemma pysum_at_least (xs : list Q) (c : Q) :
  0 <= c -> Forall (fun x => c <= x) xs -> xs <> [] -> c <= pysum xs.
Proof.
intros Hc H Hne. destruct xs as [|x xs]; [congruence|].
inversion H as [|? ? Hx Hxs]; subst.
rewrite pysum_cons.
assert (0 <= pysum xs).
{ apply pysum_nonneg. eapply Forall_impl; [|exact Hxs]. intros; cbv beta in *; lra. }
lra.
Qed.

End RuleBounds.

(** ** The transformer and the batch, for any arithmetic *)


(** X10.  [predict_batch] returns one verdict for each text, in the order of
    the texts, each the verdict [predict] gives for that text; a blank text
    gets the [UNKNOWN] verdict, so that the list may mix verdicts with and
    without the field [method]. *)
Theorem predict_batch_pointwise {F : Type} {num : PyNum F}
    (self : FakeNewsDetector.t F) (texts : list string) :
  exists results,
    FakeNewsDetector.predict_batch self texts = Some results /\
    Forall2
      (fun text v =>
         FakeNewsDetector.predict self text = Some v /\
         Dict.has_key "method" v = negb (PyStr.all_space text))
      texts results.
Proof.
induction texts as [|text texts (results & Hr & Hall)]; cbn [FakeNewsDetector.predict_batch].
- exists []. split; [reflexivity | constructor].
- destruct (PyStr.all_space text) eqn:Hb.
  + rewrite (PredictFacts.predict_blank self text Hb), Hr. cbn [bind].
    eexists. split; [reflexivity|]. constructor; [|exact Hall].
    rewrite (PredictFacts.predict_blank self text Hb), Hb. now split.
  + destruct (PredictFacts.predict_not_blank self text Hb) as (s & d & _ & _ & Hp).
    rewrite Hp, Hr. cbn [bind].
    eexists. split; [reflexivity|]. constructor; [|exact Hall].
    rewrite Hp, Hb. now split.
Qed.

(** ** The rules and the fusion in exact arithmetic *)



(** X3.  The phrase [you won't believe] is both a sensational phrase and a
    suspicious pattern: a text that has it, in any case, is scored by both
    rules and its heuristic score is at least 0.3. *)
Theorem phrase_counted_twice (text : string) :
  Observe.has_phrase "you won't believe" text ->
  1 <= SimpleRuleBasedDetector.sensational_count (PyStr.lower text) /\
  Re.search (Re.ILit "you won't believe") text = true /\
  (3 # 10 <= Observe.heuristic_score text)%Q.
Proof.
intros H.
assert (Hc : PyStr.contains "you won't believe" (PyStr.lower text) = true)
  by now apply ReFacts.contains_iff.
assert (Hn : 1 <= SimpleRuleBasedDetector.sensational_count (PyStr.lower text)).
{ unfold SimpleRuleBasedDetector.sensational_count.
  assert (Hin : In "you won't believe"
                  (filter (fun word => PyStr.contains word (PyStr.lower text))
                     SimpleRuleBasedDetector.SENSATIONAL_WORDS)).
  { apply filter_In. split; [|exact Hc].
    unfold SimpleRuleBasedDetector.SENSATIONAL_WORDS.
    repeat first [left; reflexivity | right]. }
  destruct (filter _ _); [contradiction | cbn [List.length]; lia]. }
assert (Hs : Re.search (Re.ILit "you won't believe") text = true)
  by now apply (ReFacts.search_lit_iff "you won't believe").
split; [exact Hn|]. split; [exact Hs|].
rewrite ScoreFacts.heuristic_score_min.
apply Q.min_glb; [|discriminate].
rewrite PatternFacts.pysum_scores, PatternFacts.sensational_contribution.
pose proof (ExactFacts.pysum_nonneg _ (ScoreFacts.check_punctuation_nonneg text)).
pose proof (ExactFacts.pysum_nonneg _ (ScoreFacts.check_caps_nonneg text)).
pose proof (ExactFacts.pysum_nonneg _ (ScoreFacts.check_length_nonneg text)).
assert (Hm : 1 <= Observe.matching SimpleRuleBasedDetector.SUSPICIOUS_PATTERNS text).
{ unfold Observe.matching.
  assert (Hin : In (Re.ILit "you won't believe")
                  (filter (fun pattern => Re.search pattern text)
                     SimpleRuleBasedDetector.SUSPICIOUS_PATTERNS)).
  { apply filter_In. split; [|exact Hs].
    unfold SimpleRuleBasedDetector.SUSPICIOUS_PATTERNS.
    repeat first [left; reflexivity | right]. }
  destruct (filter _ _); [contradiction | cbn [List.length]; lia]. }
apply ScoreFacts.of_nat_le in Hn, Hm.
change (of_nat 1) with 1%Q in Hn, Hm.
assert (15 # 100 <= Qmin ((15 # 100)
          * of_nat (SimpleRuleBasedDetector.sensational_count (PyStr.lower text)))
          (5 # 10))%Q by (apply Q.min_glb; lra).
lra.
Qed.

(** X3 at a text with the phrase in mixed case. *)
Lemma phrase_counted_twice_witness :
  Observe.has_phrase "you won't believe" Scenario.clickbait /\
  (3 # 10 <= Observe.heuristic_score Scenario.clickbait)%Q.
Proof.
assert (H : Observe.has_phrase "you won't believe" Scenario.clickbait).
{ apply (ReFacts.search_lit_iff "you won't believe"). reflexivity. }
split; [exact H|].
apply (phrase_counted_twice Scenario.clickbait H).
Defined.



(** X5.  The punctuation rule fires exactly when the text has more than one
    exclamation mark per twenty words (one word being counted for a text
    without words); it then adds twice the ratio of marks to words, and 0.3
    from three marks per twenty words on. *)
Theorem punctuation_rule_threshold (text : string) :
  let marks := PyStr.count "!"%char text in
  let words := Nat.max (List.length (PyStr.split text)) 1 in
  (SimpleRuleBasedDetector.check_punctuation (F := Q) text [] = []
   <-> 20 * marks <= words) /\
  forall x : Q,
    In x (SimpleRuleBasedDetector.check_punctuation text []) ->
    (x == Qmin ((2 * Z.of_nat marks) # Pos.of_nat words) (3 # 10))%Q /\
    (3 * words <= 20 * marks -> (x == 3 # 10)%Q).
Proof.
cbv zeta.
set (marks := PyStr.count "!"%char text).
set (words := Nat.max (List.length (PyStr.split text)) 1).
assert (Hw : 1 <= words) by (subst words; lia).
pose proof (RuleBounds.lt_ratio 5 100 marks words Hw) as Hlt.
pose proof (RuleBounds.ratio_as_fraction marks words Hw) as Hr.
unfold SimpleRuleBasedDetector.check_punctuation,
  SimpleRuleBasedDetector.exclamation_ratio.
fold marks. fold words.
destruct (ltb (lit 5 100) (div (of_nat marks) (of_nat words))) eqn:E.
- apply ExactFacts.ltb_Q_lt in E. apply Hlt in E.
  split; [split; [discriminate | intros; exfalso; lia]|].
  intros x [<- | []]. cbn [app].
  assert (Hx : (mul (div (of_nat marks) (of_nat words)) (of_nat 2)
                == (2 * Z.of_nat marks) # Pos.of_nat words)%Q).
  { cbn [mul Exact.num]. rewrite Hr. cbn [of_nat Exact.num].
    change (Z.of_nat 2) with 2%Z. unfold Qeq, Qmult, inject_Z.
    cbn [Qnum Qden]. rewrite Pos2Z.inj_mul. lia. }
  split.
  + rewrite ExactFacts.pymin_Qmin. apply Q.min_compat; [exact Hx | reflexivity].
  + intros Hmany. rewrite ExactFacts.pymin_Qmin.
    apply Q.min_r. rewrite Hx. unfold Qle. cbn [Qnum Qden].
    replace (Zpos (Pos.of_nat words)) with (Z.of_nat words); [lia|].
    destruct words as [|w]; [lia|].
    now rewrite <- Pos.of_nat_succ, Zpos_P_of_succ_nat, Nat2Z.inj_succ.
- apply ExactFacts.ltb_Q_ge in E.
  split; [split; [intros _ | reflexivity]|intros x []].
  destruct (Nat.le_gt_cases (20 * marks) words) as [H|H]; [exact H|exfalso].
  assert (Hc : (5 # 100 < of_nat marks / of_nat words)%Q) by (apply Hlt; lia).
  cbn [lit div of_nat Exact.num] in E. cbn [of_nat Exact.num] in Hc. lra.
Qed.


(** X7.  The heuristic score is 0 when no rule fires and at least 0.1 as
    soon as one does: every score a rule appends is at least 0.1. *)
Theorem score_zero_or_tenth (text : string) :
  Forall (fun x => 1 # 10 <= x)%Q (SimpleRuleBasedDetector.scores (F := Q) text) /\
  ((SimpleRuleBasedDetector.scores (F := Q) text = [] /\
    (Observe.heuristic_score text == 0)%Q) \/
   (SimpleRuleBasedDetector.scores (F := Q) text <> [] /\
    (1 # 10 <= Observe.heuristic_score text <= 1)%Q)).
Proof.
pose proof (RuleBounds.scores_at_least_tenth text) as Hall.
split; [exact Hall|].
destruct (SimpleRuleBasedDetector.scores (F := Q) text) as [|x xs] eqn:E.
- left. split; [reflexivity|].
  rewrite ScoreFacts.heuristic_score_min, E, ExactFacts.pysum_nil.
  apply Q.min_l. discriminate.
- right. split; [discriminate|]. split.
  + rewrite ScoreFacts.heuristic_score_min. apply Q.min_glb; [|discriminate].
    rewrite E. apply RuleBounds.pysum_at_least;
      [discriminate | exact Hall | discriminate].
  + apply ScoreFacts.heuristic_score_unit.
Qed.

(** X8.  With the rules alone, a text that only the sensational-phrase rule
    scores is never [FAKE]: that rule is capped at 0.5, which is not above the
    threshold. *)
Theorem sensational_alone_is_real (self : FakeNewsDetector.t Q) (text : string) :
  PyStr.all_space text = false ->
  FakeNewsDetector.use_transformer self = false ->
  Observe.other_scores (F := Q) text = [] ->
  exists v fused,
    FakeNewsDetector.predict self text = Some v /\
    Observe.fused_score self text = Some fused /\
    (fused <= 5 # 10)%Q /\
    Dict.getstr "label" v = Some "REAL".
Proof.
intros Hb Hu Hother.
destruct (FusionFacts.predict_rule_based self text Hb Hu) as (Hs & Hp).
assert (Hh : (Observe.heuristic_score text <= 5 # 10)%Q).
{ rewrite ScoreFacts.heuristic_score_min.
  eapply Qle_trans; [apply Q.le_min_l|].
  rewrite RuleFacts.scores_eq, Hother, app_nil_r.
  rewrite PatternFacts.sensational_contribution. apply Q.le_min_r. }
do 2 eexists. split; [exact Hp|]. split; [exact Hs|]. split; [exact Hh|].
unfold Observe.verdict.
cbn [Dict.getstr Dict.getitem String.eqb Ascii.eqb Bool.eqb ltb lit Exact.num].
assert (E : ltb_Q (5 # 10) (Observe.heuristic_score text) = false)
  by now apply ExactFacts.ltb_Q_ge.
now rewrite E.
Qed.

(** X8 at a text with four sensational phrases, which reaches the cap. *)
Lemma sensational_alone_is_real_witness :
  SimpleRuleBasedDetector.sensational_count (PyStr.lower Sample.four_phrases) = 4 /\
  (Observe.heuristic_score Sample.four_phrases == 5 # 10)%Q /\
  exists v fused,
    FakeNewsDetector.predict (F := Q) Scenario.rule_based Sample.four_phrases = Some v /\
    Observe.fused_score (F := Q) Scenario.rule_based Sample.four_phrases = Some fused /\
    (fused <= 5 # 10)%Q /\
    Dict.getstr "label" v = Some "REAL".
Proof.
split; [reflexivity|]. split; [vm_compute; reflexivity|].
apply (sensational_alone_is_real Scenario.rule_based Sample.four_phrases);
  reflexivity.
Defined.

(** ** Blank texts *)

Module BlankFacts.
Import PyStr Re Observe TextFacts.
Import SimpleRuleBasedDetector.
Local Open Scope string_scope.

Lemma space_not_letter (c : ascii) :
  isspace c = true -> isupper c = false /\ isalpha c = false.
Proof.
destruct c as [[] [] [] [] [] [] [] []]; vm_compute; intros H;
  try discriminate H; split; reflexivity.
Qed.

Lemma blank_count_if (p : ascii -> bool) (s : string) :
  all_space s = true ->
  (forall c, isspace c = true -> p c = false) ->
  count_if p s = 0.
Proof.
intros Hs Hp. induction s as [|c s IH]; cbn [count_if]; [reflexivity|].
cbn [all_space] in Hs. apply andb_true_iff in Hs as [Hc Hs].
now rewrite (Hp c Hc), (IH Hs).
Qed.

Lemma blank_count (a : ascii) (s : string) :
  all_space s = true -> isspace a = false -> count a s = 0.
Proof.
intros Hs Ha. induction s as [|c s IH]; cbn [count]; [reflexivity|].
cbn [all_space] in Hs. apply andb_true_iff in Hs as [Hc Hs].
rewrite (IH Hs). destruct (Ascii.eqb a c) eqn:E; [|reflexivity].
apply Ascii.eqb_eq in E. congruence.
Qed.

Lemma blank_split (s : string) : all_space s = true -> split s = [].
Proof.
unfold split. induction s as [|c s IH]; cbn [split_from all_space]; [reflexivity|].
intros H. apply andb_true_iff in H as [Hc Hs]. rewrite Hc. now apply IH.
Qed.

Lemma blank_contains (a : ascii) (w s : string) :
  all_space s = true -> isspace a = false -> contains (String a w) s = false.
Proof.
intros Hs Ha. induction s as [|c s IH]; cbn [contains]; [reflexivity|].
cbn [all_space] in Hs. apply andb_true_iff in Hs as [Hc Hs].
rewrite (IH Hs), orb_false_r. cbn [String.prefix].
destruct (ascii_dec a c) as [->|_]; [congruence | reflexivity].
Qed.

Lemma blank_lower (s : string) : all_space (lower s) = all_space s.
Proof.
induction s as [|c s IH]; cbn [lower all_space]; [reflexivity|].
now rewrite isspace_lower_char, IH.
Qed.

Lemma blank_suffix (before after : string) :
  all_space (before ++ after) = true -> all_space after = true.
Proof.
induction before as [|c before IH]; cbn [append all_space]; [easy|].
intros H. apply andb_true_iff in H as [_ H]. now apply IH.
Qed.

(** A blank text has no sensational phrase and matches no pattern. *)
Lemma blank_no_phrase (s : string) :
  all_space s = true -> sensational_count (lower s) = 0.
Proof.
intros Hs. rewrite <- blank_lower in Hs.
unfold sensational_count, SENSATIONAL_WORDS. cbn [filter].
rewrite !(blank_contains _ _ _ Hs) by reflexivity. reflexivity.
Qed.

Lemma blank_no_pattern (s : string) :
  all_space s = true -> matching SUSPICIOUS_PATTERNS s = 0.
Proof.
intros Hs. unfold matching, SUSPICIOUS_PATTERNS. cbn [filter].
assert (Hl : all_space (lower s) = true) by now rewrite blank_lower.
rewrite !ReFacts.search_lit. cbn [lower lower_char].
change (lower "all caps") with "all caps".
change (lower "you won't believe") with "you won't believe".
change (lower "sponsored content") with "sponsored content".
rewrite !(blank_contains _ _ _ Hl) by reflexivity.
destruct (search (IClassAtLeast ["!"%char; "?"%char] 3) s) eqn:E; [|reflexivity].
apply ReFacts.search_punctuation in E.
destruct E as (before & a & b & c & after & -> & Ha & _).
apply blank_suffix in Hs. cbn [all_space] in Hs.
apply andb_true_iff in Hs as [Hsp _].
destruct Ha as [-> | ->]; discriminate Hsp.
Qed.

End BlankFacts.

(** X9.  For a blank text [SimpleRuleBasedDetector.analyze] itself does not
    answer 0.5 as [predict] does: only the length rule fires, and the score is
    0.1. *)
Theorem analyze_blank_scores_tenth (text : string) :
  PyStr.all_space text = true ->
  SimpleRuleBasedDetector.scores (F := Q) text = [(1 # 10)%Q] /\
  exists x,
    Dict.getnum "fake_score" (SimpleRuleBasedDetector.analyze (F := Q) text) = Some x /\
    (x == 1 # 10)%Q.
Proof.
intros Hb.
assert (Hscores : SimpleRuleBasedDetector.scores (F := Q) text = [(1 # 10)%Q]).
{ rewrite RuleFacts.scores_eq, RuleFacts.other_scores_eq.
  rewrite (PatternFacts.check_patterns_matching text []).
  rewrite (BlankFacts.blank_no_pattern text Hb).
  unfold SimpleRuleBasedDetector.check_sensational,
    SimpleRuleBasedDetector.check_punctuation,
    SimpleRuleBasedDetector.exclamation_ratio,
    SimpleRuleBasedDetector.check_caps,
    SimpleRuleBasedDetector.caps_ratio,
    SimpleRuleBasedDetector.check_length.
  rewrite (BlankFacts.blank_no_phrase text Hb).
  rewrite (BlankFacts.blank_count "!"%char text Hb eq_refl).
  rewrite (BlankFacts.blank_split text Hb).
  rewrite (BlankFacts.blank_count_if PyStr.isupper text Hb)
    by (intros c Hc; now apply BlankFacts.space_not_letter).
  rewrite (BlankFacts.blank_count_if PyStr.isalpha text Hb)
    by (intros c Hc; now apply BlankFacts.space_not_letter).
  reflexivity. }
split; [exact Hscores|].
eexists. split; [reflexivity|].
rewrite Hscores. reflexivity.
Qed.

(** X9 at three spaces. *)
Lemma analyze_blank_scores_tenth_witness :
  PyStr.all_space "   " = true /\
  SimpleRuleBasedDetector.scores (F := Q) "   " = [(1 # 10)%Q].
Proof.
split; [reflexivity|].
apply (analyze_blank_scores_tenth "   " eq_refl).
Defined.

(** * The callers: [url_analyzer.py], [detector_app.py] and [app.py] *)

(** ** The text [extract_text_from_html] returns *)

Module CleanFacts.
Import PyStr UrlAnalyzer Shape.

Lemma lstrip_start (s : string) : starts_with_space (lstrip s) = false.
Proof.
induction s as [|c s IH]; cbn [lstrip]; [reflexivity|].
destruct (isspace c) eqn:Hc; [exact IH | exact Hc].
Qed.

Lemma spaced_tail (c : ascii) (s : string) :
  spaced (String c s) = true -> spaced s = true.
Proof. cbn [spaced]. intros H. now apply andb_true_iff in H as [_ H]. Qed.

Lemma spaced_lstrip (s : string) : spaced s = true -> spaced (lstrip s) = true.
Proof.
induction s as [|c s IH]; cbn [lstrip]; [easy|].
intros H. destruct (isspace c); [|exact H].
apply IH. now apply spaced_tail in H.
Qed.

Lemma rstrip_head (s : string) c r :
  rstrip s = String c r -> exists t, s = String c t.
Proof.
destruct s as [|d s]; cbn [rstrip]; [discriminate|].
destruct (rstrip s); [destruct (isspace d)|]; intros H; try discriminate;
  injection H as <- _; eauto.
Qed.

Lemma rstrip_start (s : string) :
  starts_with_space s = false -> starts_with_space (rstrip s) = false.
Proof.
intros H. destruct (rstrip s) as [|c r] eqn:E; [reflexivity|].
apply rstrip_head in E as (t & ->). exact H.
Qed.

Lemma rstrip_end (s : string) : ends_with_space (rstrip s) = false.
Proof.
induction s as [|c s IH]; cbn [rstrip]; [reflexivity|].
destruct (rstrip s) as [|d r].
- destruct (isspace c) eqn:Hc; [reflexivity | exact Hc].
- exact IH.
Qed.

Lemma spaced_rstrip (s : string) : spaced s = true -> spaced (rstrip s) = true.
Proof.
induction s as [|c s IH]; [easy|].
intros H. pose proof (IH (spaced_tail _ _ H)) as IH'.
cbn [rstrip]. destruct (rstrip s) as [|d r] eqn:E.
- destruct (isspace c) eqn:Hc; [reflexivity|].
  cbn [spaced]. now rewrite Hc.
- apply rstrip_head in E as (t & ->).
  change (spaced (String c (String d r)))
    with ((if isspace c then Ascii.eqb c " " && negb (isspace d) else true)
          && spaced (String d r)).
  change (spaced (String c (String d t)))
    with ((if isspace c then Ascii.eqb c " " && negb (isspace d) else true)
          && spaced (String d t)) in H.
  apply andb_true_iff in H as [H _].
  now rewrite H, IH'.
Qed.

Lemma collapse_spaced (in_run : bool) (s : string) :
  spaced (collapse_spaces in_run s) = true /\
  (in_run = true -> starts_with_space (collapse_spaces in_run s) = false).
Proof.
revert in_run. induction s as [|c s IH]; intros in_run; cbn [collapse_spaces].
- now split.
- destruct (isspace c) eqn:Hc.
  + destruct in_run.
    * apply IH.
    * split; [|discriminate].
      destruct (IH true) as [Hs Hf]. specialize (Hf eq_refl).
      cbn [spaced]. rewrite Hs.
      change (isspace " ") with true. cbn [Ascii.eqb Bool.eqb andb].
      destruct (collapse_spaces true s); [reflexivity|].
      cbn [starts_with_space] in Hf. now rewrite Hf.
  + destruct (IH false) as [Hs _]. split.
    * cbn [spaced]. now rewrite Hc, Hs.
    * intros _. exact Hc.
Qed.

Lemma strip_tidy (s : string) : spaced s = true -> tidy (strip s) = true.
Proof.
intros H. unfold tidy, strip.
rewrite (spaced_rstrip _ (spaced_lstrip _ H)).
rewrite (rstrip_start _ (lstrip_start s)), rstrip_end. reflexivity.
Qed.

Lemma clean_tidy (content : string) : tidy (clean content) = true.
Proof. unfold clean. apply strip_tidy, collapse_spaced. Qed.

(** A tidy text has no line break. *)
Lemma newline_isspace : isspace newline = true.
Proof. reflexivity. Qed.

Lemma spaced_one_line (s : string) : spaced s = true -> one_line s = true.
Proof.
induction s as [|c s IH]; [easy|].
intros H. cbn [one_line]. rewrite (IH (spaced_tail _ _ H)), andb_true_r.
cbn [spaced] in H. apply andb_true_iff in H as [H _].
destruct (Ascii.eqb c newline) eqn:E; [|reflexivity].
apply Ascii.eqb_eq in E. subst c. rewrite newline_isspace in H.
discriminate.
Qed.




(** A text without a boilerplate word is kept as it is. *)
Lemma cut_nothing (s : string) :
  has_boilerplate s = false -> cut_boilerplate false s = s.
Proof.
induction s as [|c s IH]; [easy|].
cbn [has_boilerplate cut_boilerplate]. intros H.
apply orb_false_iff in H as [Hb Hs]. unfold boilerplate_here in Hb.
rewrite Hb. now rewrite IH.
Qed.





End CleanFacts.

(** ** The results of [fetch_article] *)

Module FetchFacts.
Import PyStr UrlAnalyzer Shape CleanFacts.

Section Generic.
Context {F : Type} {num : PyNum F}.

Lemma extract_text_available (page : soup) :
  exists title content,
    extract_text true page = inr (title, content) /\ tidy content = true.
Proof.
unfold extract_text. cbn [negb]. do 2 eexists. split; [reflexivity|].
apply clean_tidy.
Qed.

Lemma fetch_article_cases (world : web) (self : t F) (url : string) :
  available world = true ->
  exists r final,
    fetch_article world self url = inr r /\
    fetched final r /\
    (final = url \/ final = ("https://" ++ url)%string).
Proof.
intros Ha. unfold fetch_article, handled. rewrite Ha. cbn [negb].
destruct (urlparse world url) as [e | [scheme netloc]].
- do 2 eexists. split; [reflexivity|]. split; [constructor | now left].
- set (final := if String.eqb scheme "" then ("https://" ++ url)%string else url).
  assert (Hf : final = url \/ final = ("https://" ++ url)%string)
    by (unfold final; destruct (String.eqb scheme ""); auto).
  destruct (String.eqb netloc "" && negb (String.prefix "https://" final)).
  { do 2 eexists. split; [reflexivity|]. split; [constructor | exact Hf]. }
  destruct (request world final) as [ | | status_code | e | html];
    try (do 2 eexists; split; [reflexivity|]; split; [constructor | exact Hf]).
  destruct (extract_text_available (parse world html)) as (title & content & -> & Ht).
  destruct (String.eqb content "") eqn:Hc.
  + do 2 eexists. split; [reflexivity|]. split; [constructor | exact Hf].
  + do 2 eexists. split; [reflexivity|]. split; [|exact Hf].
    constructor; [|exact Ht]. now apply String.eqb_neq.
Qed.

(** A successful result of [fetch_article] *)
Lemma fetch_success (world : web) (self : t F) (url : string) f :
  fetch_article world self url = inr f ->
  Py.is_str (Py.get "status" f) "success" = true ->
  exists final title description content,
    f = [ ("url", PStr final); ("title", PStr title);
          ("description", PStr description);
          ("content", PStr content); ("status", PStr "success") ] /\
    content <> "" /\ tidy content = true.
Proof.
intros Hf Hs. destruct (available world) eqn:Ha.
- destruct (fetch_article_cases world self url Ha) as (f' & final & Hf' & Hshape & _).
  rewrite Hf in Hf'. injection Hf' as <-.
  destruct Hshape as [message | | title | title description content Hc Ht];
    try discriminate Hs.
  now exists final, title, description, content.
- unfold fetch_article, handled in Hf. rewrite Ha in Hf. cbn [negb] in Hf.
  destruct (urlparse world url) as [e | [scheme netloc]]; [discriminate|].
  destruct (_ && _); [|discriminate].
  injection Hf as <-. discriminate Hs.
Qed.

End Generic.
End FetchFacts.

(** ** Verdicts as [analyze_url] stores them *)

Module AnalyzeFacts.
Import PyStr UrlAnalyzer Shape CleanFacts FetchFacts.
Import Observe PredictFacts FusionFacts VerdictFacts ExactFacts ScoreFacts RoundFacts.
Import Exact.

Section Generic.
Context {F : Type} {num : PyNum F}.

(** The two verdicts [predict] builds *)
Lemma predict_shape (self : FakeNewsDetector.t F) (text : string) v :
  FakeNewsDetector.predict self text = Some v ->
  (all_space text = true /\ v = empty_verdict) \/
  (all_space text = false /\
   exists s details, fused_score self text = Some s /\ v = verdict self s details).
Proof.
intros Hv. destruct (all_space text) eqn:Hb.
- left. split; [reflexivity|].
  rewrite (predict_blank self text Hb) in Hv. now injection Hv.
- right. split; [reflexivity|].
  destruct (predict_not_blank self text Hb) as (s & d & _ & Hs & Hp).
  rewrite Hp in Hv. injection Hv as <-. now exists s, d.
Qed.

Lemma tidy_take_not_blank (n : nat) (content : string) :
  tidy content = true -> content <> "" -> all_space (take (S n) content) = false.
Proof.
intros Ht Hc. destruct content as [|c rest]; [congruence|].
unfold tidy in Ht. apply andb_true_iff in Ht as [Ht _].
apply andb_true_iff in Ht as [_ Ht]. cbn [starts_with_space] in Ht.
apply negb_true_iff in Ht. cbn [take all_space]. now rewrite Ht.
Qed.

Lemma predict_object_str (self : t F) (text : string) v :
  FakeNewsDetector.predict (detector self) text = Some v ->
  predict_object self (PStr text) = inr v.
Proof. intros H. unfold predict_object. now rewrite H. Qed.

(** With the packages at hand [analyze_url] returns. *)
Lemma analyze_url_returns (world : web) (self : t F) (url : string) :
  available world = true ->
  exists r, analyze_url world self url true true = inr r.
Proof.
intros Ha.
destruct (fetch_article_cases world self url Ha) as (f & final & Hf & Hshape & _).
unfold analyze_url. rewrite Hf.
destruct Hshape as [message | | title | title description content Hc Ht];
  [eexists; reflexivity .. |].
apply String.eqb_neq in Hc.
cbn [rbind Py.is_str Py.get Py.get_default Py.lookup Py.item Py.truthy slice
     String.eqb Ascii.eqb Bool.eqb negb andb].
rewrite Hc. cbn [negb rbind andb].
destruct (predict_total (detector self) title) as (tv & Htv).
destruct (predict_total (detector self) (take 2000 content)) as (cv & Hcv).
rewrite (predict_object_str _ _ _ Htv), (predict_object_str _ _ _ Hcv).
apply String.eqb_neq in Hc.
destruct (predict_shape _ _ _ Hcv) as [[Hb _] | (_ & cs & cd & _ & ->)];
  [now rewrite (tidy_take_not_blank _ _ Ht Hc) in Hb|].
destruct (predict_shape _ _ _ Htv) as [[_ ->] | (_ & ts & td & _ & ->)];
  destruct (String.eqb title ""); eexists; reflexivity.
Qed.

End Generic.

Local Open Scope Q_scope.

Lemma round3_half : round3_Q (5 # 10) == 5 # 10.
Proof. reflexivity. Qed.

(** The score of a verdict lies in [0,1], and is at most 0.5 unless the
    label is [FAKE]. *)
Lemma verdict_score (self : FakeNewsDetector.t Q) (text : string) v :
  confidences_in_unit self ->
  FakeNewsDetector.predict self text = Some v ->
  exists x confidence label rest,
    v = ("fake_score", VNum x) :: ("confidence", VNum confidence)
        :: ("label", VStr label) :: rest /\
    0 <= x <= 1 /\
    (label <> "FAKE" -> x <= 1 # 2) /\
    (label = "FAKE" -> 1 # 2 <= x).
Proof.
intros Hunit Hv.
destruct (predict_shape _ _ _ Hv) as [[_ ->] | (_ & s & d & Hs & ->)].
- do 4 eexists. split; [reflexivity|]. repeat split; try discriminate.
- destruct (fused_unit self text Hunit) as (s' & d' & Hc & Hb).
  rewrite (fused_score_combine _ _ _ _ Hc) in Hs. injection Hs as <-.
  do 4 eexists. split; [reflexivity|]. split; [now apply round3_unit|].
  cbn [ltb Exact.num lit]. split; intros Hl.
  + destruct (ltb_Q (5 # 10) s') eqn:E; [congruence|].
    apply ltb_Q_ge in E. apply round3_mono in E. rewrite round3_half in E.
    cbn [round3 Exact.num]. lra.
  + destruct (ltb_Q (5 # 10) s') eqn:E; [|discriminate].
    apply ltb_Q_lt in E. assert (E' : 5 # 10 <= s') by lra.
    apply round3_mono in E'. rewrite round3_half in E'.
    cbn [round3 Exact.num]. lra.
Qed.

End AnalyzeFacts.

(** ** [url_analyzer.py] *)

Section UrlProperties.
Import PyStr UrlAnalyzer Shape CleanFacts FetchFacts AnalyzeFacts.
Import Observe PredictFacts ExactFacts RoundFacts.

Ltac run_dict :=
  cbn [rbind Py.is_str Py.get Py.get_default Py.lookup Py.has_key Py.setitem
       Py.item Py.truthy Py.of_dict Py.of_value slice analysis_score analysis_field
       verdict empty_verdict error_result
       String.eqb Ascii.eqb Bool.eqb negb andb orb].

Ltac run_score :=
  cbn [rbind Py.is_str Py.get Py.get_default Py.lookup Py.has_key Py.setitem
       Py.item Py.truthy Py.of_dict Py.of_value slice analysis_score analysis_field
       verdict empty_verdict error_result Dict.getnum Dict.getstr Dict.getitem
       String.eqb Ascii.eqb Bool.eqb negb andb orb].

Ltac run_fetch :=
  cbn [rbind Py.is_str Py.get Py.get_default Py.lookup Py.has_key Py.setitem
       Py.item Py.truthy error_result
       String.eqb Ascii.eqb Bool.eqb negb andb orb].

(** X11.  The content [extract_text_from_html] returns is tidy: its words
    are separated by single spaces, it has no other white space and none at
    either end, and so no line break. *)
Theorem extracted_content_is_tidy (page : soup) :
  exists title content,
    extract_text true page = inr (title, content) /\
    tidy content = true /\ one_line content = true.
Proof.
destruct (extract_text_available page) as (title & content & He & Ht).
exists title, content. split; [exact He|]. split; [exact Ht|].
apply spaced_one_line. unfold tidy in Ht.
apply andb_true_iff in Ht as [Ht _]. now apply andb_true_iff in Ht as [Ht _].
Qed.



(** X13.  Every result of [fetch_article] names the address, as given or
    with [https://] before it, and a status that is [success] or [error]; it
    has an [error] entry exactly when the status is [error]; a successful one
    carries the title and a content that is not empty and tidy. *)
Theorem fetch_article_result {F : Type} {num : PyNum F}
    (world : web) (self : t F) (url : string) :
  available world = true ->
  exists r final,
    fetch_article world self url = inr r /\
    Py.lookup "url" r = Some (PStr final) /\
    (final = url \/ final = ("https://" ++ url)%string) /\
    (Py.is_str (Py.get "status" r) "success"
     = negb (Py.is_str (Py.get "status" r) "error")) /\
    Py.has_key "error" r = Py.is_str (Py.get "status" r) "error" /\
    (Py.is_str (Py.get "status" r) "success" = true ->
     exists title content,
       Py.lookup "title" r = Some (PStr title) /\
       Py.lookup "content" r = Some (PStr content) /\
       content <> "" /\ tidy content = true).
Proof.
intros Ha.
destruct (fetch_article_cases world self url Ha) as (r & final & Hf & Hshape & Hfinal).
exists r, final. split; [exact Hf|].
destruct Hshape as [message | | title | title description content Hc Ht];
  run_fetch; repeat (split; [first [reflexivity | exact Hfinal]|]);
  try discriminate.
intros _. now exists title, content.
Qed.

(** X13 at the budget page, asked for without a scheme. *)
Lemma fetch_article_result_witness :
  available Fixture.town = true /\
  exists r,
    fetch_article (F := Q) Fixture.town Fixture.analyzer "example.org/budget" = inr r /\
    Py.has_key "error" r = Py.is_str (Py.get "status" r) "error".
Proof.
split; [reflexivity|].
destruct (fetch_article_result (F := Q) Fixture.town Fixture.analyzer
            "example.org/budget" eq_refl)
  as (r & final & Hf & _ & _ & _ & He & _).
exists r. now split.
Defined.

(** X14.  An address is refused as invalid exactly when it has a scheme, no
    network location and does not begin with [https://]; an address without
    a scheme is never refused, and is requested with [https://] put before
    it. *)
Theorem invalid_url_iff {F : Type} {num : PyNum F}
    (world : web) (self : t F) (url scheme netloc : string) :
  available world = true ->
  urlparse world url = inr (scheme, netloc) ->
  exists r,
    fetch_article world self url = inr r /\
    (Py.get "error" r = PStr "Invalid URL format" <->
     scheme <> "" /\ netloc = "" /\ String.prefix "https://" url = false) /\
    (scheme = "" -> Py.get "url" r = PStr ("https://" ++ url)).
Proof.
intros Ha Hp. unfold fetch_article, handled. rewrite Ha, Hp. cbn [negb].
destruct (String.eqb scheme "") eqn:Hs.
- apply String.eqb_eq in Hs. subst scheme.
  change (String.prefix "https://" ("https://" ++ url)) with (String.prefix "" url).
  assert (Hpre : String.prefix "" url = true) by now destruct url.
  rewrite Hpre, andb_false_r.
  assert (Hno : forall r : Py.pydict (F := F),
            (Py.get "error" r = PStr "Invalid URL format" <->
             "" <> "" /\ netloc = "" /\ String.prefix "https://" url = false) <->
            Py.get "error" r <> PStr "Invalid URL format").
  { intros r. split.
    - intros [H _] E. now destruct (H E) as [H' _].
    - intros H. split; [intros E; contradiction | intros [H' _]; congruence]. }
  destruct (request world ("https://" ++ url)) as [ | | status_code | e | html];
    try (eexists; split; [reflexivity|]; split; [apply Hno; run_fetch; discriminate|];
         intros _; reflexivity).
  destruct (extract_text_available (parse world html)) as (title & content & -> & _).
  destruct (String.eqb content "");
    (eexists; split; [reflexivity|]; split; [apply Hno; run_fetch; discriminate|];
     intros _; reflexivity).
- apply String.eqb_neq in Hs.
  destruct (String.eqb netloc "") eqn:Hn; cbn [andb].
  + apply String.eqb_eq in Hn. subst netloc.
    destruct (String.prefix "https://" url) eqn:Hpre; cbn [negb].
    * assert (Hno : forall r : Py.pydict (F := F),
                Py.get "error" r <> PStr "Invalid URL format" ->
                (Py.get "error" r = PStr "Invalid URL format" <->
                 scheme <> "" /\ "" = "" /\ true = false)).
      { intros r H. split; [contradiction | intros (_ & _ & E); discriminate]. }
      destruct (request world url) as [ | | status_code | e | html];
        try (eexists; split; [reflexivity|]; split;
             [apply Hno; run_fetch; discriminate | intros E; contradiction]).
      destruct (extract_text_available (parse world html)) as (title & content & -> & _).
      destruct (String.eqb content "");
        (eexists; split; [reflexivity|]; split;
         [apply Hno; run_fetch; discriminate | intros E; contradiction]).
    * eexists. split; [reflexivity|]. split; [|intros E; contradiction].
      run_fetch. now split.
  + apply String.eqb_neq in Hn.
    assert (Hno : forall r : Py.pydict (F := F),
              Py.get "error" r <> PStr "Invalid URL format" ->
              (Py.get "error" r = PStr "Invalid URL format" <->
               scheme <> "" /\ netloc = "" /\ String.prefix "https://" url = false)).
    { intros r H. split; [contradiction | intros (_ & E & _); contradiction]. }
    destruct (request world url) as [ | | status_code | e | html];
      try (eexists; split; [reflexivity|]; split;
           [apply Hno; run_fetch; discriminate | intros E; contradiction]).
    destruct (extract_text_available (parse world html)) as (title & content & -> & _).
    destruct (String.eqb content "");
      (eexists; split; [reflexivity|]; split;
       [apply Hno; run_fetch; discriminate | intros E; contradiction]).
Qed.

(** X14 at a mail address, which has a scheme and no network location. *)
Lemma invalid_url_iff_witness :
  available Fixture.town = true /\
  urlparse Fixture.town "mailto:editor" = inr ("mailto", "") /\
  exists r,
    fetch_article (F := Q) Fixture.town Fixture.analyzer "mailto:editor" = inr r /\
    Py.get "error" r = PStr "Invalid URL format".
Proof.
split; [reflexivity|]. split; [reflexivity|].
destruct (invalid_url_iff (F := Q) Fixture.town Fixture.analyzer
            "mailto:editor" "mailto" "" eq_refl eq_refl)
  as (r & Hf & [_ H] & _).
exists r. split; [exact Hf|]. apply H.
split; [discriminate|]. split; reflexivity.
Defined.

(** X15.  With the packages at hand [analyze_url] never raises.  A failed
    fetch is returned as it is.  After a successful one the result names
    the address as it was given and the first 200 characters of the
    content; the content is analysed when asked for, on its first 2000
    characters, and its verdict is never the one for a blank text; the title
    is analysed when asked for and not empty; and there is an overall label
    as soon as one of the two was analysed. *)
Theorem analyze_url_outcome {F : Type} {num : PyNum F}
    (world : web) (self : t F) (url : string)
    (analyze_title analyze_content : bool) :
  available world = true ->
  exists f r,
    fetch_article world self url = inr f /\
    analyze_url world self url analyze_title analyze_content = inr r /\
    (Py.is_str (Py.get "status" f) "success" = false -> r = f) /\
    (Py.is_str (Py.get "status" f) "success" = true ->
     exists title content,
       Py.lookup "title" f = Some (PStr title) /\
       Py.lookup "content" f = Some (PStr content) /\
       Py.lookup "url" r = Some (PStr url) /\
       Py.lookup "content_preview" r = Some (PStr (take 200 content)) /\
       Py.has_key "title_analysis" r
       = analyze_title && negb (String.eqb title "") /\
       Py.has_key "content_analysis" r = analyze_content /\
       Py.has_key "overall_label" r
       = analyze_content || (analyze_title && negb (String.eqb title "")) /\
       (analyze_content = true ->
        exists verdict,
          FakeNewsDetector.predict (detector self) (take 2000 content) = Some verdict /\
          Py.lookup "content_analysis" r = Some (Py.of_dict verdict) /\
          Dict.has_key "method" verdict = true)).
Proof.
intros Ha.
destruct (fetch_article_cases world self url Ha) as (f & final & Hf & Hshape & _).
exists f. unfold analyze_url. rewrite Hf.
destruct Hshape as [message | | title | title description content Hc Ht].
1-3: run_dict; eexists; split; [reflexivity|]; split; [reflexivity|];
     split; [reflexivity | discriminate].
apply String.eqb_neq in Hc. run_dict. rewrite Hc. run_dict.
destruct (predict_total (detector self) title) as (tv & Htv).
destruct (predict_total (detector self) (take 2000 content)) as (cv & Hcv).
rewrite (predict_object_str _ _ _ Htv), (predict_object_str _ _ _ Hcv).
apply String.eqb_neq in Hc.
destruct (predict_shape _ _ _ Hcv) as [[Hb _] | (_ & cs & cd & _ & ->)];
  [now rewrite (tidy_take_not_blank _ _ Ht Hc) in Hb|].
destruct (predict_shape _ _ _ Htv) as [[_ ->] | (_ & ts & td & _ & ->)];
  destruct analyze_title, analyze_content, (String.eqb title "") eqn:Hte;
  run_dict;
  (eexists; split; [reflexivity|]; split; [reflexivity|];
   split; [discriminate|]; intros _; exists title, content; rewrite ?Hte; run_dict;
   repeat (split; [reflexivity|]);
   first [discriminate | intros _; eexists; split; [exact Hcv|]; split; reflexivity]).
Qed.

(** X15 at the budget page. *)
Lemma analyze_url_outcome_witness :
  available Fixture.town = true /\
  exists f r,
    fetch_article (F := Q) Fixture.town Fixture.analyzer "example.org/budget" = inr f /\
    analyze_url (F := Q) Fixture.town Fixture.analyzer "example.org/budget" true true
    = inr r.
Proof.
split; [reflexivity|].
destruct (analyze_url_outcome (F := Q) Fixture.town Fixture.analyzer
            "example.org/budget" true true eq_refl)
  as (f & r & Hf & Hr & _).
exists f, r. now split.
Defined.

Local Open Scope Q_scope.

(** X16.  When title and content are both analysed, the overall score is
    0.3 times the score of the title's verdict plus 0.7 times that of the
    content's verdict, both as rounded in the verdicts, rounded again; it
    lies in [0,1]; the overall label compares the sum before that rounding
    with 0.5.  So the overall label is [REAL] when neither verdict is
    [FAKE]; the content alone settles it when its score is at most 2/7 or
    above 5/7. *)
Theorem overall_verdict_weighs_parts (world : web) (self : t Q) (url : string)
    (f : Py.pydict (F := Q)) (title : string) :
  confidences_in_unit (detector self) ->
  fetch_article world self url = inr f ->
  Py.is_str (Py.get "status" f) "success" = true ->
  Py.lookup "title" f = Some (PStr title) ->
  title <> "" ->
  exists r content title_result content_result t c title_label content_label,
    analyze_url world self url true true = inr r /\
    Py.lookup "content" f = Some (PStr content) /\
    FakeNewsDetector.predict (detector self) title = Some title_result /\
    FakeNewsDetector.predict (detector self) (take 2000 content) = Some content_result /\
    Dict.getnum "fake_score" title_result = Some t /\
    Dict.getnum "fake_score" content_result = Some c /\
    Dict.getstr "label" title_result = Some title_label /\
    Dict.getstr "label" content_result = Some content_label /\
    let combined := add (mul (lit 3 10) t) (mul (lit 7 10) c) in
    Py.lookup "overall_fake_score" r = Some (PFloat (round3 combined)) /\
    Py.lookup "overall_label" r
    = Some (PStr (if ltb (lit 5 10) combined then "FAKE" else "REAL")) /\
    0 <= round3 combined <= 1 /\
    (title_label <> "FAKE" -> content_label <> "FAKE" ->
     ltb (lit 5 10) combined = false) /\
    (c <= 2 # 7 -> ltb (lit 5 10) combined = false) /\
    (5 # 7 < c -> ltb (lit 5 10) combined = true).
Proof.
intros Hunit Hf Hs Ht Hne.
destruct (fetch_success world self url f Hf Hs)
  as (final & title' & description & content & -> & Hc & Htidy).
cbn in Ht. injection Ht as ->.
destruct (predict_total (detector self) title) as (tv & Htv).
destruct (predict_total (detector self) (take 2000 content)) as (cv & Hcv).
destruct (verdict_score _ _ _ Hunit Htv) as (t & tc & tl & trest & -> & Htb & Htl & _).
destruct (verdict_score _ _ _ Hunit Hcv) as (c & cc & cl & crest & -> & Hcb & Hcl & _).
unfold analyze_url. rewrite Hf.
apply String.eqb_neq in Hc, Hne. run_score. rewrite Hc, Hne. run_score.
unfold predict_object. rewrite Htv, Hcv. run_score.
eexists. exists content. do 2 eexists. exists t, c, tl, cl.
split; [reflexivity|]. split; [reflexivity|].
split; [reflexivity|]. split; [exact Hcv|]. do 4 (split; [reflexivity|]).
cbv zeta. split; [reflexivity|]. split; [reflexivity|].
cbn [add mul lit ltb round3 Exact.num].
split; [apply round3_unit; lra|].
split; [|split].
- intros H1 H2. apply ltb_Q_ge. specialize (Htl H1). specialize (Hcl H2). lra.
- intros H. apply ltb_Q_ge. lra.
- intros H. apply ltb_Q_lt. lra.
Qed.

(** X16 at the budget page: a title scored 0.9 and a content scored 0. *)
Lemma overall_verdict_weighs_parts_witness :
  confidences_in_unit (detector (F := Q) Fixture.analyzer) /\
  fetch_article (F := Q) Fixture.town Fixture.analyzer "example.org/budget"
  = inr Fixture.budget_fetched /\
  exists r,
    analyze_url (F := Q) Fixture.town Fixture.analyzer "example.org/budget" true true
    = inr r /\
    Py.lookup "overall_label" r = Some (PStr "REAL").
Proof.
assert (H : confidences_in_unit (detector (F := Q) Fixture.analyzer)).
{ intros tr run input label confidence Htr. discriminate Htr. }
split; [exact H|]. split; [reflexivity|].
destruct (overall_verdict_weighs_parts Fixture.town Fixture.analyzer
            "example.org/budget" Fixture.budget_fetched
            "You won't believe this shocking budget!!!" H eq_refl eq_refl eq_refl)
  as (r & content & tr & cr & t & c & tl & cl & Hr & Hcontent & Htr & Hcr
      & Ht & Hc & Htl & Hcl & _ & Hlabel & _ & _ & Hlow & _);
  [discriminate|].
exists r. split; [exact Hr|]. rewrite Hlabel.
injection Hcontent as <-.
assert (E : c == 0).
{ vm_compute in Hcr. injection Hcr as <-. vm_compute in Hc. injection Hc as <-.
  reflexivity. }
rewrite Hlow; [reflexivity|]. rewrite E. discriminate.
Defined.

End UrlProperties.

(** ** [detector_app.py] *)

Module CliFacts.
Import PyStr Shape Observe PyStrFacts PredictFacts BatchFacts FetchFacts AnalyzeFacts.

Section Generic.
Context {F : Type} {num : PyNum F}.

Ltac run_print :=
  cbn [Cli.print_result Cli.pbind Cli.print Cli.ret Cli.halt Cli.item Cli.percent
       Cli.key_in Cli.subscript Cli.value_is Cli.eval Cli.catch
       Dict.getitem Dict.has_key verdict empty_verdict
       String.eqb Ascii.eqb Bool.eqb app].

Lemma combine_rule_entry (self : FakeNewsDetector.t F) text h s details :
  FakeNewsDetector.combine self text h (rule_details text) = Some (s, details) ->
  Dict.getitem "rule_based" details
  = Some (VDict (SimpleRuleBasedDetector.analyze text)).
Proof.
unfold FakeNewsDetector.combine, rule_details.
destruct (FakeNewsDetector.use_transformer self);
  [destruct (FakeNewsDetector.transformer_detector self) as [tr|]|];
  try (intros H; injection H as _ <-; reflexivity).
destruct (_ && _).
- destruct (Dict.getnum _ _); cbn [bind]; [|discriminate].
  intros H. injection H as _ <-. reflexivity.
- intros H. injection H as _ <-. reflexivity.
Qed.

(** What [print_result] prints for the verdict of a text that is not
    blank *)
Lemma print_result_verdict (self : FakeNewsDetector.t F) text s details shown index :
  FakeNewsDetector.combine self text (heuristic_score text) (rule_details text)
  = Some (s, details) ->
  Cli.print_result shown (verdict self s details) index
  = ([ Cli.InputLine (match index with Some (S _ as i) => Some i | _ => None end)
         (take 80 shown) (80 <? String.length shown);
       Cli.LabelLine (VStr (if ltb (lit 5 10) s then "FAKE" else "REAL"));
       Cli.ScoreLine (VNum (round3 s));
       Cli.ConfidenceLine (round3 (mul (fabs (sub s (lit 5 10))) (of_nat 2)));
       Cli.MethodLine
         (VStr (if FakeNewsDetector.use_transformer self then "hybrid" else "rule-based"));
       Cli.AnalysisLine (VDict (SimpleRuleBasedDetector.analyze text));
       Cli.StatusLine (ltb (lit 5 10) s) ],
     inr tt).
Proof.
intros Hc. apply combine_rule_entry in Hc.
unfold Cli.print_result. run_print. unfold Dict.has_key, Cli.item.
rewrite Hc. run_print.
destruct (ltb (lit 5 10) s); reflexivity.
Qed.

Lemma print_result_empty (shown : string) index :
  Cli.print_result (F := F) shown empty_verdict index
  = ([ Cli.InputLine (match index with Some (S _ as i) => Some i | _ => None end)
         (take 80 shown) (80 <? String.length shown);
       Cli.LabelLine (VStr "UNKNOWN");
       Cli.ScoreLine (VNum (lit 5 10));
       Cli.ConfidenceLine (lit 0 1) ],
     inl (Cli.Raises (KeyError "method"))).
Proof. reflexivity. Qed.

Lemma is_fake_verdict (self : FakeNewsDetector.t F) s details :
  is_fake (verdict self s details) = ltb (lit 5 10) s.
Proof. unfold is_fake. cbn. now destruct (ltb (lit 5 10) s). Qed.

Lemma count_status_app (fake : bool) (a b : list (Cli.line F)) :
  count_status fake (a ++ b) = count_status fake a + count_status fake b.
Proof. unfold count_status. now rewrite filter_app, length_app. Qed.

Lemma count_status_verdict (self : FakeNewsDetector.t F) text s details shown index fake :
  FakeNewsDetector.combine self text (heuristic_score text) (rule_details text)
  = Some (s, details) ->
  count_status fake (fst (Cli.print_result shown (verdict self s details) index))
  = if Bool.eqb (ltb (lit 5 10) s) fake then 1 else 0.
Proof.
intros Hc. rewrite (print_result_verdict _ _ _ _ _ _ Hc).
unfold count_status. cbn [fst filter].
now destruct (Bool.eqb (ltb (lit 5 10) s) fake).
Qed.

(** The loop of [batch_mode] with its printing, against the loop without *)
Lemma batch_loop_prints (detector : FakeNewsDetector.t F) (lines : list string) :
  forall i acc,
  exists out results,
    Cli.batch_loop detector lines i acc = (out, inr (acc ++ results)) /\
    DetectorApp.batch_loop detector lines acc = Some (acc ++ results) /\
    Forall (produced detector) results /\
    count_status true out
    = List.length (filter (fun r => is_fake (snd r)) results) /\
    count_status false out
    = List.length (filter (fun r => negb (is_fake (snd r))) results).
Proof.
induction lines as [|line lines IH]; intros i acc.
- exists [], []. cbn. rewrite app_nil_r. repeat split; constructor.
- cbn [Cli.batch_loop DetectorApp.batch_loop].
  rewrite eqb_empty_strip.
  destruct (all_space line) eqn:Hline.
  + apply IH.
  + assert (Hs : all_space (strip line) = false) by now rewrite strip_all_space.
    destruct (predict_not_blank detector (strip line) Hs) as (s & d & Hc & _ & Hp).
    unfold Cli.predict. rewrite Hp. cbn [bind].
    destruct (IH (S i) (acc ++ [(strip line, verdict detector s d)]))
      as (out & rs & Hout & Hrs & Hall & Hfake & Hreal).
    exists (fst (Cli.print_result (strip line) (verdict detector s d) (Some i)) ++ out),
           ((strip line, verdict detector s d) :: rs).
    split; [|split; [|split; [|split]]].
    * cbn [Cli.pbind Cli.ret]. rewrite (print_result_verdict _ _ _ _ _ _ Hc).
      cbn [fst]. rewrite Hout, <- app_assoc. reflexivity.
    * rewrite Hrs, <- app_assoc. reflexivity.
    * constructor; [split; assumption | assumption].
    * rewrite count_status_app, (count_status_verdict _ _ _ _ _ _ _ Hc), Hfake.
      cbn [filter snd]. rewrite is_fake_verdict.
      now destruct (ltb (lit 5 10) s).
    * rewrite count_status_app, (count_status_verdict _ _ _ _ _ _ _ Hc), Hreal.
      cbn [filter snd]. rewrite is_fake_verdict.
      now destruct (ltb (lit 5 10) s).
Qed.

Lemma count_fake_prints (detector : FakeNewsDetector.t F) results :
  Forall (produced detector) results ->
  Cli.count_fake results
  = ([], inr (List.length (filter (fun r => is_fake (snd r)) results))) /\
  DetectorApp.count_fake results
  = Some (List.length (filter (fun r => is_fake (snd r)) results)).
Proof.
induction 1 as [|[text v] results [_ Hv] _ [IH1 IH2]]; [now split|].
cbn [fst snd] in Hv.
destruct (predict_has_label _ _ _ Hv) as (l & Hl).
cbn [Cli.count_fake DetectorApp.count_fake filter snd].
unfold Cli.item, is_fake. rewrite Hl, IH1, IH2. cbn [Cli.pbind Cli.ret bind app].
split.
- destruct l as [x|label|d]; cbn [Cli.value_is]; try reflexivity.
  now destruct (String.eqb label "FAKE").
- destruct l as [x|label|d]; try reflexivity.
  now destruct (String.eqb label "FAKE").
Qed.

Lemma filter_split_length {A : Type} (p : A -> bool) (l : list A) :
  List.length l - List.length (filter p l)
  = List.length (filter (fun a => negb (p a)) l).
Proof.
pose proof (List.filter_length p l). lia.
Qed.

Lemma no_error_app (a b : list (Cli.line F)) :
  forallb (fun l => negb (is_error_line l)) (a ++ b)
  = forallb (fun l => negb (is_error_line l)) a
    && forallb (fun l => negb (is_error_line l)) b.
Proof. apply forallb_app. Qed.

(** One pass of the loop on a line that is not [quit] *)
Lemma interactive_step (detector : FakeNewsDetector.t F) (raw : string)
    (typed : list string) :
  is_quit raw = false ->
  exists out,
    Cli.interactive_loop detector (raw :: typed)
    = Cli.pbind (out, inr tt) (fun _ => Cli.interactive_loop detector typed) /\
    forallb (fun l => negb (is_error_line l)) out = true /\
    count_status true out + count_status false out
    = (if negb (all_space raw) && negb (is_clear raw) then 1 else 0).
Proof.
intros Hq. unfold is_quit in Hq. unfold is_clear.
cbn [Cli.interactive_loop]. rewrite Hq.
destruct (String.eqb (lower (strip raw)) "clear") eqn:Hclear.
- exists [Cli.ClearLine]. split; [reflexivity|]. split; [reflexivity|].
  rewrite andb_false_r. reflexivity.
- rewrite eqb_empty_strip. destruct (all_space raw) eqn:Hb.
  + exists []. split; [|now split].
    cbn [Cli.pbind]. now destruct (Cli.interactive_loop detector typed).
  + assert (Hs : all_space (strip raw) = false) by now rewrite strip_all_space.
    destruct (predict_not_blank detector (strip raw) Hs) as (s & d & Hc & _ & Hp).
    unfold Cli.predict. rewrite Hp.
    cbn [Cli.pbind Cli.ret app]. rewrite (print_result_verdict _ _ _ _ _ _ Hc).
    cbn [Cli.catch Cli.pbind].
    eexists. split; [reflexivity|]. split; [reflexivity|].
    unfold count_status. cbn [filter negb andb].
    now destruct (ltb (lit 5 10) s).
Qed.

Lemma interactive_until_quit (detector : FakeNewsDetector.t F)
    (before : list string) (quit : string) (after : list string) :
  forallb (fun raw => negb (is_quit raw)) before = true ->
  is_quit quit = true ->
  exists out,
    Cli.interactive_loop detector (before ++ quit :: after)
    = (out ++ [Cli.GoodbyeLine], inr tt) /\
    forallb (fun l => negb (is_error_line l)) out = true /\
    count_status true out + count_status false out
    = List.length
        (filter (fun raw => negb (all_space raw) && negb (is_clear raw)) before).
Proof.
intros Hb Hq. induction before as [|raw before IH].
- exists []. cbn [app Cli.interactive_loop]. unfold is_quit in Hq. rewrite Hq.
  now split.
- cbn [forallb] in Hb. apply andb_true_iff in Hb as [Hraw Hb].
  apply negb_true_iff in Hraw.
  destruct (IH Hb) as (out & Hout & Herr & Hcount).
  destruct (interactive_step detector raw (before ++ quit :: after) Hraw)
    as (out1 & Hstep & Herr1 & Hcount1).
  exists (out1 ++ out). cbn [app]. rewrite Hstep, Hout. cbn [Cli.pbind].
  split; [now rewrite app_assoc|]. split.
  + rewrite no_error_app, Herr1, Herr. reflexivity.
  + rewrite !count_status_app. cbn [filter].
    destruct (negb (all_space raw) && negb (is_clear raw)); cbn [List.length]; lia.
Qed.

Lemma interactive_awaits (detector : FakeNewsDetector.t F) (typed : list string) :
  forallb (fun raw => negb (is_quit raw)) typed = true ->
  exists out, Cli.interactive_loop detector typed = (out, inl Cli.Awaits).
Proof.
induction typed as [|raw typed IH]; intros Hb.
- now exists [].
- cbn [forallb] in Hb. apply andb_true_iff in Hb as [Hraw Hb].
  apply negb_true_iff in Hraw.
  destruct (IH Hb) as (out & Hout).
  destruct (interactive_step detector raw typed Hraw) as (out1 & Hstep & _).
  exists (out1 ++ out). rewrite Hstep, Hout. reflexivity.
Qed.

End Generic.

Ltac run_url :=
  cbn [rbind Py.is_str Py.get Py.get_default Py.lookup Py.has_key Py.setitem
       Py.item Py.truthy Py.of_dict Py.of_value
       UrlAnalyzer.slice UrlAnalyzer.analysis_score UrlAnalyzer.analysis_field
       UrlAnalyzer.error_result verdict empty_verdict
       Cli.print_url_result Cli.pbind Cli.print Cli.ret Cli.halt Cli.eval Cli.catch
       String.eqb Ascii.eqb Bool.eqb negb andb orb app].

Lemma take_not_empty (n : nat) (content : string) :
  content <> "" -> String.eqb (take (S n) content) "" = false.
Proof. destruct content; [congruence | reflexivity]. Qed.

(** What [print_url_result] prints for a result of [analyze_url] *)
Lemma url_report {F : Type} {num : PyNum F}
    (world : UrlAnalyzer.web) (self : UrlAnalyzer.t F) (url : string) :
  UrlAnalyzer.available world = true ->
  exists r out,
    UrlAnalyzer.analyze_url world self url true true = inr r /\
    Cli.print_url_result r = (out, inr tt) /\
    if Py.is_str (Py.get "status" r) "success"
    then exists label body,
           Py.lookup "overall_label" r = Some (PStr label) /\
           out = Cli.Rule :: Cli.ArticleLine (Py.get "title" r)
                   :: Cli.UrlLine (PStr url) :: Cli.Rule :: body /\
           In (Cli.OverallHeader (String.eqb label "FAKE")) body
    else out = [ Cli.UrlErrorLine (Py.get "error" r) ].
Proof.
intros Ha.
destruct (fetch_article_cases world self url Ha) as (f & final & Hf & Hshape & _).
unfold UrlAnalyzer.analyze_url. rewrite Hf.
destruct Hshape as [message | | title | title description content Hc Ht].
1-3: run_url; do 2 eexists; split; [reflexivity|]; split; reflexivity.
apply String.eqb_neq in Hc. run_url. rewrite Hc. run_url.
destruct (predict_total (UrlAnalyzer.detector self) title) as (tv & Htv).
destruct (predict_total (UrlAnalyzer.detector self) (take 2000 content)) as (cv & Hcv).
unfold UrlAnalyzer.predict_object. rewrite Htv, Hcv.
apply String.eqb_neq in Hc.
destruct (predict_shape _ _ _ Hcv) as [[Hb _] | (_ & cs & cd & _ & ->)];
  [now rewrite (tidy_take_not_blank _ _ Ht Hc) in Hb|].
pose proof Hc as Hne. apply String.eqb_neq in Hc.
destruct (predict_shape _ _ _ Htv) as [[_ ->] | (_ & ts & td & _ & ->)];
  destruct (String.eqb title "") eqn:Hte; run_url; rewrite ?Hc, ?Hte; run_url;
  (do 2 eexists; split; [reflexivity|]; run_url;
   rewrite ?(take_not_empty 199 content Hne), ?Hte; run_url;
   split; [reflexivity|];
   do 2 eexists; split; [reflexivity|]; split; [reflexivity|];
   cbn [In]; match goal with
             | |- context [ltb ?x ?y] => destruct (ltb x y)
             | _ => idtac
             end; cbn [String.eqb Ascii.eqb Bool.eqb]; tauto).
Qed.

End CliFacts.

Section CliProperties.
Import PyStr Shape Observe PyStrFacts PredictFacts BatchFacts FetchFacts AnalyzeFacts CliFacts.

(** X17.  For the verdict of a text that is not blank [print_result] returns
    after seven lines, and its status line says fake exactly when the label
    is [FAKE]. *)
Theorem print_result_shows_verdict {F : Type} {num : PyNum F}
    (detector : FakeNewsDetector.t F) (text shown : string) (index : option nat)
    (verdict : dict F) :
  all_space text = false ->
  FakeNewsDetector.predict detector text = Some verdict ->
  exists label score confidence method,
    Dict.getstr "label" verdict = Some label /\
    Dict.getnum "fake_score" verdict = Some score /\
    Dict.getnum "confidence" verdict = Some confidence /\
    Dict.getstr "method" verdict = Some method /\
    Cli.print_result shown verdict index
    = ([ Cli.InputLine (match index with Some (S _ as i) => Some i | _ => None end)
           (take 80 shown) (80 <? String.length shown);
         Cli.LabelLine (VStr label);
         Cli.ScoreLine (VNum score);
         Cli.ConfidenceLine confidence;
         Cli.MethodLine (VStr method);
         Cli.AnalysisLine (VDict (SimpleRuleBasedDetector.analyze text));
         Cli.StatusLine (String.eqb label "FAKE") ],
       inr tt).
Proof.
intros Hb Hv.
destruct (predict_not_blank detector text Hb) as (s & d & Hc & _ & Hp).
rewrite Hp in Hv. injection Hv as <-.
do 4 eexists. do 4 (split; [reflexivity|]).
rewrite (print_result_verdict _ _ _ _ _ _ Hc).
now destruct (ltb (lit 5 10) s).
Qed.

(** X17 at a headline with a sensational phrase and three marks. *)
Lemma print_result_shows_verdict_witness :
  all_space Scenario.clickbait = false /\
  exists verdict lines,
    FakeNewsDetector.predict (F := Q) Scenario.rule_based Scenario.clickbait
    = Some verdict /\
    Cli.print_result Scenario.clickbait verdict None = (lines, inr tt) /\
    List.length lines = 7.
Proof.
split; [reflexivity|].
destruct (predict_total (F := Q) Scenario.rule_based Scenario.clickbait) as (v & Hv).
destruct (print_result_shows_verdict (F := Q) Scenario.rule_based Scenario.clickbait
            Scenario.clickbait None v eq_refl Hv)
  as (label & score & confidence & method & _ & _ & _ & _ & Hp).
exists v. eexists. split; [exact Hv|]. split; [exact Hp|]. reflexivity.
Defined.

(** X18.  [--text] with a blank text that is not empty: [predict] gives the
    verdict without [method], and [print_result] raises [KeyError] after the
    confidence line. *)
Theorem blank_text_option_raises {F : Type} {num : PyNum F}
    (a : Cli.args) (w : Cli.world F) (text : string) :
  Cli.given (Cli.url_arg a) = None ->
  Cli.text_arg a = Some text ->
  text <> "" ->
  all_space text = true ->
  Cli.main a w
  = ([ Cli.InitLine; Cli.Banner;
       Cli.InputLine None (take 80 text) (80 <? String.length text);
       Cli.LabelLine (VStr "UNKNOWN");
       Cli.ScoreLine (VNum (lit 5 10));
       Cli.ConfidenceLine (lit 0 1) ],
     inl (Cli.Raises (KeyError "method"))).
Proof.
intros Hu Ht Hne Hb. unfold Cli.main. rewrite Hu, Ht.
unfold Cli.given. apply String.eqb_neq in Hne. rewrite Hne.
unfold Cli.predict. rewrite (predict_blank _ text Hb).
cbn [Cli.pbind Cli.print Cli.ret app].
rewrite print_result_empty. reflexivity.
Qed.

(** X18 at [--text] with three spaces. *)
Lemma blank_text_option_raises_witness :
  Cli.given (Cli.url_arg Fixture.blank_text) = None /\
  all_space "   " = true /\
  snd (Cli.main (F := Q) Fixture.blank_text Fixture.surroundings)
  = inl (Cli.Raises (KeyError "method")).
Proof.
split; [reflexivity|]. split; [reflexivity|].
rewrite (blank_text_option_raises (F := Q) Fixture.blank_text Fixture.surroundings
           "   " eq_refl eq_refl);
  [reflexivity | discriminate | reflexivity].
Defined.

(** X19.  On a file that could be read [batch_mode] returns; the figures of
    its summary line are those of the batch loop, and they count the status
    lines printed before it. *)
Theorem batch_summary_counts_status_lines {F : Type} {num : PyNum F}
    (detector : FakeNewsDetector.t F) (file_path : string) (lines : list string) :
  exists out results summary,
    Cli.batch_mode detector file_path (Cli.Lines lines)
    = (Cli.Banner :: Cli.ProcessingLine file_path
         :: out ++ [ Cli.Rule;
                     Cli.SummaryLine (DetectorApp.real_count summary)
                       (DetectorApp.fake_count summary) (DetectorApp.total summary);
                     Cli.Rule ],
       inr tt) /\
    DetectorApp.batch_mode detector lines = Some (results, summary) /\
    count_status true out = DetectorApp.fake_count summary /\
    count_status false out = DetectorApp.real_count summary.
Proof.
destruct (batch_loop_prints detector lines 1 [])
  as (out & results & Hout & Hloop & Hall & Hfake & Hreal).
cbn [app] in Hout, Hloop.
destruct (count_fake_prints detector results Hall) as [Hc1 Hc2].
exists out, results. eexists.
unfold Cli.batch_mode, DetectorApp.batch_mode.
rewrite Hout, Hloop. cbn [bind]. rewrite Hc2. cbn [bind].
split; [|split; [reflexivity|]].
- cbn [Cli.pbind Cli.print Cli.ret app Cli.catch]. rewrite Hc1.
  cbn [Cli.pbind Cli.print Cli.ret app Cli.catch DetectorApp.real_count
       DetectorApp.fake_count DetectorApp.total].
  reflexivity.
- cbn [DetectorApp.real_count DetectorApp.fake_count]. split; [exact Hfake|].
  rewrite Hreal. symmetry. apply filter_split_length.
Qed.

(** X20.  [interactive_mode] ends at the first line that reads [quit], in
    any case and with white space around it: every line typed before it
    that is neither blank nor [clear] gets one status line, no error line is
    printed, the farewell is the last line, and what was typed after it is
    not read.  Without such a line the loop goes on reading. *)
Theorem interactive_mode_ends_at_quit {F : Type} {num : PyNum F}
    (detector : FakeNewsDetector.t F) (before : list string) (quit : string)
    (after : list string) :
  forallb (fun raw => negb (is_quit raw)) before = true ->
  is_quit quit = true ->
  (exists out,
     Cli.interactive_mode detector (before ++ quit :: after)
     = (Cli.Banner :: Cli.PromptLine :: out ++ [Cli.GoodbyeLine], inr tt) /\
     forallb (fun l => negb (is_error_line l)) out = true /\
     count_status true out + count_status false out
     = List.length
         (filter (fun raw => negb (all_space raw) && negb (is_clear raw)) before)) /\
  (exists out, Cli.interactive_mode detector before = (out, inl Cli.Awaits)).
Proof.
intros Hb Hq. split.
- destruct (interactive_until_quit detector before quit after Hb Hq)
    as (out & Hout & Herr & Hcount).
  exists out. unfold Cli.interactive_mode. rewrite Hout. now split.
- destruct (interactive_awaits detector before Hb) as (out & Hout).
  eexists. unfold Cli.interactive_mode. rewrite Hout. reflexivity.
Qed.

(** X20 at a session of four lines, then [Quit] and a line that is not
    read. *)
Lemma interactive_mode_ends_at_quit_witness :
  forallb (fun raw => negb (is_quit raw)) Fixture.session = true /\
  is_quit " Quit " = true /\
  exists out,
    Cli.interactive_mode (F := Q) Scenario.rule_based
      (Fixture.session ++ " Quit " :: [ "ignored" ])
    = (Cli.Banner :: Cli.PromptLine :: out ++ [Cli.GoodbyeLine], inr tt) /\
    count_status true out + count_status false out = 2.
Proof.
split; [reflexivity|]. split; [reflexivity|].
destruct (interactive_mode_ends_at_quit (F := Q) Scenario.rule_based Fixture.session
            " Quit " [ "ignored" ] eq_refl eq_refl)
  as [(out & Hout & _ & Hcount) _].
exists out. split; [exact Hout|]. rewrite Hcount. reflexivity.
Defined.

(** X21.  [--url] never raises: without the packages it prints the hint and
    returns; with them it returns after the one error line when the fetch
    failed, and otherwise after a report that has the overall verdict, marked
    as fake exactly when the overall label is [FAKE]. *)
Theorem url_option_never_raises {F : Type} {num : PyNum F}
    (a : Cli.args) (w : Cli.world F) (url : string) :
  Cli.given (Cli.url_arg a) = Some url ->
  exists out,
    Cli.main a w
    = (Cli.InitLine :: Cli.Banner :: Cli.FetchingLine url :: out, inr tt) /\
    (UrlAnalyzer.available (Cli.web w) = false ->
     out = [ Cli.MissingPackagesLine
               "requests library required. Install: pip install requests" ]) /\
    (UrlAnalyzer.available (Cli.web w) = true ->
     exists analyzer r,
       UrlAnalyzer.init (Cli.web w) 10
         (FakeNewsDetector.init (Cli.use_transformer a) (Cli.loaded w))
       = inr analyzer /\
       UrlAnalyzer.analyze_url (Cli.web w) analyzer url true true = inr r /\
       if Py.is_str (Py.get "status" r) "success"
       then exists label body,
              Py.lookup "overall_label" r = Some (PStr label) /\
              out = Cli.Rule :: Cli.ArticleLine (Py.get "title" r)
                      :: Cli.UrlLine (PStr url) :: Cli.Rule :: body /\
              In (Cli.OverallHeader (String.eqb label "FAKE")) body
       else out = [ Cli.UrlErrorLine (Py.get "error" r) ]).
Proof.
intros Hu. unfold Cli.main. rewrite Hu. unfold UrlAnalyzer.init.
destruct (UrlAnalyzer.available (Cli.web w)) eqn:Ha; cbn [negb].
2:{ eexists. split; [reflexivity|]. split; [reflexivity | discriminate]. }
set (self := {| UrlAnalyzer.timeout := 10%Z;
                UrlAnalyzer.detector :=
                  FakeNewsDetector.init (Cli.use_transformer a) (Cli.loaded w) |}).
destruct (url_report (Cli.web w) self url Ha) as (r & out & Hr & Hout & H).
cbn [Cli.pbind Cli.eval Cli.ret Cli.print app]. rewrite Hr.
cbn [Cli.pbind Cli.eval Cli.ret Cli.print app]. rewrite Hout.
exists out. split; [reflexivity|]. split; [discriminate|].
intros _. exists self, r. now split.
Qed.

(** X21 at [--url example.org/budget], given beside [--text]. *)
Lemma url_option_never_raises_witness :
  Cli.given (Cli.url_arg Fixture.budget_url) = Some "example.org/budget" /\
  exists out,
    Cli.main (F := Q) Fixture.budget_url Fixture.surroundings
    = (Cli.InitLine :: Cli.Banner :: Cli.FetchingLine "example.org/budget" :: out,
       inr tt).
Proof.
split; [reflexivity|].
destruct (url_option_never_raises (F := Q) Fixture.budget_url Fixture.surroundings
            "example.org/budget" eq_refl)
  as (out & Hout & _).
now exists out.
Defined.

End CliProperties.

(** ** [app.py] *)

Module ApiFacts.
Import PyStr Shape Observe PyStrFacts PredictFacts BatchFacts FetchFacts AnalyzeFacts.

Section Generic.
Context {F : Type} {num : PyNum F}.

Lemma analyze_text_dict (detector : FakeNewsDetector.t F) (d : Py.pydict (F := F))
    (raw : string) :
  d <> [] ->
  Py.get_default "text" (PStr "") d = PStr raw ->
  Api.analyze_text (Some detector) (inr (PDict d))
  = if all_space raw
    then Api.error "No text provided" 400
    else if 5000 <? String.length (strip raw)
    then Api.error "Text too long (max 5000 characters)" 400
    else match FakeNewsDetector.predict detector (strip raw) with
         | Some verdict =>
             (PDict [ ("success", PBool true); ("result", Py.of_dict verdict) ], 200)
         | None => Api.error "Server error: predict" 500
         end.
Proof.
intros Hd Ht. unfold Api.analyze_text.
cbn [rbind Py.truthy Api.get_of]. destruct d as [|entry d]; [congruence|].
cbn [negb]. rewrite Ht. cbn [rbind Api.strip_of].
rewrite eqb_empty_strip. destruct (all_space raw); [reflexivity|].
destruct (5000 <? String.length (strip raw)); [reflexivity|].
unfold Api.predict.
now destruct (FakeNewsDetector.predict detector (strip raw)).
Qed.

Lemma analyze_text_accepted (detector : FakeNewsDetector.t F) get_json raw :
  accepted_text get_json raw ->
  exists verdict,
    FakeNewsDetector.predict detector (strip raw) = Some verdict /\
    Dict.has_key "method" verdict = true /\
    Api.analyze_text (Some detector) get_json
    = (PDict [ ("success", PBool true); ("result", Py.of_dict verdict) ], 200).
Proof.
intros (d & -> & Hd & Ht & Hb & Hl).
rewrite (analyze_text_dict detector d raw Hd Ht), Hb.
apply Nat.ltb_ge in Hl. rewrite Hl.
assert (Hs : all_space (strip raw) = false) by now rewrite strip_all_space.
destruct (predict_not_blank detector (strip raw) Hs) as (s & details & _ & _ & Hp).
rewrite Hp. eexists. split; [reflexivity|]. now split.
Qed.

Lemma analyze_text_refused (detector : FakeNewsDetector.t F) get_json :
  refused_text get_json ->
  snd (Api.analyze_text (Some detector) get_json) = 400.
Proof.
intros (data & -> & [Hf | (d & raw & -> & Ht & Hr)]).
- unfold Api.analyze_text. cbn [rbind]. now rewrite Hf.
- destruct d as [|entry d]; [reflexivity|].
  rewrite (analyze_text_dict detector _ raw) by (congruence || exact Ht).
  destruct Hr as [Hb | Hl].
  + now rewrite Hb.
  + destruct (all_space raw); [reflexivity|].
    apply Nat.ltb_lt in Hl. now rewrite Hl.
Qed.

(** Any other request is answered with status 500. *)
Lemma analyze_text_other (detector : FakeNewsDetector.t F) get_json :
  (exists raw, accepted_text get_json raw) \/
  refused_text get_json \/
  snd (Api.analyze_text (Some detector) get_json) = 500.
Proof.
destruct get_json as [e | data]; [right; right; reflexivity|].
destruct (Py.truthy data) eqn:Htruthy;
  [|right; left; exists data; split; [reflexivity | now left]].
destruct data as [ | b | n | x | s | l | d];
  try (right; right; unfold Api.analyze_text; cbn [rbind];
       rewrite Htruthy; reflexivity).
destruct (Py.get_default "text" (PStr "") d) as [ | b | n | x | raw | l | d'] eqn:Ht;
  try (right; right; unfold Api.analyze_text; cbn [rbind Api.get_of];
       rewrite Htruthy, Ht; reflexivity).
assert (Hd : d <> []) by (destruct d; [discriminate Htruthy | discriminate]).
destruct (all_space raw) eqn:Hb.
- right. left. exists (PDict d). split; [reflexivity|]. right.
  exists d, raw. now auto.
- destruct (Nat.le_gt_cases (String.length (strip raw)) 5000) as [Hl | Hl].
  + left. exists raw, d. now auto.
  + right. left. exists (PDict d). split; [reflexivity|]. right.
    exists d, raw. now auto.
Qed.

(** The loop of [analyze_batch] over strings *)
Lemma batch_loop_strings (detector : FakeNewsDetector.t F) (texts : list string) :
  forall acc,
  exists results,
    Api.batch_loop (Some detector) (map PStr texts) acc = inr (acc ++ results) /\
    map fst results
    = map (fun text => PStr (take 100 text)) (filter (fun text => negb (all_space text)) texts) /\
    Forall2 (fun text r =>
               FakeNewsDetector.predict detector (strip text) = Some (snd r) /\
               Dict.has_key "method" (snd r) = true)
            (filter (fun text => negb (all_space text)) texts) results.
Proof.
induction texts as [|text texts IH]; intros acc.
- exists []. cbn. rewrite app_nil_r. repeat split; constructor.
- cbn [map Api.batch_loop Api.strip_of rbind filter].
  rewrite eqb_empty_strip.
  destruct (all_space text) eqn:Hb; cbn [negb].
  + apply IH.
  + assert (Hs : all_space (strip text) = false) by now rewrite strip_all_space.
    destruct (predict_not_blank detector (strip text) Hs) as (s & d & _ & _ & Hp).
    unfold Api.predict. rewrite Hp. cbn [rbind UrlAnalyzer.slice].
    destruct (IH (acc ++ [(PStr (take 100 text), verdict detector s d)]))
      as (rs & Hrs & Hfst & Hall).
    exists ((PStr (take 100 text), verdict detector s d) :: rs).
    split; [|split].
    * rewrite Hrs, <- app_assoc. reflexivity.
    * cbn [map fst]. now rewrite Hfst.
    * constructor; [|exact Hall]. now split.
Qed.

Lemma count_label_total (detector : FakeNewsDetector.t F) (texts : list string)
    (results : list (py F * dict F)) :
  Forall2 (fun text r =>
             FakeNewsDetector.predict detector (strip text) = Some (snd r) /\
             Dict.has_key "method" (snd r) = true)
          texts results ->
  exists fake real,
    Api.count_label "FAKE" results = inr fake /\
    Api.count_label "REAL" results = inr real /\
    fake + real = List.length results.
Proof.
induction 1 as [|text [shown v] texts results [Hv Hm] _ (fake & real & Hf & Hr & Hsum)].
- now exists 0, 0.
- cbn [snd] in Hv, Hm.
  destruct (predict_shape _ _ _ Hv) as [[_ ->] | (_ & s & d & _ & ->)];
    [discriminate Hm|].
  cbn [Api.count_label verdict Dict.getitem String.eqb Ascii.eqb Bool.eqb].
  rewrite Hf, Hr. cbn [rbind].
  destruct (ltb (lit 5 10) s); cbn [String.eqb Ascii.eqb Bool.eqb];
    do 2 eexists; (split; [reflexivity|]); (split; [reflexivity|]);
    cbn [List.length]; lia.
Qed.

End Generic.
End ApiFacts.

Section ApiProperties.
Import PyStr Shape Observe PyStrFacts PredictFacts BatchFacts FetchFacts AnalyzeFacts.

(** X22.  [/api/analyze-text] with a detector: the status is 200, with the
    verdict of the stripped text (never the verdict for a blank text),
    exactly for an object whose [text] is a string that is not blank and has
    at most 5000 characters once stripped; it is 400 exactly for a body that
    is false as a condition and for a text that is blank or too long; every
    other request, such as an array or a [text] that is not a string, gets
    status 500. *)
Theorem analyze_text_status {F : Type} {num : PyNum F}
    (detector : FakeNewsDetector.t F) (get_json : result (py F)) :
  (snd (Api.analyze_text (Some detector) get_json) = 200
   <-> exists raw, accepted_text get_json raw) /\
  (snd (Api.analyze_text (Some detector) get_json) = 400
   <-> refused_text get_json) /\
  (snd (Api.analyze_text (Some detector) get_json) = 200 \/
   snd (Api.analyze_text (Some detector) get_json) = 400 \/
   snd (Api.analyze_text (Some detector) get_json) = 500) /\
  (forall raw,
     accepted_text get_json raw ->
     exists verdict,
       FakeNewsDetector.predict detector (strip raw) = Some verdict /\
       Dict.has_key "method" verdict = true /\
       Api.analyze_text (Some detector) get_json
       = (PDict [ ("success", PBool true); ("result", Py.of_dict verdict) ], 200)).
Proof.
assert (Hok : forall raw, accepted_text get_json raw ->
                snd (Api.analyze_text (Some detector) get_json) = 200).
{ intros raw H.
  destruct (ApiFacts.analyze_text_accepted detector get_json raw H) as (v & _ & _ & ->).
  reflexivity. }
pose proof (ApiFacts.analyze_text_refused detector get_json) as Hno.
pose proof (ApiFacts.analyze_text_other detector get_json) as Hcases.
split; [|split; [|split]].
- split; [|intros (raw & H); now apply (Hok raw)].
  intros H. destruct Hcases as [Ha | [Hr | H5]]; [exact Ha | |]; exfalso.
  + specialize (Hno Hr). congruence.
  + congruence.
- split; [|exact Hno].
  intros H. destruct Hcases as [(raw & Ha) | [Hr | H5]]; [|exact Hr|]; exfalso.
  + specialize (Hok raw Ha). congruence.
  + congruence.
- destruct Hcases as [(raw & Ha) | [Hr | H5]]; eauto.
- intros raw. apply ApiFacts.analyze_text_accepted.
Qed.

(** X23.  [/api/analyze-batch] on one to fifty strings: status 200; one
    result for each string that is not blank, in order, with the verdict of
    the stripped string beside the first 100 characters of the string as it
    came; every such verdict has a label [FAKE] or [REAL], so the two counts
    of the summary add up to the total. *)
Theorem analyze_batch_summary_adds_up {F : Type} {num : PyNum F}
    (detector : FakeNewsDetector.t F) (d : Py.pydict (F := F)) (texts : list string) :
  Py.get_default "texts" (PList []) d = PList (map PStr texts) ->
  texts <> [] ->
  List.length texts <= 50 ->
  exists results fake real,
    Api.analyze_batch (Some detector) (inr (PDict d))
    = (PDict [ ("success", PBool true);
               ("results", PList (map Api.entry results));
               ("summary",
                PDict [ ("total", PInt (Z.of_nat (List.length results)));
                        ("fake", PInt (Z.of_nat fake));
                        ("real", PInt (Z.of_nat real)) ]) ], 200) /\
    map fst results
    = map (fun text => PStr (take 100 text))
        (filter (fun text => negb (all_space text)) texts) /\
    Forall2 (fun text r =>
               FakeNewsDetector.predict detector (strip text) = Some (snd r) /\
               Dict.has_key "method" (snd r) = true)
            (filter (fun text => negb (all_space text)) texts) results /\
    fake + real = List.length results.
Proof.
intros Ht Hne Hlen.
destruct (ApiFacts.batch_loop_strings detector texts []) as (results & Hloop & Hfst & Hall).
destruct (ApiFacts.count_label_total detector _ _ Hall) as (fake & real & Hf & Hr & Hsum).
exists results, fake, real. split; [|now repeat split].
unfold Api.analyze_batch. cbn [rbind Api.get_of]. rewrite Ht.
destruct texts as [|text texts]; [congruence|].
change (map PStr (text :: texts)) with (PStr (F := F) text :: map PStr texts) in *.
rewrite <- (length_map (PStr (F := F))) in Hlen.
apply Nat.ltb_ge in Hlen.
change (PStr (F := F) text :: map PStr texts) with (map (PStr (F := F)) (text :: texts)) in *.
cbn [map] in Hlen |- *. rewrite Hlen.
cbn [map app] in Hloop. rewrite Hloop. cbn [rbind]. rewrite Hf, Hr. reflexivity.
Qed.

(** X23 at three entries, the second blank. *)
Lemma analyze_batch_summary_adds_up_witness :
  exists results fake real,
    Api.analyze_batch (F := Q) (Some Scenario.rule_based)
      (inr (PDict Fixture.batch_body))
    = (PDict [ ("success", PBool true);
               ("results", PList (map Api.entry results));
               ("summary",
                PDict [ ("total", PInt (Z.of_nat (List.length results)));
                        ("fake", PInt (Z.of_nat fake));
                        ("real", PInt (Z.of_nat real)) ]) ], 200) /\
    List.length results = 2 /\
    fake + real = 2.
Proof.
destruct (analyze_batch_summary_adds_up (F := Q) Scenario.rule_based Fixture.batch_body
            [ "  Shocking news  "; "   "; "Council meets" ] eq_refl)
  as (results & fake & real & Hr & Hfst & _ & Hsum);
  [discriminate | cbn; lia |].
exists results, fake, real. split; [exact Hr|].
assert (Hlen : List.length results = 2).
{ rewrite <- (length_map fst), Hfst. reflexivity. }
split; [exact Hlen|]. now rewrite Hsum.
Defined.

(** X24.  [/api/analyze-url] answers 200 with [success] set whatever the
    fetch gave: the result of [analyze_url] is passed on as it is, also when
    its status is [error]. *)
Theorem url_endpoint_ok_whatever_the_fetch {F : Type} {num : PyNum F}
    (world : UrlAnalyzer.web) (d : Py.pydict (F := F)) (raw : string) :
  UrlAnalyzer.available world = true ->
  Py.get_default "url" (PStr "") d = PStr raw ->
  all_space raw = false ->
  exists analyzer r,
    UrlAnalyzer.init world 10 (FakeNewsDetector.init false None) = inr analyzer /\
    UrlAnalyzer.analyze_url world analyzer (strip raw) true true = inr r /\
    Api.analyze_url true world (inr (PDict d))
    = (PDict [ ("success", PBool true); ("result", PDict r) ], 200).
Proof.
intros Ha Hu Hb. unfold Api.analyze_url, UrlAnalyzer.init.
cbn [negb rbind Api.get_of]. rewrite Hu, Ha. cbn [rbind Api.strip_of negb].
rewrite eqb_empty_strip, Hb.
set (self := {| UrlAnalyzer.timeout := 10%Z;
                UrlAnalyzer.detector := FakeNewsDetector.init false None |}).
destruct (analyze_url_returns world self (strip raw) Ha) as (r & Hr).
exists self, r. split; [reflexivity|]. split; [exact Hr|].
rewrite Hr. reflexivity.
Qed.

(** X24 at an address that times out. *)
Lemma url_endpoint_ok_whatever_the_fetch_witness :
  UrlAnalyzer.available Fixture.town = true /\
  all_space " example.org/slow " = false /\
  exists r,
    Api.analyze_url (F := Q) true Fixture.town
      (inr (PDict [ ("url", PStr " example.org/slow ") ]))
    = (PDict [ ("success", PBool true); ("result", PDict r) ], 200).
Proof.
split; [reflexivity|]. split; [reflexivity|].
destruct (url_endpoint_ok_whatever_the_fetch (F := Q) Fixture.town
            [ ("url", PStr " example.org/slow ") ] " example.org/slow "
            eq_refl eq_refl eq_refl)
  as (analyzer & r & _ & _ & Hr).
now exists r.
Defined.

End ApiProperties.

(** ** The scenarios replayed *)

Example budget_article_cleaned :
  UrlAnalyzer.clean Fixture.budget_article
  = "The council approved the budget on Monday. Members voted nine to two after a long debate.".
Proof. vm_compute. reflexivity. Qed.

(** The two substitutions are made one after the other: a phrase of the
    pattern that is broken over two lines is not cut, and is whole again
    once the white space is collapsed. *)
Example broken_phrase_survives :
  UrlAnalyzer.clean ("Read" ++ String UrlAnalyzer.newline "more news")
  = "Read more news" /\
  Shape.has_boilerplate "Read more news" = true.
Proof. split; vm_compute; reflexivity. Qed.

(** An article of one line that begins with the word [Copyright] is lost
    entirely, and the fetch reports that there is no content. *)
Example notice_page_is_lost :
  UrlAnalyzer.fetch_article (F := Q) Fixture.town Fixture.analyzer "example.org/notice"
  = inr [ ("url", PStr "https://example.org/notice"); ("title", PStr "Copyright law");
          ("content", PNone); ("status", PStr "error");
          ("error", PStr "Could not extract article content") ].
Proof. vm_compute. reflexivity. Qed.

(** Title and content are both [FAKE], each with a fused score of 0.5004
    that its verdict rounds to 0.5; the overall score is then 0.5, which is
    not above the threshold, and the overall label is [REAL]. *)
Example both_parts_fake_overall_real :
  exists r,
    UrlAnalyzer.analyze_url (F := Q) Fixture.town Fixture.leaning
      "example.org/tabloid" true true = inr r /\
    UrlAnalyzer.analysis_field "title_analysis" "label" r = inr (PStr "FAKE") /\
    UrlAnalyzer.analysis_field "content_analysis" "label" r = inr (PStr "FAKE") /\
    Py.lookup "overall_label" r = Some (PStr "REAL").
Proof. eexists. split; [vm_compute; reflexivity|]. repeat split. Qed.

Example binary64_both_parts_fake_overall_real :
  exists r,
    UrlAnalyzer.analyze_url (F := float) Fixture.town Fixture.leaning
      "example.org/tabloid" true true = inr r /\
    UrlAnalyzer.analysis_field "title_analysis" "label" r = inr (PStr "FAKE") /\
    UrlAnalyzer.analysis_field "content_analysis" "label" r = inr (PStr "FAKE") /\
    Py.lookup "overall_fake_score" r = Some (PFloat (lit 5 10)) /\
    Py.lookup "overall_label" r = Some (PStr "REAL").
Proof. eexists. split; [vm_compute; reflexivity|]. repeat split. Qed.

(** The endpoint reports a fetch that timed out as a success. *)
Example timeout_answered_with_success :
  Api.analyze_url (F := Q) true Fixture.town
    (inr (PDict [ ("url", PStr " example.org/slow ") ]))
  = (PDict [ ("success", PBool true);
             ("result",
              PDict [ ("url", PStr "https://example.org/slow");
                      ("status", PStr "error");
                      ("error", PStr "Request timeout (>10s)") ]) ], 200).
Proof. vm_compute. reflexivity. Qed.

(** A body that is an array is answered with status 500, not 400. *)
Example array_body_is_server_error :
  Api.analyze_text (F := Q) (Some Scenario.rule_based) (inr (PList [ PStr "news" ]))
  = Api.error "Server error: 'list' object has no attribute 'get'" 500.
Proof. vm_compute. reflexivity. Qed.

(** Without a detector [analyze_batch] fails at the first entry that is not
    blank, and answers 200 when there is none. *)
Example batch_without_detector :
  Api.analyze_batch (F := Q) None (inr (PDict Fixture.batch_body))
  = Api.error "'NoneType' object has no attribute 'predict'" 500 /\
  Api.analyze_batch (F := Q) None (inr (PDict [ ("texts", PList [ PStr "   " ]) ]))
  = (PDict [ ("success", PBool true); ("results", PList []);
             ("summary",
              PDict [ ("total", PInt 0); ("fake", PInt 0); ("real", PInt 0) ]) ], 200).
Proof. split; vm_compute; reflexivity. Qed.

(** [--file] with a file that does not exist *)
Example missing_file_exits :
  Cli.main (F := Q)
    {| Cli.use_transformer := false; Cli.file_arg := Some "news.txt";
       Cli.text_arg := None; Cli.url_arg := None |}
    Fixture.surroundings
  = ([ Cli.InitLine; Cli.Banner; Cli.ProcessingLine "news.txt";
       Cli.FileNotFoundLine "news.txt" ],
     inl (Cli.Exits 1)).
Proof. vm_compute. reflexivity. Qed.

(** ** White space and capitals beyond ASCII *)

(** A no-break space is white space for [strip] and [split]: the text is
    blank, [predict] answers with the [UNKNOWN] verdict, the batch loop skips
    the line, and [quit] is recognised behind it. *)
Example no_break_space_is_blank :
  PyStr.all_space Latin1.nbsp = true /\
  PyStr.strip (Latin1.nbsp ++ "quit" ++ Latin1.nel) = "quit" /\
  Shape.is_quit (Latin1.nbsp ++ "quit") = true /\
  FakeNewsDetector.predict (F := Q) Scenario.rule_based Latin1.nbsp
  = Some Observe.empty_verdict /\
  Observe.kept [ Latin1.nbsp; "Real headline." ] = [ "Real headline." ] /\
  snd (Api.analyze_text (F := Q) (Some Scenario.rule_based)
         (inr (PDict [ ("text", PStr Latin1.nbsp) ]))) = 400 /\
  snd (Cli.main (F := Q)
         {| Cli.use_transformer := false; Cli.file_arg := None;
            Cli.text_arg := Some Latin1.nbsp; Cli.url_arg := None |}
         Fixture.surroundings)
  = inl (Cli.Raises (KeyError "method")).
Proof. repeat split; vm_compute; reflexivity. Qed.

(** Words joined by no-break spaces are counted one by one: one mark in
    twenty words is a ratio of 0.05, and the punctuation rule does not fire;
    five no-break spaces separated by spaces are no word at all, and only the
    length rule fires. *)
Example no_break_space_separates_words :
  List.length (PyStr.split Latin1.twenty_words) = 20 /\
  SimpleRuleBasedDetector.check_punctuation (F := Q) Latin1.twenty_words [] = [] /\
  PyStr.split Latin1.spaced_out = [] /\
  SimpleRuleBasedDetector.scores (F := Q) Latin1.spaced_out = [(1 # 10)%Q].
Proof. repeat split; vm_compute; reflexivity. Qed.

(** Accented capitals are capitals and letters: 8 in 17 is above three in
    ten, and the capitals rule fires. *)
Example accented_capitals_count :
  PyStr.count_if PyStr.isupper Latin1.accented_capitals = 8 /\
  PyStr.count_if PyStr.isalpha Latin1.accented_capitals = 17 /\
  SimpleRuleBasedDetector.check_caps (F := Q) Latin1.accented_capitals []
  = [(2 # 10)%Q].
Proof. repeat split; vm_compute; reflexivity. Qed.

(** No-break spaces are collapsed with the other white space. *)
Example no_break_spaces_collapse :
  UrlAnalyzer.clean ("Words" ++ Latin1.nbsp ++ Latin1.nbsp ++ "joined")
  = "Words joined".
Proof. vm_compute. reflexivity. Qed.

(** The JSON body [NaN] is true as a condition, so the handler goes on to
    [data.get] and answers 500; the body [0.0] is refused with 400. *)
Example nan_body_is_server_error :
  Py.truthy (PFloat PrimFloat.nan) = true /\
  Api.analyze_text (F := float) (Some Scenario.rule_based) (inr (PFloat PrimFloat.nan))
  = Api.error "Server error: 'float' object has no attribute 'get'" 500 /\
  Api.analyze_text (F := float) (Some Scenario.rule_based) (inr (PFloat PrimFloat.zero))
  = Api.error "No JSON data provided" 400.
Proof. repeat split; vm_compute; reflexivity. Qed.
